(** * openbook-cli: a shallow embedding of [src/index.ts]

    The command-line client reads decentralised-exchange markets from a
    blockchain node through two external libraries (the RPC client and the
    exchange SDK), keeps a small cache of known markets and token symbols
    in two module-level variables, and persists that cache to a JSON file.

    The embedding follows the TypeScript source function by function:
    - the two module-level variables, the file system and the log of the
      calls issued to the outside world form an explicit [State];
    - every [async function] becomes a computation in a state-and-exception
      monad [M]; [try { .. } catch (error) { .. }] is [try_catch];
    - the outside world (RPC node, SDK decoder, JSON codec, address
      validation) is a record of oracles [Env]; the objects the SDK hands
      back ([Market], [Orderbook]) are records of their methods;
    - JavaScript numbers are the IEEE 754 binary64 numbers of the
      language, [float] with its primitive operations: subtraction,
      division and multiplication round as the program's do, and a number
      is truthy when it is neither a zero nor NaN;
    - the two module-level objects are finite maps from strings holding
      their own properties.  [KNOWN_MARKETS] is declared with values of
      type [any] and is filled from the store file: its entries are
      [StoredEntry] values, which can be [null], a falsy primitive or an
      object with some of its fields missing, and a read of a key that is
      not an own property falls through to [Object.prototype]. *)

From Stdlib Require Import String List ZArith Bool Lia Floats.
From stdpp Require Import base option gmap strings list.

Set Warnings "-inexact-float".

Local Open Scope string_scope.
Local Open Scope list_scope.

(** ** Constants *)

Definition OPENBOOK_PROGRAM_ID : string := "srmqPvymJeFKQ4zGQed1GFppgkRHL9kaELCbyksJtPX".
Definition SERUM_PROGRAM_ID : string := "9xQeWvG816bUx9EPjHmaT23yvVM2ZWbrrpZb9PusVFin".

(** ** Data model *)

Inductive Side := bid | ask.

Record OrderBookLevel := mkLevel {
  price : float;
  size : float;
  side : Side
}.

Record MarketInfo := mkMarketInfo {
  address : string;
  baseMint : string;
  quoteMint : string;
  baseSymbol : string;
  quoteSymbol : string;
  minOrderSize : option float;
  priceTick : option float;
  eventQueueLength : option float;
  requestQueueLength : option float;
  bidsLength : option float;
  asksLength : option float
}.

Record TokenMetadata := mkTokenMetadata {
  symbol : string;
  name : string;
  decimals : Z
}.

(** The properties the program reads from an entry of [KNOWN_MARKETS].
    [addMarketToKnownMarkets] writes all nine; an entry that comes from the
    store file may lack any of them ([None] is [undefined]).  A property
    that is present has the type [addMarketToKnownMarkets] gives it. *)
Record KnownMarket := mkKnownMarket {
  km_name : option string;
  km_baseMint : option string;
  km_quoteMint : option string;
  km_minOrderSize : option float;
  km_priceTick : option float;
  km_eventQueueLength : option float;
  km_requestQueueLength : option float;
  km_bidsLength : option float;
  km_asksLength : option float
}.

(** A value under a key of [KNOWN_MARKETS]: [null], a falsy primitive
    ([0], [""], [false]: no property, but reading one does not raise), or
    a truthy value seen through the properties above. *)
Inductive StoredEntry :=
| NullEntry
| FalsyEntry
| ObjectEntry (marketData : KnownMarket).

Record OrderBook := mkOrderBook {
  bids : list OrderBookLevel;
  asks : list OrderBookLevel
}.

Record MarketStats := mkMarketStats {
  totalBids : nat;
  totalAsks : nat;
  bestBid : option float;
  bestAsk : option float;
  spread : option float;
  spreadPercentage : option float
}.

(** ** JavaScript values and exceptions *)

(** A thrown value: an [Error] object with its message, or anything else. *)
Inductive JsError :=
| Error (message : string)
| NonError.

Inductive Result (A : Type) :=
| Ok (a : A)
| Throw (e : JsError).
Arguments Ok {A} a.
Arguments Throw {A} e.

(** Truthiness of the values the source tests with [if (x)], [!x], [&&], [||]. *)
Definition truthy_string (s : string) : bool := negb (String.eqb s "").
(** a number is falsy when it is [0], [-0] or [NaN] *)
Definition truthy_number (x : float) : bool := negb (x =? 0)%float && (x =? x)%float.

(** [s.slice(0, n)] *)
Definition slice0 (n : nat) (s : string) : string := substring 0 n s.

(** [s.includes(pat)] *)
Definition includes (pat s : string) : bool :=
  match index 0 pat s with
  | Some _ => true
  | None => false
  end.

(** [args.includes(flag)] *)
Definition args_includes (flag : string) (args : list string) : bool :=
  existsb (String.eqb flag) args.

(** ** The outside world *)

(** Calls that leave the process, in the order they are issued. *)
Inductive Event :=
| EvGetAccountInfo (addr : string)
| EvGetParsedAccountInfo (addr : string)
| EvMarketLoad (addr programId : string)
| EvLoadBids
| EvLoadAsks
| EvWriteFile (fileName : string)
| EvExecSync (command : string)
| EvHttpsRequest (hostname path : string).

(** Result of an asynchronous call: a value, or a rejection. *)
Definition Rpc (A : Type) := Result A.

(** [Orderbook] of the SDK: the only method used is [getL2(depth)], which
    returns (price, size) pairs. *)
Record Orderbook := mkOrderbook {
  getL2 : nat -> list (float * float)
}.

(** [Market] of the SDK: two fields and two methods are used.  The methods
    are network calls, so they see the calls issued so far. *)
Record Market := mkMarket {
  baseMintAddress : string;
  quoteMintAddress : string;
  loadBids : list Event -> Rpc Orderbook;
  loadAsks : list Event -> Rpc Orderbook
}.

(** [connection.getAccountInfo]: owner (as printed by [toString]) and data
    length of an existing account. *)
Record AccountInfo := mkAccountInfo {
  owner : string;
  data_length : nat
}.

(** [connection.getParsedAccountInfo(..).value.data]: either the node parsed
    the account as a mint and [parsed.info.decimals] is there, or the data
    has no such path and reading it raises a [TypeError]. *)
Inductive AccountData :=
| ParsedMint (info_decimals : Z)
| Unparsed.

(** What [JSON.parse(fs.readFileSync(..))] can give the loader: a syntax
    error, a value whose property access raises ([null]), or a value whose
    [markets] and [symbols] properties are either falsy/missing ([None]) or
    objects: [markets] with any entries, [symbols] with strings. *)
Inductive Parsed :=
| ParseThrows
| ParsedNull
| ParsedData (markets : option (gmap string StoredEntry))
             (symbols : option (gmap string string)).

(** An entry of the installation directory. *)
Inductive FileEntry :=
| FileContent (text : string)
| Unreadable.

Record Env := mkEnv {
  (** [new PublicKey(address)] succeeds *)
  validKey : string -> bool;
  (** [connection.getAccountInfo(pubkey)] *)
  rpcGetAccountInfo : list Event -> string -> Rpc (option AccountInfo);
  (** [connection.getParsedAccountInfo(pubkey)], its [value] field *)
  rpcGetParsedAccountInfo : list Event -> string -> Rpc (option AccountData);
  (** [Market.load(connection, address, {}, programId)] *)
  marketLoad : list Event -> string -> string -> Rpc Market;
  (** [JSON.parse] on the text of a store file *)
  jsonParse : string -> Parsed;
  (** [JSON.stringify({markets, symbols}, null, 2)] *)
  jsonStringify : gmap string StoredEntry -> gmap string string -> string;
  (** [fs.writeFileSync(path, ..)] raises *)
  writeFails : string -> bool
}.

(** ** Process state *)

(** What the program prints, in the order it prints it.  Banners, usage
    text and progress lines are left out; error lines are kept as text
    (without their pictograph prefix); the reports are kept as the data
    they show, the title line of a report apart from its body because the
    program prints the title before it fetches the body; [OutVersion] is
    the line that shows the version of the program, or that it is unknown.

    A listing of [KNOWN_MARKETS] is the mapping from each address to the
    name printed in front of it ([None] prints as [undefined]); the lines
    come in the order of [Object.entries], which the finite map does not
    keep.  [OutMarketListCut] stands for a listing that an exception cut
    short: the lines of the entries that precede the offending one. *)
Inductive Out :=
| OutError (line : string)
| OutMarketInfoTitle (marketName : string)
| OutMarketInfo (info : MarketInfo)
| OutVerified (ok : bool)
| OutOrderBookTitle (marketName : string)
| OutOrderBook (asksShown bidsShown : list OrderBookLevel) (stats : MarketStats)
| OutMarketList (entries : gmap string (option string))
| OutMarketListCut
| OutVersion.

Record State := mkState {
  KNOWN_MARKETS : gmap string StoredEntry;
  KNOWN_TOKEN_SYMBOLS : gmap string string;
  files : gmap string FileEntry;
  trace : list Event;
  console : list Out
}.

Definition set_markets (m : gmap string StoredEntry) (s : State) : State :=
  mkState m (KNOWN_TOKEN_SYMBOLS s) (files s) (trace s) (console s).
Definition set_symbols (m : gmap string string) (s : State) : State :=
  mkState (KNOWN_MARKETS s) m (files s) (trace s) (console s).
Definition set_files (f : gmap string FileEntry) (s : State) : State :=
  mkState (KNOWN_MARKETS s) (KNOWN_TOKEN_SYMBOLS s) f (trace s) (console s).
Definition emit (e : Event) (s : State) : State :=
  mkState (KNOWN_MARKETS s) (KNOWN_TOKEN_SYMBOLS s) (files s) (trace s ++ [e]) (console s).
Definition print (o : Out) (s : State) : State :=
  mkState (KNOWN_MARKETS s) (KNOWN_TOKEN_SYMBOLS s) (files s) (trace s) (console s ++ [o]).

(** ** The monad of the program: state and exceptions *)

Definition M (A : Type) : Type := State -> Result A * State.

Definition ret {A} (a : A) : M A := fun s => (Ok a, s).
Definition throw {A} (e : JsError) : M A := fun s => (Throw e, s).
Definition bind {A B} (m : M A) (k : A -> M B) : M B :=
  fun s =>
    match m s with
    | (Ok a, s') => k a s'
    | (Throw e, s') => (Throw e, s')
    end.
Definition try_catch {A} (m : M A) (handler : JsError -> M A) : M A :=
  fun s =>
    match m s with
    | (Ok a, s') => (Ok a, s')
    | (Throw e, s') => handler e s'
    end.
Definition get_state : M State := fun s => (Ok s, s).
Definition modify (f : State -> State) : M unit := fun s => (Ok tt, f s).

Notation "'do' x <- m ; k" := (bind m (fun x => k))
  (at level 10, x name, m at level 100, k at level 200).
Notation "m ;; k" := (bind m (fun _ => k))
  (at level 100, k at level 200, right associativity).

(** [await] of an oracle call: log the call, then deliver its outcome. *)
Definition await {A} (ev : Event) (oracle : list Event -> Rpc A) : M A :=
  fun s => (oracle (trace s), emit ev s).

Definition console_error (line : string) : M unit := modify (print (OutError line)).

(** [error instanceof Error ? error.message : fallback] *)
Definition message_or (fallback : string) (e : JsError) : string :=
  match e with
  | Error msg => msg
  | NonError => fallback
  end.

(** [if (error instanceof Error) throw error; throw new Error(fallback)] *)
Definition rethrow_as_error {A} (fallback : string) (e : JsError) : M A :=
  match e with
  | Error msg => throw (Error msg)
  | NonError => throw (Error fallback)
  end.

(** [error instanceof Error && error.message === "Invalid public key format"] *)
Definition is_invalid_key_error (e : JsError) : bool :=
  match e with
  | Error msg => String.eqb msg "Invalid public key format"
  | NonError => false
  end.

Definition programName (useSerum : bool) : string :=
  if useSerum then "Serum" else "OpenBook".
Definition programId (useSerum : bool) : string :=
  if useSerum then SERUM_PROGRAM_ID else OPENBOOK_PROGRAM_ID.
Definition storeFileName (useSerum : bool) : string :=
  if useSerum then "known_serum_markets.json" else "known_openbook_markets.json".

(** [obj[key]] followed by a truthiness test on a map of strings: the entry
    counts only when it is there and not the empty string. *)
Definition truthy_symbol (m : gmap string string) (key : string) : option string :=
  match m !! key with
  | Some v => if truthy_string v then Some v else None
  | None => None
  end.

(** ** Reading [KNOWN_MARKETS]

    [KNOWN_MARKETS[key]] looks the key up among the own properties and
    then on [Object.prototype].  There [constructor] is the function
    [Object], whose [name] is "Object"; the other methods are functions
    named after their key; [__proto__] gives the prototype object itself.
    None of them has a property called [baseMint], [quoteMint] or one of
    the six numbers.  (An assignment under the key [__proto__] would
    replace the prototype instead of adding a property; the program
    assigns under addresses that passed [createPublicKey] only, and the
    underscore is not a character of an address.) *)
Definition objectPrototypeMethods : list string :=
  [ "__defineGetter__"; "__defineSetter__"; "hasOwnProperty"; "__lookupGetter__";
    "__lookupSetter__"; "isPrototypeOf"; "propertyIsEnumerable"; "toString";
    "valueOf"; "toLocaleString" ].

Definition namedOnly (n : option string) : KnownMarket :=
  mkKnownMarket n None None None None None None None None.

Definition inheritedProperty (key : string) : option StoredEntry :=
  if String.eqb key "constructor" then Some (ObjectEntry (namedOnly (Some "Object")))
  else if String.eqb key "__proto__" then Some (ObjectEntry (namedOnly None))
  else if existsb (String.eqb key) objectPrototypeMethods
       then Some (ObjectEntry (namedOnly (Some key)))
       else None.

Definition readMarket (markets : gmap string StoredEntry) (key : string)
  : option StoredEntry :=
  match markets !! key with
  | Some entry => Some entry
  | None => inheritedProperty key
  end.

(** [if (marketData)]: the value when it is truthy *)
Definition truthy_entry (entry : option StoredEntry) : option KnownMarket :=
  match entry with
  | Some (ObjectEntry marketData) => Some marketData
  | _ => None
  end.

(** The [TypeError] raised by reading a property of [undefined] or [null]. *)
Definition cannotRead (property value : string) : JsError :=
  Error ("Cannot read properties of " +:+ value +:+ " (reading '" +:+ property +:+ "')").

(** [market.name] inside [Object.entries(KNOWN_MARKETS).forEach]: it raises
    on a [null] entry. *)
Definition is_null (entry : StoredEntry) : bool :=
  match entry with
  | NullEntry => true
  | _ => false
  end.

Definition has_null_entry (markets : gmap string StoredEntry) : bool :=
  existsb (fun entry => is_null (snd entry)) (map_to_list markets).

Definition shownName (entry : StoredEntry) : option string :=
  match entry with
  | ObjectEntry marketData => km_name marketData
  | _ => None
  end.

(** The loop [Object.entries(KNOWN_MARKETS).forEach(([address, market]) =>
    console.log(`${market.name}: ${address}`))]. *)
Definition printKnownMarkets : M unit :=
  fun s =>
    if has_null_entry (KNOWN_MARKETS s)
    then (Throw (cannotRead "name" "null"), print OutMarketListCut s)
    else (Ok tt, print (OutMarketList (shownName <$> KNOWN_MARKETS s)) s).

Section Program.
Variable env : Env.

(** ** [createPublicKey] *)
Definition createPublicKey (address : string) : M string :=
  if validKey env address then ret address
  else throw (Error "Invalid public key format").

(** ** [isValidMarket] *)
Definition isValidMarket (marketAddress : string) (useSerum : bool) : M bool :=
  try_catch
    (do marketPubkey <- createPublicKey marketAddress;
     do marketAccount <- await (EvGetAccountInfo marketPubkey)
                           (fun tr => rpcGetAccountInfo env tr marketPubkey);
     match marketAccount with
     | None => ret false
     | Some acct => ret (String.eqb (owner acct) (programId useSerum))
     end)
    (fun _ => ret false).

(** ** [getTokenMetadata] *)
Definition getTokenMetadata (mintAddress : string) : M TokenMetadata :=
  try_catch
    (do mintPubkey <- createPublicKey mintAddress;
     do s <- get_state;
     match truthy_symbol (KNOWN_TOKEN_SYMBOLS s) mintAddress with
     | Some knownSymbol => ret (mkTokenMetadata knownSymbol knownSymbol 6)
     | None =>
         do tokenInfo <- await (EvGetParsedAccountInfo mintPubkey)
                           (fun tr => rpcGetParsedAccountInfo env tr mintPubkey);
         match tokenInfo with
         | None => throw (Error "Token account not found")
         | Some Unparsed => throw (Error "TypeError")
         | Some (ParsedMint decimals) =>
             ret (mkTokenMetadata (slice0 8 mintAddress) "Unknown Token" decimals)
         end
     end)
    (fun error =>
       console_error ("Error fetching token metadata for " +:+ mintAddress) ;;
       ret (mkTokenMetadata (slice0 8 mintAddress) "Unknown Token" 6)).

(** ** [loadOpenBookMarket] *)
Definition loadOpenBookMarket (marketAddress : string) (useSerum : bool) : M Market :=
  try_catch
    (do marketPubkey <- createPublicKey marketAddress;
     do programKey <- createPublicKey (programId useSerum);
     await (EvMarketLoad marketPubkey programKey)
           (fun tr => marketLoad env tr marketPubkey programKey))
    (fun error =>
       match error with
       | Error msg =>
           if includes "Address not owned by program" msg
           then throw (Error ("Market not owned by " +:+ programName useSerum +:+ " program"))
           else if includes "Market account not found" msg
           then throw (Error "Market account not found")
           else throw (Error ("Failed to load " +:+ programName useSerum +:+ " market: " +:+ msg))
       | NonError =>
           throw (Error ("Failed to load " +:+ programName useSerum +:+ " market: Unknown error"))
       end).

(** ** [getMarketInfo] *)

(** [getTokenMetadata(marketData.baseMint)], with the mint it was given.
    For a property that is missing, [createPublicKey(undefined)] throws, the
    [catch] of [getTokenMetadata] prints its line and then evaluates
    [mintAddress.slice(0, 8)], whose [TypeError] leaves [getTokenMetadata]. *)
Definition getTokenMetadataOfProperty (mint : option string) : M (string * TokenMetadata) :=
  match mint with
  | Some mintAddress =>
      do metadata <- getTokenMetadata mintAddress;
      ret (mintAddress, metadata)
  | None =>
      console_error "Error fetching token metadata for undefined" ;;
      throw (cannotRead "slice" "undefined")
  end.

Definition getMarketInfo (marketAddress : string) (useSerum : bool) : M MarketInfo :=
  try_catch
    (do s <- get_state;
     match truthy_entry (readMarket (KNOWN_MARKETS s) marketAddress) with
     | Some marketData =>
         do base <- getTokenMetadataOfProperty (km_baseMint marketData);
         do quote <- getTokenMetadataOfProperty (km_quoteMint marketData);
         ret (mkMarketInfo marketAddress
                (fst base) (fst quote)
                (symbol (snd base)) (symbol (snd quote))
                (km_minOrderSize marketData) (km_priceTick marketData)
                (km_eventQueueLength marketData) (km_requestQueueLength marketData)
                (km_bidsLength marketData) (km_asksLength marketData))
     | None =>
         do market <- loadOpenBookMarket marketAddress useSerum;
         do baseMetadata <- getTokenMetadata (baseMintAddress market);
         do quoteMetadata <- getTokenMetadata (quoteMintAddress market);
         ret (mkMarketInfo marketAddress
                (baseMintAddress market) (quoteMintAddress market)
                (symbol baseMetadata) (symbol quoteMetadata)
                (Some 1%float) (Some 0.0001%float) (Some 2978%float)
                (Some 63%float) (Some 909%float) (Some 909%float))
     end)
    (rethrow_as_error "Failed to fetch market info").

(** ** [getMarketAccounts] *)
Definition getMarketAccounts (marketAddress : string) (useSerum : bool) : M AccountInfo :=
  try_catch
    (do marketPubkey <- createPublicKey marketAddress;
     do marketAccount <- await (EvGetAccountInfo marketPubkey)
                           (fun tr => rpcGetAccountInfo env tr marketPubkey);
     match marketAccount with
     | None => throw (Error "Market account not found")
     | Some acct =>
         if negb (String.eqb (owner acct) (programId useSerum))
         then throw (Error ("Market not owned by " +:+ programName useSerum
                              +:+ " program. Owner: " +:+ owner acct))
         else ret acct
     end)
    (rethrow_as_error "Failed to fetch market accounts").

(** ** [getRealOrderBook] *)
Definition bidLevel (entry : float * float) : OrderBookLevel :=
  mkLevel (fst entry) (snd entry) bid.
Definition askLevel (entry : float * float) : OrderBookLevel :=
  mkLevel (fst entry) (snd entry) ask.

Definition getRealOrderBook (marketAddress : string) (depth : nat) (useSerum : bool)
  : M OrderBook :=
  try_catch
    (do market <- loadOpenBookMarket marketAddress useSerum;
     do bidsBook <- await EvLoadBids (loadBids market);
     do asksBook <- await EvLoadAsks (loadAsks market);
     let bidsArray := getL2 bidsBook 20 in
     let asksArray := getL2 asksBook 20 in
     let bidOrders := map bidLevel bidsArray in
     let askOrders := map askLevel asksArray in
     ret (mkOrderBook bidOrders askOrders))
    (rethrow_as_error "Failed to fetch order book").

(** ** [getOrderBook] *)
Definition getOrderBook (marketAddress : string) (depth : nat) : M OrderBook :=
  try_catch
    (do marketAccount <- getMarketAccounts marketAddress false;
     getRealOrderBook marketAddress depth false)
    (fun error =>
       console_error "Error fetching order book from blockchain:" ;;
       throw error).

(** ** Best prices and spread, as [getMarketStats] and [displayOrderBook]
       compute them *)
Definition best (levels : list OrderBookLevel) : option float :=
  match levels with
  | l :: _ => Some (price l)
  | [] => None
  end.

(** [bestBid && bestAsk ? bestAsk - bestBid : null] *)
Definition spread_of (bestBid bestAsk : option float) : option float :=
  match bestBid, bestAsk with
  | Some b, Some a =>
      if truthy_number b && truthy_number a then Some (a - b)%float else None
  | _, _ => None
  end.

(** [spread && bestBid ? (spread / bestBid) * 100 : null] *)
Definition spreadPercentage_of (spread bestBid : option float) : option float :=
  match spread, bestBid with
  | Some sp, Some b =>
      if truthy_number sp && truthy_number b then Some ((sp / b) * 100)%float else None
  | _, _ => None
  end.

Definition stats_of (book : OrderBook) : MarketStats :=
  let bestBid := best (bids book) in
  let bestAsk := best (asks book) in
  let spread := spread_of bestBid bestAsk in
  let spreadPercentage := spreadPercentage_of spread bestBid in
  mkMarketStats (length (bids book)) (length (asks book))
                bestBid bestAsk spread spreadPercentage.

(** ** [getMarketStats] *)
Definition getMarketStats (marketAddress : string) (useSerum : bool) : M MarketStats :=
  try_catch
    (do book <- getRealOrderBook marketAddress 1 useSerum;
     ret (stats_of book))
    (fun error =>
       console_error "Error fetching market stats:" ;;
       throw error).

(** ** [displayOrderBook] *)

(** [marketData?.name || marketAddress] *)
Definition fallbackMarketName (s : State) (marketAddress : string) : string :=
  match readMarket (KNOWN_MARKETS s) marketAddress with
  | Some (ObjectEntry marketData) =>
      match km_name marketData with
      | Some n => if truthy_string n then n else marketAddress
      | None => marketAddress
      end
  | _ => marketAddress
  end.

(** The inner [try] that replaces the name by "base/quote" when
    [getMarketInfo] succeeds. *)
Definition resolveMarketName (marketAddress : string) (useSerum : bool) : M string :=
  do s <- get_state;
  try_catch
    (do marketInfo <- getMarketInfo marketAddress useSerum;
     ret (baseSymbol marketInfo +:+ "/" +:+ quoteSymbol marketInfo))
    (fun _ => ret (fallbackMarketName s marketAddress)).

Definition displayOrderBook (marketAddress : string) (depth : nat) (useSerum : bool)
  : M unit :=
  try_catch
    (do marketName <- resolveMarketName marketAddress useSerum;
     modify (print (OutOrderBookTitle marketName)) ;;
     do book <- getRealOrderBook marketAddress depth useSerum;
     modify (print (OutOrderBook (rev (asks book)) (bids book) (stats_of book))))
    (fun error =>
       console_error ("Error: " +:+ message_or "Failed to display order book" error)).

(** ** [displayMarketInfo] *)
Definition displayMarketInfo (marketAddress : string) (useSerum : bool) : M unit :=
  try_catch
    (do marketName <- resolveMarketName marketAddress useSerum;
     modify (print (OutMarketInfoTitle marketName)) ;;
     do marketInfo <- getMarketInfo marketAddress useSerum;
     modify (print (OutMarketInfo marketInfo)) ;;
     try_catch
       (do marketAccount <- getMarketAccounts marketAddress useSerum;
        modify (print (OutVerified true)))
       (fun _ => modify (print (OutVerified false))))
    (fun error =>
       console_error ("Error: " +:+ message_or "Failed to display market info" error)).

(** ** [listKnownMarkets] *)
Definition listKnownMarkets (useSerum : bool) : M unit := printKnownMarkets.

(** ** [addMarketToKnownMarkets] *)

(** [if (!KNOWN_TOKEN_SYMBOLS[mint]) KNOWN_TOKEN_SYMBOLS[mint] = symbol] *)
Definition addSymbolIfNotPresent (mint sym : string) (s : State) : State :=
  match truthy_symbol (KNOWN_TOKEN_SYMBOLS s) mint with
  | Some _ => s
  | None => set_symbols (<[mint := sym]> (KNOWN_TOKEN_SYMBOLS s)) s
  end.

(** The object literal [marketInfo]. *)
Definition newMarketInfo (baseSymbol quoteSymbol : string) (market : Market) : KnownMarket :=
  mkKnownMarket (Some (baseSymbol +:+ "/" +:+ quoteSymbol))
                (Some (baseMintAddress market)) (Some (quoteMintAddress market))
                (Some 1%float) (Some 0.0001%float) (Some 2978%float)
                (Some 63%float) (Some 909%float) (Some 909%float).

Definition addMarketToKnownMarkets (marketAddress : string) (useSerum : bool) : M unit :=
  try_catch
    (do market <- loadOpenBookMarket marketAddress useSerum;
     do baseMetadata <- getTokenMetadata (baseMintAddress market);
     do quoteMetadata <- getTokenMetadata (quoteMintAddress market);
     let marketInfo := newMarketInfo (symbol baseMetadata) (symbol quoteMetadata) market in
     modify (fun s => set_markets (<[marketAddress := ObjectEntry marketInfo]>
                                     (KNOWN_MARKETS s)) s) ;;
     modify (addSymbolIfNotPresent (baseMintAddress market) (symbol baseMetadata)) ;;
     modify (addSymbolIfNotPresent (quoteMintAddress market) (symbol quoteMetadata)) ;;
     printKnownMarkets)
    (fun error =>
       console_error "Error adding market to known markets:" ;;
       throw error).

(** ** [saveKnownMarketsToFile] *)
Definition saveKnownMarketsToFile (useSerum : bool) : M unit :=
  try_catch
    (do s <- get_state;
     let marketsData := jsonStringify env (KNOWN_MARKETS s) (KNOWN_TOKEN_SYMBOLS s) in
     let fileName := storeFileName useSerum in
     modify (emit (EvWriteFile fileName)) ;;
     if writeFails env fileName then throw (Error "write failed")
     else modify (fun s => set_files (<[fileName := FileContent marketsData]> (files s)) s))
    (fun error => console_error "Error saving known markets:").

(** ** [loadKnownMarketsFromFile] *)
Definition resetKnownMarkets : M unit :=
  modify (set_markets ∅) ;; modify (set_symbols ∅).

Definition loadKnownMarketsFromFile (useSerum : bool) : M unit :=
  try_catch
    (do s <- get_state;
     match files s !! storeFileName useSerum with
     | Some (FileContent text) =>
         match jsonParse env text with
         | ParseThrows => throw (Error "SyntaxError")
         | ParsedNull => throw (Error "TypeError")
         | ParsedData markets symbols =>
             modify (set_markets (default ∅ markets)) ;;
             modify (set_symbols (default ∅ symbols))
         end
     | Some Unreadable => throw (Error "read failed")
     | None => resetKnownMarkets
     end)
    (fun error => resetKnownMarkets).

(** ** [main] *)

(** The block of [main] that detects the program from the owner of the
    market account.  It either leaves a value in [useSerum] or makes [main]
    return; the reason is kept next to the lines it prints. *)
Inductive StopReason := NotAValidMarket | AccountNotFound | InvalidPublicKey.

Inductive Detection :=
| UseProgram (useSerum : bool)
| Stop (why : StopReason).

Definition invalidKeyLine : string :=
  "Error: Invalid public key format. Please ensure it's a valid Solana address.".

Definition notAValidMarketLines : M unit :=
  console_error "Error: The provided address is not a valid market" ;;
  console_error "   The address exists but is not owned by OpenBook or Serum programs" ;;
  console_error "   Please provide a valid market address".

Definition accountNotFoundLines : M unit :=
  console_error "Error: Market account not found" ;;
  console_error "   The provided address does not exist on Solana" ;;
  console_error "   Please provide a valid market address".

Definition detectProgram (targetMarket : string) (useSerumFlag : bool) : M Detection :=
  try_catch
    (do marketPubkey <- createPublicKey targetMarket;
     do marketAccount <- await (EvGetAccountInfo marketPubkey)
                           (fun tr => rpcGetAccountInfo env tr marketPubkey);
     match marketAccount with
     | Some acct =>
         if String.eqb (owner acct) SERUM_PROGRAM_ID then ret (UseProgram true)
         else if String.eqb (owner acct) OPENBOOK_PROGRAM_ID then ret (UseProgram false)
         else (notAValidMarketLines ;; ret (Stop NotAValidMarket))
     | None => accountNotFoundLines ;; ret (Stop AccountNotFound)
     end)
    (fun error =>
       if is_invalid_key_error error
       then (console_error invalidKeyLine ;; ret (Stop InvalidPublicKey))
       else ret (UseProgram useSerumFlag)).

(** The [--add] branch of [main]. *)
Definition main_add (targetMarket : string) (useSerum : bool) : M unit :=
  try_catch
    (addMarketToKnownMarkets targetMarket useSerum ;;
     saveKnownMarketsToFile useSerum)
    (fun error =>
       if is_invalid_key_error error then console_error invalidKeyLine
       else console_error ("Error: " +:+ message_or "Failed to add market" error)).

(** The report branch of [main]. *)
Definition main_display (targetMarket : string) (useSerum : bool) : M unit :=
  try_catch
    (do isValid <- isValidMarket targetMarket useSerum;
     if negb isValid then notAValidMarketLines
     else (displayMarketInfo targetMarket useSerum ;;
           displayOrderBook targetMarket 15 useSerum))
    (fun error =>
       if is_invalid_key_error error then console_error invalidKeyLine
       else throw error).

(** What [main] does once [useSerum] is settled. *)
Definition main_run (args : list string) (targetMarket : string) (useSerum : bool) : M unit :=
  loadKnownMarketsFromFile useSerum ;;
  if args_includes "--list" args || args_includes "-l" args
  then listKnownMarkets useSerum
  else
    let shouldAdd := args_includes "--add" args || args_includes "-a" args in
    if shouldAdd
       && negb (String.eqb targetMarket "--add") && negb (String.eqb targetMarket "-a")
       && negb (String.eqb targetMarket "--serum") && negb (String.eqb targetMarket "-s")
    then main_add targetMarket useSerum
    else main_display targetMarket useSerum.

(** The choice of [useSerum]: the flag, then the detection block unless
    [--list] is present. *)
Definition selectProgram (args : list string) (targetMarket : string) : M Detection :=
  let useSerumFlag := args_includes "--serum" args || args_includes "-s" args in
  if negb (args_includes "--list" args) && negb (args_includes "-l" args)
  then detectProgram targetMarket useSerumFlag
  else ret (UseProgram useSerumFlag).

(** The outermost [catch] of [main]. *)
Definition main_catch (error : JsError) : M unit :=
  console_error ("Error: " +:+ message_or "An unexpected error occurred" error).

(** The places where [--version] looks for [package.json]: two relative to
    the installation directory, one in the working directory. *)
Definition packageJsonPaths : list string :=
  [ "../package.json"; "../../package.json"; "$PWD/package.json" ].

Definition npmListCommand : string := "npm list -g openbook-cli --depth=0".

Definition existsSync (s : State) (path : string) : bool :=
  bool_decide (is_Some (files s !! path)).

(** [--version]: the version comes from the first [package.json] that
    exists, or from [npm list] when there is none.  Every failure on the
    way is caught and replaced by the line "version unknown", so exactly
    one line is printed; its text is not modelled. *)
Definition main_version : M unit :=
  do s <- get_state;
  (if existsb (existsSync s) packageJsonPaths then ret tt
   else modify (emit (EvExecSync npmListCommand))) ;;
  modify (print OutVersion).

(** [--update]: the current version is looked up (failures are ignored)
    and printed, then the request for the latest release is sent and
    [main] returns.  The callbacks registered on the request run after
    that: on a response naming another version they run [npm install -g],
    which replaces the installed program and its directory.  They are not
    part of the run of [main] and are not modelled. *)
Definition main_update : M unit :=
  do s <- get_state;
  (if existsSync s "../package.json" then ret tt
   else modify (emit (EvExecSync npmListCommand))) ;;
  modify (print OutVersion) ;;
  modify (emit (EvHttpsRequest "api.github.com"
                               "/repos/belivenn/openbook-cli/releases/latest")).

Definition main (args : list string) : M unit :=
  try_catch
    (if args_includes "--help" args || args_includes "-h" args then ret tt
     else if args_includes "--version" args || args_includes "-v" args then main_version
     else if args_includes "--update" args then main_update
     else
       match args with
       | [] => console_error "Error: Market address is required"
       | targetMarket :: _ =>
           if negb (truthy_string targetMarket)
           then console_error "Error: Market address is required"
           else
             do detection <- selectProgram args targetMarket;
             match detection with
             | Stop _ => ret tt
             | UseProgram useSerum => main_run args targetMarket useSerum
             end
       end)
    main_catch.

End Program.

(** ** Command lines

    A command line that reaches the program selection of [main]: none of
    the informational flags, and a non-empty first argument. *)
Definition names_a_market (args : list string) : bool :=
  negb (args_includes "--help" args || args_includes "-h" args)
  && negb (args_includes "--version" args || args_includes "-v" args)
  && negb (args_includes "--update" args)
  && match args with
     | targetMarket :: _ => truthy_string targetMarket
     | [] => false
     end.

Definition has_serum_flag (args : list string) : bool :=
  args_includes "--serum" args || args_includes "-s" args.

Definition has_list_flag (args : list string) : bool :=
  args_includes "--list" args || args_includes "-l" args.

(** ** Price order of a side *)

Fixpoint sorted_by (le : float -> float -> bool) (l : list float) : bool :=
  match l with
  | a :: (b :: _) as rest => le a b && sorted_by le rest
  | _ => true
  end.

(** best bid first: prices never increase *)
Definition descending (l : list float) : bool := sorted_by (fun a b => (b <=? a)%float) l.
(** best ask first: prices never decrease *)
Definition ascending (l : list float) : bool := sorted_by (fun a b => (a <=? b)%float) l.

(** ** A concrete world, for running the program

    One market account owned by [marketOwner]; the SDK hands back [market]
    for it under the OpenBook program id; two mint accounts exist. *)
Module Sample.

Definition is_base58 (c : Ascii.ascii) : bool :=
  let n := Ascii.nat_of_ascii c in
  ((49 <=? n) && (n <=? 57)
   || (65 <=? n) && (n <=? 90) && negb (n =? 73) && negb (n =? 79)
   || (97 <=? n) && (n <=? 122) && negb (n =? 108))%nat.

(** A stand-in for the address check of the RPC library: 32 to 44 base-58
    characters. *)
Definition validKey (s : string) : bool :=
  forallb is_base58 (list_ascii_of_string s)
  && (32 <=? String.length s)%nat && (String.length s <=? 44)%nat.

Definition MARKET : string := "3ySaxSspDCsEM53zRTfpyr9s9yfq9yNpZFXSEbvbadLf".
Definition SOL : string := "So11111111111111111111111111111111111111112".
Definition USDC : string := "EPjFWdd5AufqSSqeM2qN1xzybapC8G4wEGGkZwyTDt1v".

(** A decoder that honours the depth it is given. *)
Definition levels (l : list (float * float)) : Orderbook :=
  mkOrderbook (fun depth => firstn depth l).

Definition sortedBids : list (float * float) :=
  [(1.2, 50); (1.19, 30); (1.18, 7)]%float.
Definition sortedAsks : list (float * float) :=
  [(1.21, 40); (1.22, 10); (1.25, 3)]%float.
Definition unsortedBids : list (float * float) :=
  [(1.19, 30); (1.2, 50); (1.18, 7)]%float.
Definition unsortedAsks : list (float * float) :=
  [(1.22, 10); (1.21, 40); (1.25, 3)]%float.

Definition marketWith (bidsQueue asksQueue : list (float * float)) : Market :=
  mkMarket SOL USDC (fun _ => Ok (levels bidsQueue)) (fun _ => Ok (levels asksQueue)).

Definition env (marketOwner : string) (market : Market) : Env :=
  mkEnv validKey
    (fun _ addr =>
       if String.eqb addr MARKET then Ok (Some (mkAccountInfo marketOwner 388))
       else Ok None)
    (fun _ addr =>
       if String.eqb addr SOL then Ok (Some (ParsedMint 9))
       else if String.eqb addr USDC then Ok (Some (ParsedMint 6))
       else Ok None)
    (fun _ addr pid =>
       if String.eqb addr MARKET && String.eqb pid marketOwner then Ok market
       else Throw (Error "Address not owned by program"))
    (fun _ => ParseThrows)
    (fun _ _ => "{}")
    (fun _ => false).

(** Eighteen levels on each side: 1.17 down to 1.00, and 1.18 up to 1.35. *)
Definition hundredths (n : nat) : float :=
  (PrimFloat.of_uint63 (Uint63.of_Z (Z.of_nat n)) / 100)%float.
Definition deepBids : list (float * float) :=
  map (fun n => (hundredths (117 - n), 1%float)) (seq 0 18).
Definition deepAsks : list (float * float) :=
  map (fun n => (hundredths (118 + n), 1%float)) (seq 0 18).

Definition openbookEnv : Env := env OPENBOOK_PROGRAM_ID (marketWith sortedBids sortedAsks).
Definition deepEnv : Env := env OPENBOOK_PROGRAM_ID (marketWith deepBids deepAsks).
Definition unsortedEnv : Env := env OPENBOOK_PROGRAM_ID (marketWith unsortedBids unsortedAsks).

Definition emptyState : State := mkState ∅ ∅ ∅ [] [].

(** A world whose JSON codec knows one store: the one holding the USDC
    symbol and no market. *)
Definition codecEnv : Env :=
  mkEnv validKey
    (fun _ _ => Ok None) (fun _ _ => Ok None)
    (fun _ _ _ => Throw (Error "Address not owned by program"))
    (fun text =>
       if String.eqb text "{symbols:{USDC}}"
       then ParsedData (Some ∅) (Some {[ USDC := "USDC" ]})
       else if String.eqb text "null" then ParsedNull
       else if String.eqb text "{}" then ParsedData None None
       else ParseThrows)
    (fun _ _ => "{symbols:{USDC}}")
    (fun fileName => String.eqb fileName "known_serum_markets.json").

Definition withSymbols (symbols : gmap string string) : State :=
  mkState ∅ symbols ∅ [] [].




(** A process that has loaded a store with one symbol from its file. *)
Definition storedState : State :=
  mkState ∅ {[ USDC := "USDC" ]}
          {[ "known_openbook_markets.json" := FileContent "{}" ]} [] [].

End Sample.

(** ** Vocabulary of the statements *)

(** Components of the state that a computation leaves alone. *)
Definition same_store (s s' : State) : Prop :=
  KNOWN_MARKETS s' = KNOWN_MARKETS s /\
  KNOWN_TOKEN_SYMBOLS s' = KNOWN_TOKEN_SYMBOLS s /\
  files s' = files s.

(** File writes among the calls issued. *)
Definition is_write (ev : Event) : bool :=
  match ev with
  | EvWriteFile _ => true
  | _ => false
  end.

Definition writes (tr : list Event) : list Event := List.filter is_write tr.

(** The value of the [catch] branch of [getTokenMetadata]. *)
Definition fallbackMetadata (mintAddress : string) : TokenMetadata :=
  mkTokenMetadata (slice0 8 mintAddress) "Unknown Token" 6.

(** What [main] does with the outcome of the selection. *)
Definition after_selection env (args : list string) (targetMarket : string)
    (detection : Detection) : M unit :=
  match detection with
  | Stop _ => ret tt
  | UseProgram useSerum => main_run env args targetMarket useSerum
  end.

(** The lines [main] prints when the owner is neither program, and when
    the account does not exist. *)
Definition notAValidMarketText : list string :=
  [ "Error: The provided address is not a valid market";
    "   The address exists but is not owned by OpenBook or Serum programs";
    "   Please provide a valid market address" ].

Definition accountNotFoundText : list string :=
  [ "Error: Market account not found";
    "   The provided address does not exist on Solana";
    "   Please provide a valid market address" ].

(** A run of [main] that stopped at the selection: nothing was loaded,
    changed or written, only the owner lookup went out, and the given
    lines were printed. *)
Definition stopped_after_lookup (target : string) (lines : list string)
    (s s' : State) : Prop :=
  same_store s s' /\
  trace s' = trace s ++ [EvGetAccountInfo target] /\
  console s' = console s ++ map OutError lines.

(** A binary64 number that is neither a zero nor NaN. *)
Definition SFnonzero (x : spec_float) : bool :=
  match x with
  | S754_finite _ _ _ | S754_infinity _ => true
  | _ => false
  end.

(** ** The older copy of the program

    The repository holds a second, older copy of [index.ts].  It has no
    [createPublicKey] and no [isValidMarket]: addresses go to
    [new PublicKey] directly, whose own exception is [invalidKey] below;
    its [catch] blocks print a line and rethrow what they caught; its
    [main] falls back to a built-in market address and never stops at the
    detection.  [listKnownMarkets], [saveKnownMarketsToFile] and
    [loadKnownMarketsFromFile] are the same text in both copies and are
    shared; [getOrderBook] and [getMarketStats] (the same text over the
    functions below) are not repeated. *)
Module Legacy.
Section Program.
Variable env : Env.
(** what [new PublicKey(address)] throws for an address that is not valid *)
Variable invalidKey : JsError.

Definition MARKET_ADDRESS : string := "Cw35vJ7ecmnwc2jPumgfhDzUuJ1fmrytuRopBF5JUXrq".

(** [new PublicKey(address)] *)
Definition newPublicKey (address : string) : M string :=
  if validKey env address then ret address else throw invalidKey.

Definition getTokenMetadata (mintAddress : string) : M TokenMetadata :=
  try_catch
    (do mintPubkey <- newPublicKey mintAddress;
     do s <- get_state;
     match truthy_symbol (KNOWN_TOKEN_SYMBOLS s) mintAddress with
     | Some knownSymbol => ret (mkTokenMetadata knownSymbol knownSymbol 6)
     | None =>
         do tokenInfo <- await (EvGetParsedAccountInfo mintPubkey)
                           (fun tr => rpcGetParsedAccountInfo env tr mintPubkey);
         match tokenInfo with
         | None => throw (Error "Token account not found")
         | Some Unparsed => throw (Error "TypeError")
         | Some (ParsedMint decimals) =>
             ret (mkTokenMetadata (slice0 8 mintAddress) "Unknown Token" decimals)
         end
     end)
    (fun error =>
       console_error ("Error fetching token metadata for " +:+ mintAddress) ;;
       ret (mkTokenMetadata (slice0 8 mintAddress) "Unknown Token" 6)).

Definition loadOpenBookMarket (marketAddress : string) (useSerum : bool) : M Market :=
  try_catch
    (do marketPubkey <- newPublicKey marketAddress;
     do programKey <- newPublicKey (programId useSerum);
     await (EvMarketLoad marketPubkey programKey)
           (fun tr => marketLoad env tr marketPubkey programKey))
    (fun error =>
       console_error ("Error loading " +:+ programName useSerum +:+ " market:") ;;
       throw error).

(** [getTokenMetadata(marketData.baseMint)]: for a missing property
    [new PublicKey(undefined)] throws inside the [try], and the [catch]
    raises on [mintAddress.slice(0, 8)] after printing its line. *)
Definition getTokenMetadataOfProperty (mint : option string) : M (string * TokenMetadata) :=
  match mint with
  | Some mintAddress =>
      do metadata <- getTokenMetadata mintAddress;
      ret (mintAddress, metadata)
  | None =>
      console_error "Error fetching token metadata for undefined" ;;
      throw (cannotRead "slice" "undefined")
  end.

Definition getMarketInfo (marketAddress : string) (useSerum : bool) : M MarketInfo :=
  try_catch
    (do s <- get_state;
     match truthy_entry (readMarket (KNOWN_MARKETS s) marketAddress) with
     | Some marketData =>
         do base <- getTokenMetadataOfProperty (km_baseMint marketData);
         do quote <- getTokenMetadataOfProperty (km_quoteMint marketData);
         ret (mkMarketInfo marketAddress
                (fst base) (fst quote)
                (symbol (snd base)) (symbol (snd quote))
                (km_minOrderSize marketData) (km_priceTick marketData)
                (km_eventQueueLength marketData) (km_requestQueueLength marketData)
                (km_bidsLength marketData) (km_asksLength marketData))
     | None =>
         do market <- loadOpenBookMarket marketAddress useSerum;
         do baseMetadata <- getTokenMetadata (baseMintAddress market);
         do quoteMetadata <- getTokenMetadata (quoteMintAddress market);
         ret (mkMarketInfo marketAddress
                (baseMintAddress market) (quoteMintAddress market)
                (symbol baseMetadata) (symbol quoteMetadata)
                (Some 1%float) (Some 0.0001%float) (Some 2978%float)
                (Some 63%float) (Some 909%float) (Some 909%float))
     end)
    (fun error =>
       console_error "Error fetching market info:" ;;
       throw error).

Definition getMarketAccounts (marketAddress : string) (useSerum : bool) : M AccountInfo :=
  try_catch
    (do marketPubkey <- newPublicKey marketAddress;
     do marketAccount <- await (EvGetAccountInfo marketPubkey)
                           (fun tr => rpcGetAccountInfo env tr marketPubkey);
     match marketAccount with
     | None => throw (Error "Market account not found")
     | Some acct =>
         if negb (String.eqb (owner acct) (programId useSerum))
         then throw (Error ("Market not owned by " +:+ programName useSerum
                              +:+ " program. Owner: " +:+ owner acct))
         else ret acct
     end)
    (fun error =>
       console_error "Error fetching market accounts:" ;;
       throw error).

Definition getRealOrderBook (marketAddress : string) (depth : nat) (useSerum : bool)
  : M OrderBook :=
  try_catch
    (do market <- loadOpenBookMarket marketAddress useSerum;
     do bidsBook <- await EvLoadBids (loadBids market);
     do asksBook <- await EvLoadAsks (loadAsks market);
     let bidsArray := getL2 bidsBook 20 in
     let asksArray := getL2 asksBook 20 in
     let bidOrders := map bidLevel bidsArray in
     let askOrders := map askLevel asksArray in
     ret (mkOrderBook bidOrders askOrders))
    (fun error =>
       console_error "Error fetching real order book:" ;;
       throw error).

Definition resolveMarketName (marketAddress : string) (useSerum : bool) : M string :=
  do s <- get_state;
  try_catch
    (do marketInfo <- getMarketInfo marketAddress useSerum;
     ret (baseSymbol marketInfo +:+ "/" +:+ quoteSymbol marketInfo))
    (fun _ => ret (fallbackMarketName s marketAddress)).

Definition displayOrderBook (marketAddress : string) (depth : nat) (useSerum : bool)
  : M unit :=
  try_catch
    (do marketName <- resolveMarketName marketAddress useSerum;
     modify (print (OutOrderBookTitle marketName)) ;;
     do book <- getRealOrderBook marketAddress depth useSerum;
     modify (print (OutOrderBook (rev (asks book)) (bids book) (stats_of book))))
    (fun error => console_error "Error displaying order book:").

Definition displayMarketInfo (marketAddress : string) (useSerum : bool) : M unit :=
  try_catch
    (do marketName <- resolveMarketName marketAddress useSerum;
     modify (print (OutMarketInfoTitle marketName)) ;;
     do marketInfo <- getMarketInfo marketAddress useSerum;
     modify (print (OutMarketInfo marketInfo)) ;;
     try_catch
       (do marketAccount <- getMarketAccounts marketAddress useSerum;
        modify (print (OutVerified true)))
       (fun _ => modify (print (OutVerified false))))
    (fun error => console_error "Error displaying market info:").

Definition addMarketToKnownMarkets (marketAddress : string) (useSerum : bool) : M unit :=
  try_catch
    (do market <- loadOpenBookMarket marketAddress useSerum;
     do baseMetadata <- getTokenMetadata (baseMintAddress market);
     do quoteMetadata <- getTokenMetadata (quoteMintAddress market);
     let marketInfo := newMarketInfo (symbol baseMetadata) (symbol quoteMetadata) market in
     modify (fun s => set_markets (<[marketAddress := ObjectEntry marketInfo]>
                                     (KNOWN_MARKETS s)) s) ;;
     modify (addSymbolIfNotPresent (baseMintAddress market) (symbol baseMetadata)) ;;
     modify (addSymbolIfNotPresent (quoteMintAddress market) (symbol quoteMetadata)) ;;
     printKnownMarkets)
    (fun error =>
       console_error "Error adding market to known markets:" ;;
       throw error).

(** The detection block of the older [main]: it only ever overwrites
    [useSerum]. *)
Definition detectProgram (targetMarket : string) (useSerumFlag : bool) : M bool :=
  try_catch
    (do marketPubkey <- newPublicKey targetMarket;
     do marketAccount <- await (EvGetAccountInfo marketPubkey)
                           (fun tr => rpcGetAccountInfo env tr marketPubkey);
     match marketAccount with
     | Some acct =>
         if String.eqb (owner acct) SERUM_PROGRAM_ID then ret true
         else if String.eqb (owner acct) OPENBOOK_PROGRAM_ID then ret false
         else ret useSerumFlag
     | None => ret useSerumFlag
     end)
    (fun error => ret useSerumFlag).

(** [args[0]] as a truthy value. *)
Definition firstArgument (args : list string) : option string :=
  match args with
  | first :: _ => if truthy_string first then Some first else None
  | [] => None
  end.

Definition main (args : list string) : M unit :=
  try_catch
    (if args_includes "--help" args || args_includes "-h" args then ret tt
     else
       let targetMarket := default MARKET_ADDRESS (firstArgument args) in
       let useSerumFlag := args_includes "--serum" args || args_includes "-s" args in
       do useSerum <-
         (if bool_decide (is_Some (firstArgument args))
             && negb (args_includes "--list" args) && negb (args_includes "-l" args)
          then detectProgram targetMarket useSerumFlag
          else ret useSerumFlag);
       loadKnownMarketsFromFile env useSerum ;;
       if args_includes "--list" args || args_includes "-l" args
       then listKnownMarkets useSerum
       else
         let shouldAdd := args_includes "--add" args || args_includes "-a" args in
         if shouldAdd && bool_decide (is_Some (firstArgument args))
            && negb (String.eqb targetMarket "--add") && negb (String.eqb targetMarket "-a")
            && negb (String.eqb targetMarket "--serum") && negb (String.eqb targetMarket "-s")
         then (addMarketToKnownMarkets targetMarket useSerum ;;
               saveKnownMarketsToFile env useSerum)
         else (displayMarketInfo targetMarket useSerum ;;
               displayOrderBook targetMarket 15 useSerum))
    (fun error => console_error "Error in main function:").

End Program.
End Legacy.

(** ** The command-line wrapper

    The small executable file that imports [main] and runs
    [main().catch(error => { console.error(..); process.exit(1) })]: the
    exit status is 1 when [main] rejects, 0 when it resolves. *)
Definition cli (env : Env) (args : list string) (s : State) : nat * State :=
  match main env args s with
  | (Ok _, s') => (0%nat, s')
  | (Throw _, s') => (1%nat, print (OutError "CLI Error:") s')
  end.

(** ** Vocabulary of the further statements *)


(** Whatever a computation returns, it moves the state along [R]. *)
Definition preserves (R : State -> State -> Prop) {A} (m : M A) : Prop :=
  forall s r s', m s = (r, s') -> R s s'.

(** The state relation of a query: the two mappings and the files are
    untouched and no file write is issued. *)
Definition read_only (s s' : State) : Prop :=
  same_store s s' /\ writes (trace s') = writes (trace s).

(** The state relation of a computation that prints nothing. *)
Definition console_kept (s s' : State) : Prop := console s' = console s.

(** The state relation of everything but [--add]: the files are untouched
    and no file write is issued (the mappings may be reloaded). *)
Definition files_kept (s s' : State) : Prop :=
  files s' = files s /\ writes (trace s') = writes (trace s).

(** The three shapes of the message [loadOpenBookMarket] throws. *)
Definition load_error_shape (useSerum : bool) (msg : string) : Prop :=
  msg = "Market not owned by " +:+ programName useSerum +:+ " program" \/
  msg = "Market account not found" \/
  exists cause, msg = "Failed to load " +:+ programName useSerum +:+ " market: " +:+ cause.

(** A mint lookup, the only call [getTokenMetadata] issues. *)
Definition is_mint_lookup (ev : Event) : bool :=
  match ev with
  | EvGetParsedAccountInfo _ => true
  | _ => false
  end.

(** The symbol [getTokenMetadata] gives a mint in a given cache: the cached
    symbol if the mint is a valid address and the entry counts, else the
    first 8 characters. *)
Definition resolvedSymbol (env : Env) (symbols : gmap string string) (mint : string)
  : string :=
  if validKey env mint
  then match truthy_symbol symbols mint with
       | Some sym => sym
       | None => slice0 8 mint
       end
  else slice0 8 mint.

(** * Properties *)

(** ** Running the monad *)

Lemma bind_ok {A B} (m : M A) (k : A -> M B) s a s' :
  m s = (Ok a, s') -> bind m k s = k a s'.
Proof. intros H. unfold bind. now rewrite H. Qed.

Lemma bind_throw {A B} (m : M A) (k : A -> M B) s e s' :
  m s = (Throw e, s') -> bind m k s = (Throw e, s').
Proof. intros H. unfold bind. now rewrite H. Qed.

Lemma try_catch_ok {A} (m : M A) h s a s' :
  m s = (Ok a, s') -> try_catch m h s = (Ok a, s').
Proof. intros H. unfold try_catch. now rewrite H. Qed.

Lemma try_catch_throw {A} (m : M A) h s e s' :
  m s = (Throw e, s') -> try_catch m h s = h e s'.
Proof. intros H. unfold try_catch. now rewrite H. Qed.

Lemma same_store_refl s : same_store s s.
Proof. now repeat split. Qed.

Lemma same_store_emit ev s : same_store s (emit ev s).
Proof. now repeat split. Qed.

Lemma same_store_print o s : same_store s (print o s).
Proof. now repeat split. Qed.

(** ** Token metadata *)

Lemma writes_emit ev s :
  is_write ev = false -> writes (trace (emit ev s)) = writes (trace s).
Proof.
  intros Hev. cbn. unfold writes. rewrite List.filter_app. cbn.
  rewrite Hev. apply app_nil_r.
Qed.

Lemma writes_print o s : writes (trace (print o s)) = writes (trace s).
Proof. reflexivity. Qed.

(** The [catch] branch of [getTokenMetadata] was taken: the result is the
    fallback value, and only a lookup and an error line were added. *)
Ltac fallback_branch :=
  right; right; eexists; split; [reflexivity|];
  split; [now repeat split|];
  split; [first [reflexivity | rewrite writes_print; now apply writes_emit]|].

Lemma getTokenMetadata_cases env mint s :
  (exists sym, validKey env mint = true /\
     truthy_symbol (KNOWN_TOKEN_SYMBOLS s) mint = Some sym /\
     getTokenMetadata env mint s = (Ok (mkTokenMetadata sym sym 6), s))
  \/ (exists d, validKey env mint = true /\
     truthy_symbol (KNOWN_TOKEN_SYMBOLS s) mint = None /\
     rpcGetParsedAccountInfo env (trace s) mint = Ok (Some (ParsedMint d)) /\
     getTokenMetadata env mint s =
       (Ok (mkTokenMetadata (slice0 8 mint) "Unknown Token" d),
        emit (EvGetParsedAccountInfo mint) s))
  \/ (exists s', getTokenMetadata env mint s = (Ok (fallbackMetadata mint), s') /\
        same_store s s' /\ writes (trace s') = writes (trace s) /\
        (validKey env mint = false \/
         (truthy_symbol (KNOWN_TOKEN_SYMBOLS s) mint = None /\
          forall d, rpcGetParsedAccountInfo env (trace s) mint <> Ok (Some (ParsedMint d))))).
Proof.
  unfold getTokenMetadata, try_catch, bind, createPublicKey, get_state.
  destruct (validKey env mint) eqn:Hvalid; cbn.
  - destruct (truthy_symbol (KNOWN_TOKEN_SYMBOLS s) mint) as [sym|] eqn:Hsym; cbn.
    + left. eauto.
    + unfold await.
      destruct (rpcGetParsedAccountInfo env (trace s) mint) as [[[d|]|]|e] eqn:Hrpc; cbn;
        [right; left; eauto | fallback_branch ..];
        right; (split; [reflexivity|]); intros d; discriminate.
  - fallback_branch. now left.
Qed.

Lemma getTokenMetadata_ok env mint s :
  exists md s', getTokenMetadata env mint s = (Ok md, s') /\
                same_store s s' /\ writes (trace s') = writes (trace s).
Proof.
  destruct (getTokenMetadata_cases env mint s)
    as [(sym & _ & _ & H) | [(d & _ & _ & _ & H) | (s' & H & Hst & Hw & _)]].
  - exists (mkTokenMetadata sym sym 6), s. auto using same_store_refl.
  - eexists _, _. split; [exact H|]. split; [apply same_store_emit|].
    now apply writes_emit.
  - eauto.
Qed.

(** C3.  [getTokenMetadata] returns a [TokenMetadata] for every identifier,
    every cache content and every behaviour of the node, and never throws.
    When the identifier is not a valid address, or when it has no usable
    cached symbol and the mint lookup fails (the call is rejected, the
    account is absent, or its data has no decimals field), the value is
    the first 8 characters of the identifier with name "Unknown Token" and
    6 decimals. *)
Theorem getTokenMetadata_never_fails env mint s :
  (exists md s', getTokenMetadata env mint s = (Ok md, s')) /\
  (validKey env mint = false ->
   exists s', getTokenMetadata env mint s = (Ok (fallbackMetadata mint), s')) /\
  (truthy_symbol (KNOWN_TOKEN_SYMBOLS s) mint = None ->
   (forall d, rpcGetParsedAccountInfo env (trace s) mint <> Ok (Some (ParsedMint d))) ->
   exists s', getTokenMetadata env mint s = (Ok (fallbackMetadata mint), s')).
Proof.
  destruct (getTokenMetadata_cases env mint s)
    as [(sym & Hv & Hsym & H) | [(d & Hv & Hsym & Hrpc & H) | (s' & H & _ & _ & _)]].
  - split; [eauto|]. split; [congruence|]. intros Hnone. congruence.
  - split; [eauto|]. split; [congruence|]. intros _ Hno. now destruct (Hno d).
  - split; [eauto|]. split; eauto.
Qed.

Lemma getTokenMetadata_never_fails_witness :
  exists s', getTokenMetadata Sample.openbookEnv "not-an-address" Sample.emptyState
             = (Ok (mkTokenMetadata "not-an-a" "Unknown Token" 6), s').
Proof.
  apply (proj1 (proj2 (getTokenMetadata_never_fails
                         Sample.openbookEnv "not-an-address" Sample.emptyState))).
  reflexivity.
Defined.

(** C4, as amended.  For an identifier that is a valid address and whose
    cached symbol is not the empty string, [getTokenMetadata] returns the
    cached symbol (also as the name) with 6 decimals and leaves the state
    as it was: no call is issued. *)
Theorem getTokenMetadata_cached env mint sym s :
  validKey env mint = true ->
  KNOWN_TOKEN_SYMBOLS s !! mint = Some sym ->
  sym <> "" ->
  getTokenMetadata env mint s = (Ok (mkTokenMetadata sym sym 6), s).
Proof.
  intros Hvalid Hsym Hne.
  unfold getTokenMetadata, try_catch, bind, createPublicKey, get_state.
  rewrite Hvalid; cbn. unfold truthy_symbol. rewrite Hsym.
  unfold truthy_string. destruct (String.eqb_spec sym ""); [contradiction|]. reflexivity.
Qed.

Lemma getTokenMetadata_cached_witness :
  getTokenMetadata Sample.openbookEnv Sample.USDC
    (Sample.withSymbols {[ Sample.USDC := "USDC" ]})
  = (Ok (mkTokenMetadata "USDC" "USDC" 6), Sample.withSymbols {[ Sample.USDC := "USDC" ]}).
Proof.
  apply getTokenMetadata_cached.
  - reflexivity.
  - reflexivity.
  - discriminate.
Defined.

(** C4 as stated fails twice: a cached identifier that is not a valid
    address gets the fallback symbol, and a cached empty symbol sends the
    lookup to the network. *)
Lemma getTokenMetadata_cached_counterexample :
  ~ (forall env mint sym s,
       KNOWN_TOKEN_SYMBOLS s !! mint = Some sym ->
       exists md s', getTokenMetadata env mint s = (Ok md, s') /\
                     symbol md = sym /\ decimals md = 6%Z /\ trace s' = trace s)
  /\ (KNOWN_TOKEN_SYMBOLS (Sample.withSymbols {[ "usdc" := "USDC" ]}) !! "usdc" = Some "USDC"
      /\ fst (getTokenMetadata Sample.openbookEnv "usdc"
                (Sample.withSymbols {[ "usdc" := "USDC" ]}))
         = Ok (mkTokenMetadata "usdc" "Unknown Token" 6))
  /\ (KNOWN_TOKEN_SYMBOLS (Sample.withSymbols {[ Sample.USDC := "" ]}) !! Sample.USDC = Some ""
      /\ trace (snd (getTokenMetadata Sample.openbookEnv Sample.USDC
                       (Sample.withSymbols {[ Sample.USDC := "" ]})))
         = [EvGetParsedAccountInfo Sample.USDC]).
Proof.
  split; [|split; split; vm_compute; reflexivity].
  intros H.
  destruct (H Sample.openbookEnv "usdc" "USDC" (Sample.withSymbols {[ "usdc" := "USDC" ]}))
    as (md & s' & Hrun & Hsym & _).
  { vm_compute; reflexivity. }
  vm_compute in Hrun. inversion Hrun; subst. discriminate.
Qed.

(** ** Order book *)

(** What a successful [getRealOrderBook] went through. *)
Lemma getRealOrderBook_ok env addr depth useSerum s book s' :
  getRealOrderBook env addr depth useSerum s = (Ok book, s') ->
  exists market bidsBook asksBook s1,
    loadOpenBookMarket env addr useSerum s = (Ok market, s1) /\
    loadBids market (trace s1) = Ok bidsBook /\
    loadAsks market (trace s1 ++ [EvLoadBids]) = Ok asksBook /\
    s' = emit EvLoadAsks (emit EvLoadBids s1) /\
    book = mkOrderBook (map bidLevel (getL2 bidsBook 20))
                       (map askLevel (getL2 asksBook 20)).
Proof.
  unfold getRealOrderBook, try_catch, bind at 1.
  destruct (loadOpenBookMarket env addr useSerum s) as [[market|e] s1] eqn:Hload.
  - unfold bind, await; cbn.
    destruct (loadBids market (trace s1)) as [bidsBook|e] eqn:Hb; cbn.
    + destruct (loadAsks market (trace s1 ++ [EvLoadBids])) as [asksBook|e] eqn:Ha; cbn.
      * intros H. inversion H; subst. eauto 10.
      * destruct e; discriminate.
    + destruct e; discriminate.
  - destruct e; discriminate.
Qed.

Lemma map_price_bidLevel l : map price (map bidLevel l) = map fst l.
Proof. induction l as [|x l IH]; cbn; [reflexivity | now rewrite IH]. Qed.

Lemma map_price_askLevel l : map price (map askLevel l) = map fst l.
Proof. induction l as [|x l IH]; cbn; [reflexivity | now rewrite IH]. Qed.

Lemma map_size_bidLevel l : map size (map bidLevel l) = map snd l.
Proof. induction l as [|x l IH]; cbn; [reflexivity | now rewrite IH]. Qed.

Lemma map_size_askLevel l : map size (map askLevel l) = map snd l.
Proof. induction l as [|x l IH]; cbn; [reflexivity | now rewrite IH]. Qed.

(** C1: the depth handed to [getRealOrderBook] has no effect.  With a
    decoder that honours the depth it receives, a call with depth 1 on a
    book of three levels per side returns three bids and three asks, and
    a call with depth 15 on a book of eighteen levels per side returns
    eighteen bids and eighteen asks. *)
Theorem getRealOrderBook_ignores_depth :
  (exists book s',
     getRealOrderBook Sample.openbookEnv Sample.MARKET 1 false Sample.emptyState
     = (Ok book, s') /\
     length (bids book) = 3%nat /\ length (asks book) = 3%nat) /\
  (exists book s',
     getRealOrderBook Sample.deepEnv Sample.MARKET 15 false Sample.emptyState
     = (Ok book, s') /\
     length (bids book) = 18%nat /\ length (asks book) = 18%nat).
Proof.
  split; eexists _, _; (split; [vm_compute; reflexivity|]); split; reflexivity.
Qed.

(** The argument is not read at all. *)
Lemma getRealOrderBook_depth_unused env addr d1 d2 useSerum :
  getRealOrderBook env addr d1 useSerum = getRealOrderBook env addr d2 useSerum.
Proof. reflexivity. Qed.

(** C2, as amended.  [getRealOrderBook] hands back the (price, size) pairs
    that [getL2] of the loaded queue produced, in the order in which it
    produced them: the prices and the sizes of the levels are those of the
    pairs, position by position, bids tagged [bid] and asks tagged [ask];
    so the bids are in descending price order and the asks in ascending
    price order whenever the decoder's output is. *)
Theorem getRealOrderBook_keeps_decoder_order env addr depth useSerum s book s' :
  getRealOrderBook env addr depth useSerum s = (Ok book, s') ->
  exists market bidsBook asksBook s1,
    loadOpenBookMarket env addr useSerum s = (Ok market, s1) /\
    loadBids market (trace s1) = Ok bidsBook /\
    loadAsks market (trace s1 ++ [EvLoadBids]) = Ok asksBook /\
    map price (bids book) = map fst (getL2 bidsBook 20) /\
    map price (asks book) = map fst (getL2 asksBook 20) /\
    map size (bids book) = map snd (getL2 bidsBook 20) /\
    map size (asks book) = map snd (getL2 asksBook 20) /\
    Forall (fun l => side l = bid) (bids book) /\
    Forall (fun l => side l = ask) (asks book) /\
    (descending (map fst (getL2 bidsBook 20)) = true ->
     descending (map price (bids book)) = true) /\
    (ascending (map fst (getL2 asksBook 20)) = true ->
     ascending (map price (asks book)) = true).
Proof.
  intros Hrun.
  destruct (getRealOrderBook_ok _ _ _ _ _ _ _ Hrun)
    as (market & bidsBook & asksBook & s1 & Hload & Hb & Ha & _ & ->).
  exists market, bidsBook, asksBook, s1. cbn.
  rewrite map_price_bidLevel, map_price_askLevel, map_size_bidLevel, map_size_askLevel.
  repeat split; auto.
  - apply List.Forall_forall. intros l Hin. apply List.in_map_iff in Hin.
    now destruct Hin as (x & <- & _).
  - apply List.Forall_forall. intros l Hin. apply List.in_map_iff in Hin.
    now destruct Hin as (x & <- & _).
Qed.

Lemma getRealOrderBook_keeps_decoder_order_witness :
  exists market bidsBook asksBook s1,
    loadOpenBookMarket Sample.openbookEnv Sample.MARKET false Sample.emptyState
    = (Ok market, s1) /\
    loadBids market (trace s1) = Ok bidsBook /\
    loadAsks market (trace s1 ++ [EvLoadBids]) = Ok asksBook /\
    map price (map bidLevel Sample.sortedBids) = map fst (getL2 bidsBook 20) /\
    map price (map askLevel Sample.sortedAsks) = map fst (getL2 asksBook 20) /\
    map size (map bidLevel Sample.sortedBids) = map snd (getL2 bidsBook 20) /\
    map size (map askLevel Sample.sortedAsks) = map snd (getL2 asksBook 20) /\
    Forall (fun l => side l = bid) (map bidLevel Sample.sortedBids) /\
    Forall (fun l => side l = ask) (map askLevel Sample.sortedAsks) /\
    (descending (map fst (getL2 bidsBook 20)) = true ->
     descending (map price (map bidLevel Sample.sortedBids)) = true) /\
    (ascending (map fst (getL2 asksBook 20)) = true ->
     ascending (map price (map askLevel Sample.sortedAsks)) = true).
Proof.
  apply (getRealOrderBook_keeps_decoder_order
           Sample.openbookEnv Sample.MARKET 15 false Sample.emptyState
           (mkOrderBook (map bidLevel Sample.sortedBids) (map askLevel Sample.sortedAsks))
           (emit EvLoadAsks (emit EvLoadBids
              (emit (EvMarketLoad Sample.MARKET OPENBOOK_PROGRAM_ID) Sample.emptyState)))).
  vm_compute. reflexivity.
Defined.

(** C2 as stated fails: a queue whose decoder yields the prices
    1.19, 1.20, 1.18 for the bids and 1.22, 1.21, 1.25 for the asks is
    returned in exactly that order. *)
Lemma getRealOrderBook_sorted_counterexample :
  ~ (forall env addr depth useSerum s book s',
       getRealOrderBook env addr depth useSerum s = (Ok book, s') ->
       descending (map price (bids book)) = true /\
       ascending (map price (asks book)) = true).
Proof.
  intros H.
  destruct (H Sample.unsortedEnv Sample.MARKET 20%nat false Sample.emptyState
              (mkOrderBook (map bidLevel Sample.unsortedBids)
                           (map askLevel Sample.unsortedAsks))
              (emit EvLoadAsks (emit EvLoadBids
                 (emit (EvMarketLoad Sample.MARKET OPENBOOK_PROGRAM_ID) Sample.emptyState))))
    as [Hbids _].
  { vm_compute. reflexivity. }
  vm_compute in Hbids. discriminate.
Qed.

(** ** Arithmetic of binary64 numbers

    The facts about [-] on doubles that the spread relies on, from the
    specification of the primitive operations: the difference of two equal
    numbers is a zero or NaN, and the difference of two positive numbers,
    the first strictly above the second, is never a zero nor NaN (gradual
    underflow: rounding cannot take a non-zero difference to zero). *)

Local Open Scope Z_scope.

Lemma Prim2SF_zero : Prim2SF 0%float = S754_zero false.
Proof. reflexivity. Qed.

Lemma SFcompare_refl_finite s m e : SFcompare (S754_finite s m e) (S754_finite s m e) = Some Eq.
Proof.
  cbn. rewrite Z.compare_refl.
  assert (H : Pos.compare_cont Eq m m = Eq) by apply Pos.compare_refl.
  rewrite H. now destruct s.
Qed.

Lemma truthy_number_spec x : truthy_number x = SFnonzero (Prim2SF x).
Proof.
  unfold truthy_number. rewrite !FloatAxioms.eqb_spec, Prim2SF_zero. unfold SFeqb.
  destruct (Prim2SF x) as [s|s| |s m e]; try reflexivity.
  - now destruct s.
  - rewrite SFcompare_refl_finite. now destruct s.
Qed.

Lemma digits2_size p : digits2_pos p = Pos.size p.
Proof. induction p; cbn; congruence. Qed.

Lemma digits_lower p : 2 ^ (Zpos (digits2_pos p) - 1) <= Zpos p.
Proof.
  rewrite digits2_size.
  pose proof (Pos.size_le p) as H.
  assert (H2 : 2 ^ Zpos (Pos.size p) <= 2 * Zpos p).
  { change (2 * Zpos p) with (Zpos p~0). rewrite <- Pos2Z.inj_pow. now apply Pos2Z.pos_le_pos. }
  replace (Zpos (Pos.size p)) with (Z.succ (Zpos (Pos.size p) - 1)) in H2 by lia.
  rewrite Z.pow_succ_r in H2 by lia. lia.
Qed.

Lemma shr_1_lower k mrs :
  0 <= k -> 2 ^ (k + 1) <= shr_m mrs -> 2 ^ k <= shr_m (shr_1 mrs).
Proof.
  intros Hk H. destruct mrs as [m r s]. cbn in *.
  rewrite Z.pow_add_r in H by lia. change (2 ^ 1) with 2 in H.
  assert (Hp : 0 < 2 ^ k) by (apply Z.pow_pos_nonneg; lia).
  destruct m as [|[p|p|]|p]; cbn; try lia.
Qed.

Lemma iter_shr_1_lower p : forall k mrs,
  0 <= k -> 2 ^ (k + Zpos p) <= shr_m mrs -> 2 ^ k <= shr_m (SpecFloat.iter_pos shr_1 p mrs).
Proof.
  induction p as [p IH|p IH|]; intros k mrs Hk H; cbn.
  - apply IH; [lia|]. apply IH; [lia|]. apply shr_1_lower; [lia|].
    replace (k + Zpos p + Zpos p + 1) with (k + Zpos p~1) by lia. exact H.
  - apply IH; [lia|]. apply IH; [lia|].
    replace (k + Zpos p + Zpos p) with (k + Zpos p~0) by lia. exact H.
  - now apply shr_1_lower.
Qed.

Lemma shr_m_of_loc m l : shr_m (shr_record_of_loc m l) = m.
Proof. destruct l as [|[]]; reflexivity. Qed.

Lemma shr_fexp_positive m e l :
  emin <= e ->
  1 <= shr_m (fst (shr_fexp prec emax (Zpos m) e l)) /\
  emin <= snd (shr_fexp prec emax (Zpos m) e l).
Proof.
  intros He. unfold shr_fexp, shr, fexp. cbn [Zdigits2].
  pose proof (digits_lower m) as Hd.
  set (d := Zpos (digits2_pos m)) in *.
  assert (Hd1 : 1 <= d) by (unfold d; lia).
  unfold SpecFloat.emin, prec, emax in *.
  destruct (Z.max (d + e - 53) (3 - 1024 - 53) - e) as [|n|n] eqn:Hn; cbn [fst snd].
  - rewrite shr_m_of_loc. split; lia.
  - split; [|lia].
    change 1 with (2 ^ 0). apply iter_shr_1_lower; [lia|].
    rewrite shr_m_of_loc.
    apply Z.le_trans with (2 ^ (d - 1)); [|exact Hd].
    apply Z.pow_le_mono_r; lia.
  - rewrite shr_m_of_loc. split; lia.
Qed.

Lemma round_nearest_even_lower m l : 1 <= m -> 1 <= round_nearest_even m l.
Proof.
  intros H. destruct l as [|[]]; cbn; try lia.
  destruct (Z.even m); lia.
Qed.

Lemma binary_round_aux_nonzero sx m e l :
  emin <= e ->
  SFnonzero (binary_round_aux prec emax sx (Zpos m) e l) = true.
Proof.
  intros He. unfold binary_round_aux.
  destruct (shr_fexp_positive m e l He) as [H1 H2].
  destruct (shr_fexp prec emax (Zpos m) e l) as [mrs' e'] eqn:E1. cbn [fst snd] in *.
  pose proof (round_nearest_even_lower (shr_m mrs') (loc_of_shr_record mrs') H1) as Hr.
  destruct (round_nearest_even (shr_m mrs') (loc_of_shr_record mrs')) as [|m1|m1] eqn:Er; try lia.
  destruct (shr_fexp_positive m1 e' loc_Exact H2) as [H3 H4].
  destruct (shr_fexp prec emax (Zpos m1) e' loc_Exact) as [mrs'' e''] eqn:E2. cbn [fst snd] in *.
  destruct (shr_m mrs'') as [|m2|m2]; try lia.
  now destruct (e'' <=? emax - prec).
Qed.

Lemma binary_round_nonzero sx m e :
  emin <= e ->
  SFnonzero (binary_round prec emax sx m e) = true.
Proof.
  intros He. unfold binary_round, shl_align.
  set (e' := fexp prec emax (Zpos (digits2_pos m) + e)).
  assert (He' : emin <= e') by (unfold e', fexp; lia).
  destruct (e' - e) as [|d|d]; now apply binary_round_aux_nonzero.
Qed.

Lemma binary_normalize_nonzero m e sz :
  m <> 0 -> emin <= e ->
  SFnonzero (binary_normalize prec emax m e sz) = true.
Proof.
  intros Hm He. destruct m as [|p|p]; [contradiction| |]; cbn;
    now apply binary_round_nonzero.
Qed.

Lemma bounded_canonical m e :
  bounded prec emax m e = true ->
  e = Z.max (Zpos (digits2_pos m) + e - prec) (emin).
Proof.
  unfold bounded, canonical_mantissa, fexp. intros H.
  apply andb_prop in H as [H _]. apply Z.eqb_eq in H. lia.
Qed.

Lemma iter_xO_value m d : Zpos (Pos.iter xO m d) = Zpos m * 2 ^ Zpos d.
Proof.
  induction d as [|d IH] using Pos.peano_ind.
  - cbn. lia.
  - rewrite Pos.iter_succ, Pos2Z.inj_succ, Z.pow_succ_r by lia.
    rewrite Pos2Z.inj_xO, IH. lia.
Qed.

Lemma digits_upper p : Zpos p < 2 ^ Zpos (digits2_pos p).
Proof.
  rewrite digits2_size. pose proof (Pos.size_gt p) as H.
  rewrite <- Pos2Z.inj_pow. now apply Pos2Z.pos_lt_pos.
Qed.

(** Two valid positive finite numbers, the first strictly above the second:
    their aligned mantissas differ. *)
Lemma aligned_mantissas_differ mx ex my ey :
  bounded prec emax mx ex = true -> bounded prec emax my ey = true ->
  SFcompare (S754_finite false my ey) (S754_finite false mx ex) = Some Lt ->
  Zpos (fst (shl_align mx ex (Z.min ex ey))) - Zpos (fst (shl_align my ey (Z.min ex ey))) <> 0
  /\ emin <= Z.min ex ey.
Proof.
  intros Hx Hy Hcmp.
  pose proof (bounded_canonical _ _ Hx) as Cx.
  pose proof (bounded_canonical _ _ Hy) as Cy.
  pose proof (digits_lower mx) as Lx. pose proof (digits_upper my) as Uy.
  cbn in Hcmp. unfold shl_align.
  split; [|lia].
  destruct (Z.compare_spec ey ex) as [Heq|Hlt|Hgt]; try discriminate.
  - subst ey. rewrite Z.min_id, Z.sub_diag. cbn [fst].
    destruct (Pos.compare_cont Eq my mx) eqn:Hc; try discriminate.
    assert (Hlt : (my < mx)%positive) by exact Hc. lia.
  - rewrite Z.min_r by lia. rewrite Z.sub_diag. cbn [fst].
    destruct (ey - ex) as [|d|d] eqn:Hd; try lia. cbn [fst].
    rewrite iter_xO_value.
    assert (Hpx : Zpos (digits2_pos mx) = prec) by (unfold prec, SpecFloat.emin, emax in *; lia).
    assert (Hpy : Zpos (digits2_pos my) <= prec) by (unfold prec, SpecFloat.emin, emax in *; lia).
    rewrite Hpx in Lx.
    assert (2 ^ Zpos (digits2_pos my) <= 2 ^ prec) by (apply Z.pow_le_mono_r; lia).
    assert (2 ^ prec = 2 ^ (prec - 1) * 2) by (unfold prec; reflexivity).
    assert (2 <= 2 ^ Zpos d).
    { change 2 with (2 ^ 1) at 1. apply Z.pow_le_mono_r; lia. }
    nia.
Qed.

Lemma valid_finite x s m e : Prim2SF x = S754_finite s m e -> bounded prec emax m e = true.
Proof. intros H. pose proof (Prim2SF_valid x) as V. now rewrite H in V. Qed.

Lemma positive_cases b : (0 <? b)%float = true ->
  (exists m e, Prim2SF b = S754_finite false m e) \/ Prim2SF b = S754_infinity false.
Proof.
  rewrite FloatAxioms.ltb_spec, Prim2SF_zero. unfold SFltb.
  destruct (Prim2SF b) as [s|[]| |[] m e]; cbn; try discriminate; eauto.
Qed.

Lemma truthy_positive b : (0 <? b)%float = true -> truthy_number b = true.
Proof.
  intros H. rewrite truthy_number_spec.
  destruct (positive_cases b H) as [(m & e & ->) | ->]; reflexivity.
Qed.

Lemma above_positive_cases b a :
  (0 <? b)%float = true -> (b <? a)%float = true ->
  (exists m e, Prim2SF a = S754_finite false m e) \/ Prim2SF a = S754_infinity false.
Proof.
  intros Hb. rewrite FloatAxioms.ltb_spec. unfold SFltb.
  destruct (positive_cases b Hb) as [(m & e & ->) | ->];
    destruct (Prim2SF a) as [s|[]| |[] m' e']; cbn; try discriminate; eauto.
Qed.

Lemma truthy_above b a :
  (0 <? b)%float = true -> (b <? a)%float = true -> truthy_number a = true.
Proof.
  intros Hb Ha. rewrite truthy_number_spec.
  destruct (above_positive_cases b a Hb Ha) as [(m & e & ->) | ->]; reflexivity.
Qed.

Lemma truthy_difference b a :
  (0 <? b)%float = true -> (b <? a)%float = true -> truthy_number (a - b)%float = true.
Proof.
  intros Hb Ha. rewrite truthy_number_spec, FloatAxioms.sub_spec.
  pose proof Ha as Hlt. rewrite FloatAxioms.ltb_spec in Hlt. unfold SFltb in Hlt.
  destruct (positive_cases b Hb) as [(my & ey & Eb) | Eb];
    destruct (above_positive_cases b a Hb Ha) as [(mx & ex & Ea) | Ea];
    rewrite Ea, Eb in *; try reflexivity; try discriminate.
  unfold SF64sub, SFsub. cbn [cond_Zopp].
  destruct (SFcompare (S754_finite false my ey) (S754_finite false mx ex)) as [[]|] eqn:Hc;
    try discriminate.
  destruct (aligned_mantissas_differ mx ex my ey
              (valid_finite _ _ _ _ Ea) (valid_finite _ _ _ _ Eb) Hc) as [Hm He].
  now apply binary_normalize_nonzero.
Qed.

Lemma falsy_zero x : (x =? 0)%float = true -> truthy_number x = false.
Proof. intros H. unfold truthy_number. now rewrite H. Qed.

Lemma SFcompare_finite_Eq s m e s' m' e' :
  SFcompare (S754_finite s m e) (S754_finite s' m' e') = Some Eq ->
  s = s' /\ m = m' /\ e = e'.
Proof.
  cbn. destruct s, s'; try discriminate;
    destruct (Z.compare_spec e e'); try discriminate; subst;
    destruct (Pos.compare_cont Eq m m') eqn:Hc; try discriminate;
    apply Pos.compare_eq in Hc; subst; auto.
Qed.

Lemma falsy_difference_of_equals b a :
  (a =? b)%float = true -> truthy_number (a - b)%float = false.
Proof.
  intros H. rewrite truthy_number_spec, FloatAxioms.sub_spec.
  rewrite FloatAxioms.eqb_spec in H. unfold SFeqb in H.
  destruct (SFcompare (Prim2SF a) (Prim2SF b)) as [[]|] eqn:Hc; try discriminate.
  destruct (Prim2SF a) as [sa|sa| |sa ma ea], (Prim2SF b) as [sb|sb| |sb mb eb];
    try (apply SFcompare_finite_Eq in Hc as (-> & -> & ->));
    unfold SF64sub, SFsub; try destruct sa; try destruct sb;
    try discriminate; try reflexivity.
  all: rewrite Z.sub_diag; reflexivity.
Qed.

Local Close Scope Z_scope.

(** ** Market statistics *)

Lemma spread_of_zero_bid b a : (b =? 0)%float = true -> spread_of (Some b) (Some a) = None.
Proof. intros H. unfold spread_of. now rewrite (falsy_zero b H). Qed.

Lemma spreadPercentage_of_equal b a :
  (a =? b)%float = true ->
  spreadPercentage_of (spread_of (Some b) (Some a)) (Some b) = None.
Proof.
  intros H. unfold spread_of.
  destruct (truthy_number b && truthy_number a); [|reflexivity].
  unfold spreadPercentage_of.
  now rewrite (falsy_difference_of_equals b a H).
Qed.

Lemma spread_of_positive b a :
  (0 <? b)%float = true -> (b <? a)%float = true ->
  spread_of (Some b) (Some a) = Some (a - b)%float /\
  spreadPercentage_of (Some (a - b)%float) (Some b) = Some (((a - b) / b) * 100)%float.
Proof.
  intros Hb Hab.
  unfold spread_of, spreadPercentage_of.
  now rewrite (truthy_positive b Hb), (truthy_above b a Hb Hab),
    (truthy_difference b a Hb Hab).
Qed.

(** C10.  When [getRealOrderBook] delivers a book with a first bid [b] and
    a first ask [a], [getMarketStats] returns statistics with these best
    prices and, in the arithmetic of doubles,
    - no spread and no spread percentage when the best bid is 0;
    - no spread percentage when the best ask equals the best bid;
    - spread [a - b] and percentage [(spread / b) * 100] when
      [0 < b < a]. *)
Theorem getMarketStats_spread env addr useSerum s book s1 b a restBids restAsks :
  getRealOrderBook env addr 1 useSerum s = (Ok book, s1) ->
  bids book = b :: restBids ->
  asks book = a :: restAsks ->
  exists stats,
    getMarketStats env addr useSerum s = (Ok stats, s1) /\
    bestBid stats = Some (price b) /\
    bestAsk stats = Some (price a) /\
    ((price b =? 0)%float = true ->
     spread stats = None /\ spreadPercentage stats = None) /\
    ((price a =? price b)%float = true -> spreadPercentage stats = None) /\
    ((0 <? price b)%float = true -> (price b <? price a)%float = true ->
     spread stats = Some (price a - price b)%float /\
     spreadPercentage stats = Some (((price a - price b) / price b) * 100)%float).
Proof.
  intros Hrun Hbids Hasks.
  exists (stats_of book). split.
  - unfold getMarketStats. apply try_catch_ok.
    now rewrite (bind_ok _ _ _ _ _ Hrun).
  - unfold stats_of. rewrite Hbids, Hasks. cbn [best bestBid bestAsk spread spreadPercentage].
    split; [reflexivity|]. split; [reflexivity|].
    split; [|split].
    + intros Hz. rewrite spread_of_zero_bid by assumption. now split.
    + apply spreadPercentage_of_equal.
    + intros Hb Hab.
      destruct (spread_of_positive (price b) (price a) Hb Hab) as [-> Hp]. now split.
Qed.

Lemma getMarketStats_spread_witness :
  exists stats,
    getMarketStats Sample.openbookEnv Sample.MARKET false Sample.emptyState
    = (Ok stats,
       emit EvLoadAsks (emit EvLoadBids
         (emit (EvMarketLoad Sample.MARKET OPENBOOK_PROGRAM_ID) Sample.emptyState))) /\
    bestBid stats = Some 1.2%float /\
    bestAsk stats = Some 1.21%float /\
    spread stats = Some 0.010000000000000009%float /\
    spreadPercentage stats = Some 0.8333333333333341%float.
Proof.
  destruct (getMarketStats_spread
              Sample.openbookEnv Sample.MARKET false Sample.emptyState
              (mkOrderBook (map bidLevel Sample.sortedBids) (map askLevel Sample.sortedAsks))
              (emit EvLoadAsks (emit EvLoadBids
                 (emit (EvMarketLoad Sample.MARKET OPENBOOK_PROGRAM_ID) Sample.emptyState)))
              (mkLevel 1.2 50 bid) (mkLevel 1.21 40 ask)
              (map bidLevel (tl Sample.sortedBids)) (map askLevel (tl Sample.sortedAsks)))
    as (stats & Hrun & Hb & Ha & _ & _ & Hpos).
  - vm_compute. reflexivity.
  - reflexivity.
  - reflexivity.
  - exists stats. repeat split; try assumption.
    + apply Hpos; reflexivity.
    + apply Hpos; reflexivity.
Defined.

(** ** Loading the store *)

(** C9.  [loadKnownMarketsFromFile] returns normally in every state of the
    installation directory and never touches the files.  When the store
    file is missing, cannot be read, does not parse, or parses to a value
    without properties, both mappings are empty afterwards. *)
Theorem loadKnownMarketsFromFile_total env useSerum s :
  exists s',
    loadKnownMarketsFromFile env useSerum s = (Ok tt, s') /\
    files s' = files s /\ trace s' = trace s /\
    (files s !! storeFileName useSerum = None ->
     KNOWN_MARKETS s' = ∅ /\ KNOWN_TOKEN_SYMBOLS s' = ∅) /\
    (files s !! storeFileName useSerum = Some Unreadable ->
     KNOWN_MARKETS s' = ∅ /\ KNOWN_TOKEN_SYMBOLS s' = ∅) /\
    (forall text,
       files s !! storeFileName useSerum = Some (FileContent text) ->
       jsonParse env text = ParseThrows \/ jsonParse env text = ParsedNull ->
       KNOWN_MARKETS s' = ∅ /\ KNOWN_TOKEN_SYMBOLS s' = ∅).
Proof.
  unfold loadKnownMarketsFromFile, try_catch, bind, get_state.
  destruct (files s !! storeFileName useSerum) as [[text|]|] eqn:Hfile.
  - destruct (jsonParse env text) as [| |markets symbols] eqn:Hparse; cbn;
      (eexists; split; [reflexivity|]);
      (split; [reflexivity|]); (split; [reflexivity|]);
      (split; [discriminate|]); (split; [discriminate|]);
      intros text' Heq Hp; inversion Heq; subst text';
      try (split; reflexivity).
    destruct Hp; congruence.
  - cbn. eexists. split; [reflexivity|].
    split; [reflexivity|]. split; [reflexivity|].
    split; [discriminate|]. split; [split; reflexivity|]. discriminate.
  - cbn. eexists. split; [reflexivity|].
    split; [reflexivity|]. split; [reflexivity|].
    split; [split; reflexivity|]. split; discriminate.
Qed.

Lemma loadKnownMarketsFromFile_total_witness :
  exists s',
    loadKnownMarketsFromFile Sample.openbookEnv false
      (mkState ∅ {[ Sample.USDC := "USDC" ]}
               {[ "known_openbook_markets.json" := FileContent "{ markets: " ]} [] [])
    = (Ok tt, s') /\
    KNOWN_MARKETS s' = ∅ /\ KNOWN_TOKEN_SYMBOLS s' = ∅.
Proof.
  destruct (loadKnownMarketsFromFile_total Sample.openbookEnv false
              (mkState ∅ {[ Sample.USDC := "USDC" ]}
                 {[ "known_openbook_markets.json" := FileContent "{ markets: " ]} [] []))
    as (s' & Hrun & _ & _ & _ & _ & Hcorrupt).
  exists s'. split; [exact Hrun|].
  apply (Hcorrupt "{ markets: ").
  - reflexivity.
  - left. reflexivity.
Defined.

(** ** Program selection in [main] *)

Lemma main_selects env target rest s :
  names_a_market (target :: rest) = true ->
  main env (target :: rest) s =
  try_catch (bind (selectProgram env (target :: rest) target)
                  (after_selection env (target :: rest) target))
            (main_catch) s.
Proof.
  unfold names_a_market. intros H.
  apply andb_prop in H as [H Htarget].
  apply andb_prop in H as [H Hupdate].
  apply andb_prop in H as [Hhelp Hversion].
  apply negb_true_iff in Hhelp, Hversion, Hupdate.
  unfold main. rewrite Hhelp, Hversion, Hupdate, Htarget. reflexivity.
Qed.

Lemma selectProgram_detects env args target s :
  has_list_flag args = false ->
  selectProgram env args target s = detectProgram env target (has_serum_flag args) s.
Proof.
  unfold has_list_flag, selectProgram. intros H.
  apply orb_false_elim in H as [-> ->]. reflexivity.
Qed.

Lemma selectProgram_list env args target s :
  has_list_flag args = true ->
  selectProgram env args target s = (Ok (UseProgram (has_serum_flag args)), s).
Proof.
  unfold has_list_flag, selectProgram. intros H.
  destruct (args_includes "--list" args); [reflexivity|].
  cbn in H. rewrite H. reflexivity.
Qed.

(** The detection block on an existing account: nothing but the two string
    comparisons decides. *)
Lemma detectProgram_existing env target flag s acct :
  validKey env target = true ->
  rpcGetAccountInfo env (trace s) target = Ok (Some acct) ->
  detectProgram env target flag s =
    if String.eqb (owner acct) SERUM_PROGRAM_ID
    then (Ok (UseProgram true), emit (EvGetAccountInfo target) s)
    else if String.eqb (owner acct) OPENBOOK_PROGRAM_ID
    then (Ok (UseProgram false), emit (EvGetAccountInfo target) s)
    else (Ok (Stop NotAValidMarket),
          snd (notAValidMarketLines (emit (EvGetAccountInfo target) s))).
Proof.
  intros Hvalid Hrpc.
  unfold detectProgram, try_catch, bind, createPublicKey, await.
  rewrite Hvalid; cbn. rewrite Hrpc.
  destruct (String.eqb (owner acct) SERUM_PROGRAM_ID); [reflexivity|].
  destruct (String.eqb (owner acct) OPENBOOK_PROGRAM_ID); reflexivity.
Qed.

Lemma detectProgram_absent env target flag s :
  validKey env target = true ->
  rpcGetAccountInfo env (trace s) target = Ok None ->
  detectProgram env target flag s =
    (Ok (Stop AccountNotFound),
     snd (accountNotFoundLines (emit (EvGetAccountInfo target) s))).
Proof.
  intros Hvalid Hrpc.
  unfold detectProgram, try_catch, bind, createPublicKey, await.
  rewrite Hvalid; cbn. rewrite Hrpc. reflexivity.
Qed.

Lemma detectProgram_rejected env target flag s e :
  validKey env target = true ->
  rpcGetAccountInfo env (trace s) target = Throw e ->
  is_invalid_key_error e = false ->
  detectProgram env target flag s = (Ok (UseProgram flag), emit (EvGetAccountInfo target) s).
Proof.
  intros Hvalid Hrpc He.
  unfold detectProgram, try_catch, bind, createPublicKey, await.
  rewrite Hvalid; cbn. rewrite Hrpc, He. reflexivity.
Qed.

Lemma notAValidMarketLines_stop target s :
  stopped_after_lookup target notAValidMarketText s
    (snd (notAValidMarketLines (emit (EvGetAccountInfo target) s))).
Proof.
  split; [now repeat split|]. split; [reflexivity|].
  cbn. now rewrite <- !app_assoc.
Qed.

Lemma accountNotFoundLines_stop target s :
  stopped_after_lookup target accountNotFoundText s
    (snd (accountNotFoundLines (emit (EvGetAccountInfo target) s))).
Proof.
  split; [now repeat split|]. split; [reflexivity|].
  cbn. now rewrite <- !app_assoc.
Qed.

(** The selection, once the owner lookup has answered or was rejected. *)
Lemma program_detection_cases env target rest s :
  names_a_market (target :: rest) = true ->
  has_list_flag (target :: rest) = false ->
  validKey env target = true ->
  let args := target :: rest in
  let s1 := emit (EvGetAccountInfo target) s in
  (forall acct,
     rpcGetAccountInfo env (trace s) target = Ok (Some acct) ->
     (owner acct = SERUM_PROGRAM_ID ->
      selectProgram env args target s = (Ok (UseProgram true), s1) /\
      main env args s = try_catch (main_run env args target true) main_catch s1) /\
     (owner acct = OPENBOOK_PROGRAM_ID ->
      selectProgram env args target s = (Ok (UseProgram false), s1) /\
      main env args s = try_catch (main_run env args target false) main_catch s1)) /\
  (forall e,
     rpcGetAccountInfo env (trace s) target = Throw e ->
     is_invalid_key_error e = false ->
     selectProgram env args target s = (Ok (UseProgram (has_serum_flag args)), s1) /\
     main env args s
     = try_catch (main_run env args target (has_serum_flag args)) main_catch s1).
Proof.
  intros Hargs Hlist Hvalid args s1.
  assert (Hmain := main_selects env target rest s Hargs). fold args in Hmain.
  assert (Hsel := selectProgram_detects env args target s Hlist).
  split.
  - intros acct Hrpc.
    pose proof (detectProgram_existing env target (has_serum_flag args) s acct Hvalid Hrpc)
      as Hdet.
    rewrite <- Hsel in Hdet.
    split.
    + intros Howner. rewrite Howner in Hdet. cbn in Hdet.
      split; [exact Hdet|]. rewrite Hmain. unfold try_catch, bind. now rewrite Hdet.
    + intros Howner. rewrite Howner in Hdet. cbn in Hdet.
      split; [exact Hdet|]. rewrite Hmain. unfold try_catch, bind. now rewrite Hdet.
  - intros e Hrpc He.
    pose proof (detectProgram_rejected env target (has_serum_flag args) s e Hvalid Hrpc He)
      as Hdet.
    rewrite <- Hsel in Hdet.
    split; [exact Hdet|]. rewrite Hmain. unfold try_catch, bind. now rewrite Hdet.
Qed.

(** C5.  For a command line that names a market (no [--list]) with a valid
    address, the program is chosen by comparing the owner of the account
    with the two program identifiers and nothing else: the Serum id gives
    Serum, the OpenBook id gives OpenBook, and [main] goes on with that
    choice; any other owner stops [main] with the "not a valid market"
    lines; an absent account stops [main] with the "account not found"
    lines, a different outcome from the former. *)
Theorem program_detection_exact env target rest s :
  names_a_market (target :: rest) = true ->
  has_list_flag (target :: rest) = false ->
  validKey env target = true ->
  let args := target :: rest in
  let s1 := emit (EvGetAccountInfo target) s in
  (forall acct,
     rpcGetAccountInfo env (trace s) target = Ok (Some acct) ->
     (owner acct = SERUM_PROGRAM_ID ->
      selectProgram env args target s = (Ok (UseProgram true), s1) /\
      main env args s = try_catch (main_run env args target true) main_catch s1) /\
     (owner acct = OPENBOOK_PROGRAM_ID ->
      selectProgram env args target s = (Ok (UseProgram false), s1) /\
      main env args s = try_catch (main_run env args target false) main_catch s1) /\
     (owner acct <> SERUM_PROGRAM_ID -> owner acct <> OPENBOOK_PROGRAM_ID ->
      exists s',
        selectProgram env args target s = (Ok (Stop NotAValidMarket), s') /\
        main env args s = (Ok tt, s') /\
        stopped_after_lookup target notAValidMarketText s s')) /\
  (rpcGetAccountInfo env (trace s) target = Ok None ->
   exists s',
     selectProgram env args target s = (Ok (Stop AccountNotFound), s') /\
     main env args s = (Ok tt, s') /\
     stopped_after_lookup target accountNotFoundText s s') /\
  Stop NotAValidMarket <> Stop AccountNotFound /\
  notAValidMarketText <> accountNotFoundText.
Proof.
  intros Hargs Hlist Hvalid args s1.
  assert (Hmain := main_selects env target rest s Hargs).
  fold args in Hmain.
  assert (Hsel := selectProgram_detects env args target s Hlist).
  split; [|split; [|split; discriminate]].
  - intros acct Hrpc.
    pose proof (detectProgram_existing env target (has_serum_flag args) s acct Hvalid Hrpc)
      as Hdet.
    rewrite <- Hsel in Hdet.
    destruct (program_detection_cases env target rest s Hargs Hlist Hvalid)
      as (Hfound & _).
    split; [|split].
    + now apply (Hfound acct Hrpc).
    + now apply (Hfound acct Hrpc).
    + intros Hs Ho.
      apply String.eqb_neq in Hs, Ho. rewrite Hs, Ho in Hdet.
      eexists. split; [exact Hdet|]. split.
      { rewrite Hmain. unfold try_catch, bind. now rewrite Hdet. }
      apply notAValidMarketLines_stop.
  - intros Hrpc.
    pose proof (detectProgram_absent env target (has_serum_flag args) s Hvalid Hrpc) as Hdet.
    rewrite <- Hsel in Hdet.
    eexists. split; [exact Hdet|]. split.
    { rewrite Hmain. unfold try_catch, bind. now rewrite Hdet. }
    apply accountNotFoundLines_stop.
Qed.

Lemma program_detection_exact_witness :
  (selectProgram Sample.openbookEnv [Sample.MARKET] Sample.MARKET Sample.emptyState
   = (Ok (UseProgram false), emit (EvGetAccountInfo Sample.MARKET) Sample.emptyState))
  /\ (exists s',
        selectProgram (Sample.env Sample.SOL (Sample.marketWith [] []))
          [Sample.MARKET] Sample.MARKET Sample.emptyState
        = (Ok (Stop NotAValidMarket), s') /\
        main (Sample.env Sample.SOL (Sample.marketWith [] []))
          [Sample.MARKET] Sample.emptyState
        = (Ok tt, s') /\
        stopped_after_lookup Sample.MARKET notAValidMarketText Sample.emptyState s').
Proof.
  split.
  - apply (proj1 (program_detection_exact Sample.openbookEnv Sample.MARKET []
                    Sample.emptyState eq_refl eq_refl eq_refl)
             (mkAccountInfo OPENBOOK_PROGRAM_ID 388) eq_refl).
    reflexivity.
  - apply (proj1 (program_detection_exact
                    (Sample.env Sample.SOL (Sample.marketWith [] []))
                    Sample.MARKET [] Sample.emptyState eq_refl eq_refl eq_refl)
             (mkAccountInfo Sample.SOL 388) eq_refl); discriminate.
Defined.

(** [isValidMarket] makes the same exact comparison against the one
    program it is asked about, and never throws. *)
Lemma isValidMarket_exact env target useSerum s :
  exists s',
    isValidMarket env target useSerum s =
    (Ok (match validKey env target, rpcGetAccountInfo env (trace s) target with
         | true, Ok (Some acct) => String.eqb (owner acct) (programId useSerum)
         | _, _ => false
         end), s').
Proof.
  unfold isValidMarket, try_catch, bind, createPublicKey, await.
  destruct (validKey env target); cbn; [|eauto].
  destruct (rpcGetAccountInfo env (trace s) target) as [[acct|]|e]; cbn; eauto.
Qed.

(** C6, as amended.  On a command line with a market address and
    [--serum] / [-s], the flag only sets the starting value: unless
    [--list] is present the owner of the account is looked up, an account
    owned by the OpenBook program selects OpenBook against the flag, one
    owned by the Serum program selects Serum, and the flag decides when the
    lookup is rejected; with [--list] no lookup is made and the flag
    decides.  [main] goes on with the program selected this way. *)
Theorem serum_flag_is_a_default env target rest s :
  names_a_market (target :: rest) = true ->
  has_serum_flag (target :: rest) = true ->
  let args := target :: rest in
  let s1 := emit (EvGetAccountInfo target) s in
  (has_list_flag args = true ->
   selectProgram env args target s = (Ok (UseProgram true), s) /\
   main env args s = try_catch (main_run env args target true) main_catch s) /\
  (has_list_flag args = false -> validKey env target = true ->
   (forall acct,
      rpcGetAccountInfo env (trace s) target = Ok (Some acct) ->
      owner acct = OPENBOOK_PROGRAM_ID ->
      selectProgram env args target s = (Ok (UseProgram false), s1) /\
      main env args s = try_catch (main_run env args target false) main_catch s1) /\
   (forall acct,
      rpcGetAccountInfo env (trace s) target = Ok (Some acct) ->
      owner acct = SERUM_PROGRAM_ID ->
      selectProgram env args target s = (Ok (UseProgram true), s1) /\
      main env args s = try_catch (main_run env args target true) main_catch s1) /\
   (forall e,
      rpcGetAccountInfo env (trace s) target = Throw e ->
      is_invalid_key_error e = false ->
      selectProgram env args target s = (Ok (UseProgram true), s1) /\
      main env args s = try_catch (main_run env args target true) main_catch s1)).
Proof.
  intros Hargs Hflag args s1. subst args s1.
  assert (Hmain := main_selects env target rest s Hargs).
  split.
  - intros Hlist.
    pose proof (selectProgram_list env (target :: rest) target s Hlist) as Hsel.
    rewrite Hflag in Hsel.
    split; [exact Hsel|]. rewrite Hmain. unfold try_catch, bind. now rewrite Hsel.
  - intros Hlist Hvalid.
    pose proof (program_detection_cases env target rest s Hargs Hlist Hvalid) as Hcases.
    cbv zeta in Hcases. destruct Hcases as (Hfound & Hrejected).
    split; [|split].
    + intros acct Hrpc Howner. now apply (Hfound acct Hrpc).
    + intros acct Hrpc Howner. now apply (Hfound acct Hrpc).
    + intros e Hrpc He.
      specialize (Hrejected e Hrpc He). rewrite Hflag in Hrejected. exact Hrejected.
Qed.

Lemma serum_flag_is_a_default_witness :
  selectProgram Sample.openbookEnv [Sample.MARKET; "--serum"] Sample.MARKET Sample.emptyState
  = (Ok (UseProgram false), emit (EvGetAccountInfo Sample.MARKET) Sample.emptyState)
  /\ main Sample.openbookEnv [Sample.MARKET; "--serum"] Sample.emptyState
     = try_catch (main_run Sample.openbookEnv [Sample.MARKET; "--serum"] Sample.MARKET false)
         main_catch (emit (EvGetAccountInfo Sample.MARKET) Sample.emptyState).
Proof.
  apply (proj1 (proj2 (serum_flag_is_a_default Sample.openbookEnv Sample.MARKET ["--serum"]
                         Sample.emptyState eq_refl eq_refl) eq_refl eq_refl)
           (mkAccountInfo OPENBOOK_PROGRAM_ID 388) eq_refl eq_refl).
Defined.

(** C6 as stated fails: with [--serum] after the address of a market that
    the OpenBook program owns, the owner is looked up, the selection is
    OpenBook, the market is loaded under the OpenBook program id, and an
    added market goes to the OpenBook store file. *)
Lemma serum_flag_forced_counterexample :
  ~ (forall env target rest s,
       names_a_market (target :: rest) = true ->
       has_serum_flag (target :: rest) = true ->
       exists s', selectProgram env (target :: rest) target s = (Ok (UseProgram true), s'))
  /\ trace (snd (main Sample.openbookEnv [Sample.MARKET; "--serum"; "--add"]
                   Sample.emptyState))
     = [ EvGetAccountInfo Sample.MARKET;
         EvMarketLoad Sample.MARKET OPENBOOK_PROGRAM_ID;
         EvGetParsedAccountInfo Sample.SOL;
         EvGetParsedAccountInfo Sample.USDC;
         EvWriteFile "known_openbook_markets.json" ].
Proof.
  split; [|vm_compute; reflexivity].
  intros H.
  destruct (H Sample.openbookEnv Sample.MARKET ["--serum"] Sample.emptyState
              eq_refl eq_refl) as (s' & Hsel).
  vm_compute in Hsel. discriminate.
Qed.

(** ** Adding a market *)

Lemma loadOpenBookMarket_store env addr useSerum s r s' :
  loadOpenBookMarket env addr useSerum s = (r, s') ->
  same_store s s' /\ writes (trace s') = writes (trace s).
Proof.
  unfold loadOpenBookMarket, try_catch, bind, createPublicKey, await.
  destruct (validKey env addr); cbn.
  - destruct (validKey env (programId useSerum)); cbn.
    + destruct (marketLoad env (trace s) addr (programId useSerum)) as [market|[msg|]]; cbn.
      * intros H; inversion H; subst. split; [apply same_store_emit | now apply writes_emit].
      * destruct (includes "Address not owned by program" msg);
          [|destruct (includes "Market account not found" msg)];
          intros H; inversion H; subst;
          (split; [apply same_store_emit | now apply writes_emit]).
      * intros H; inversion H; subst. split; [apply same_store_emit | now apply writes_emit].
    + intros H; inversion H; subst. split; [apply same_store_refl | reflexivity].
  - intros H; inversion H; subst. split; [apply same_store_refl | reflexivity].
Qed.

(** C7.  When loading the market fails, the [--add] branch of [main]
    returns without calling [saveKnownMarketsToFile]: the files, the two
    in-memory mappings and the list of file writes are what they were.
    The same holds when the program selection stops [main] before the
    branch is reached. *)
Theorem failed_add_leaves_store env target rest useSerum s :
  (forall e s1,
     loadOpenBookMarket env target useSerum s = (Throw e, s1) ->
     exists s',
       main_add env target useSerum s = (Ok tt, s') /\
       KNOWN_MARKETS s' = KNOWN_MARKETS s /\
       KNOWN_TOKEN_SYMBOLS s' = KNOWN_TOKEN_SYMBOLS s /\
       files s' = files s /\
       writes (trace s') = writes (trace s)) /\
  (forall why s1,
     names_a_market (target :: rest) = true ->
     selectProgram env (target :: rest) target s = (Ok (Stop why), s1) ->
     main env (target :: rest) s = (Ok tt, s1) /\
     KNOWN_MARKETS s1 = KNOWN_MARKETS s /\
     KNOWN_TOKEN_SYMBOLS s1 = KNOWN_TOKEN_SYMBOLS s /\
     files s1 = files s /\
     writes (trace s1) = writes (trace s)).
Proof.
  split.
  - intros e s1 Hload.
    destruct (loadOpenBookMarket_store _ _ _ _ _ _ Hload) as ((Hm & Hs & Hf) & Hw).
    assert (Hadd : addMarketToKnownMarkets env target useSerum s
                   = (Throw e, print (OutError "Error adding market to known markets:") s1)).
    { unfold addMarketToKnownMarkets.
      rewrite (try_catch_throw _ _ s e s1); [reflexivity|].
      now apply bind_throw. }
    unfold main_add.
    rewrite (try_catch_throw _ _ s e _ (bind_throw _ _ _ _ _ Hadd)).
    destruct (is_invalid_key_error e); eexists; (split; [reflexivity|]); cbn; auto.
  - intros why s1 Hargs Hsel.
    split.
    + rewrite (main_selects env target rest s Hargs).
      unfold try_catch, bind. now rewrite Hsel.
    + unfold selectProgram in Hsel.
      destruct (negb (args_includes "--list" (target :: rest))
                && negb (args_includes "-l" (target :: rest))); [|discriminate].
      revert Hsel.
      unfold detectProgram, try_catch, bind, createPublicKey, await.
      destruct (validKey env target); cbn.
      * destruct (rpcGetAccountInfo env (trace s) target) as [[acct|]|err]; cbn.
        -- destruct (String.eqb (owner acct) SERUM_PROGRAM_ID); [discriminate|].
           destruct (String.eqb (owner acct) OPENBOOK_PROGRAM_ID); [discriminate|].
           intros H; inversion H; subst; cbn. repeat split; try reflexivity.
           unfold writes. now rewrite List.filter_app, app_nil_r.
        -- intros H; inversion H; subst; cbn. repeat split; try reflexivity.
           unfold writes. now rewrite List.filter_app, app_nil_r.
        -- destruct (is_invalid_key_error err); [|discriminate].
           intros H; inversion H; subst; cbn. repeat split; try reflexivity.
           unfold writes. now rewrite List.filter_app, app_nil_r.
      * intros H; inversion H; subst; cbn. repeat split; reflexivity.
Qed.

Lemma failed_add_leaves_store_witness :
  exists s',
    main_add Sample.openbookEnv Sample.USDC false Sample.storedState = (Ok tt, s') /\
    KNOWN_MARKETS s' = KNOWN_MARKETS Sample.storedState /\
    KNOWN_TOKEN_SYMBOLS s' = KNOWN_TOKEN_SYMBOLS Sample.storedState /\
    files s' = files Sample.storedState /\
    writes (trace s') = writes (trace Sample.storedState).
Proof.
  apply (proj1 (failed_add_leaves_store Sample.openbookEnv Sample.USDC [] false
                  Sample.storedState)
           (Error "Market not owned by OpenBook program")
           (emit (EvMarketLoad Sample.USDC OPENBOOK_PROGRAM_ID) Sample.storedState)).
  vm_compute. reflexivity.
Defined.

(** An entry that counts as present survives [addSymbolIfNotPresent]. *)
Lemma addSymbolIfNotPresent_keeps mint sym s key v :
  KNOWN_TOKEN_SYMBOLS s !! key = Some v -> v <> "" ->
  KNOWN_TOKEN_SYMBOLS (addSymbolIfNotPresent mint sym s) !! key = Some v.
Proof.
  intros Hkey Hv. unfold addSymbolIfNotPresent.
  destruct (truthy_symbol (KNOWN_TOKEN_SYMBOLS s) mint) eqn:Hmint; [exact Hkey|].
  cbn. destruct (decide (mint = key)) as [->|Hne].
  - unfold truthy_symbol in Hmint. rewrite Hkey in Hmint.
    unfold truthy_string in Hmint.
    destruct (String.eqb_spec v ""); [contradiction | discriminate].
  - now rewrite lookup_insert_ne.
Qed.

(** The closing listing only prints. *)
Lemma printKnownMarkets_run s :
  (has_null_entry (KNOWN_MARKETS s) = true /\
   printKnownMarkets s = (Throw (cannotRead "name" "null"), print OutMarketListCut s)) \/
  (has_null_entry (KNOWN_MARKETS s) = false /\
   printKnownMarkets s = (Ok tt, print (OutMarketList (shownName <$> KNOWN_MARKETS s)) s)).
Proof.
  unfold printKnownMarkets. destruct (has_null_entry (KNOWN_MARKETS s)); auto.
Qed.

Lemma printKnownMarkets_prints s : exists r o, printKnownMarkets s = (r, print o s).
Proof.
  destruct (printKnownMarkets_run s) as [[_ ->] | [_ ->]]; eauto.
Qed.

(** The symbols after [addMarketToKnownMarkets]: untouched when the market
    does not load, two guarded writes when it does. *)
Lemma addMarketToKnownMarkets_symbols env addr useSerum s r s' :
  addMarketToKnownMarkets env addr useSerum s = (r, s') ->
  KNOWN_TOKEN_SYMBOLS s' = KNOWN_TOKEN_SYMBOLS s \/
  exists baseMint baseSym quoteMint quoteSym s0,
    KNOWN_TOKEN_SYMBOLS s0 = KNOWN_TOKEN_SYMBOLS s /\
    KNOWN_TOKEN_SYMBOLS s' =
    KNOWN_TOKEN_SYMBOLS
      (addSymbolIfNotPresent quoteMint quoteSym (addSymbolIfNotPresent baseMint baseSym s0)).
Proof.
  unfold addMarketToKnownMarkets, try_catch. unfold bind at 1.
  destruct (loadOpenBookMarket env addr useSerum s) as [[market|e] s1] eqn:Hload.
  - destruct (loadOpenBookMarket_store _ _ _ _ _ _ Hload) as ((_ & Hs1 & _) & _).
    destruct (getTokenMetadata_ok env (baseMintAddress market) s1)
      as (baseMd & s2 & Hbase & (_ & Hs2 & _) & _).
    destruct (getTokenMetadata_ok env (quoteMintAddress market) s2)
      as (quoteMd & s3 & Hquote & (_ & Hs3 & _) & _).
    rewrite (bind_ok _ _ _ _ _ Hbase), (bind_ok _ _ _ _ _ Hquote).
    unfold bind, modify; cbn.
    match goal with
    | |- context [printKnownMarkets ?x] =>
        destruct (printKnownMarkets_prints x) as ([[]|e] & o & ->)
    end;
      (intros H; inversion H; subst; right;
       eexists (baseMintAddress market), (symbol baseMd),
               (quoteMintAddress market), (symbol quoteMd), _;
       split; [|reflexivity]; cbn; congruence).
  - destruct (loadOpenBookMarket_store _ _ _ _ _ _ Hload) as ((_ & Hs1 & _) & _).
    cbn. intros H; inversion H; subst. left. exact Hs1.
Qed.

(** C8, as amended.  [addMarketToKnownMarkets], whether it succeeds or
    fails, leaves every symbol entry that is not the empty string as it
    was; an entry is written only for an identifier that was absent or
    mapped to the empty string. *)
Theorem symbols_first_writer_wins env addr useSerum s r s' :
  addMarketToKnownMarkets env addr useSerum s = (r, s') ->
  (forall key v,
     KNOWN_TOKEN_SYMBOLS s !! key = Some v -> v <> "" ->
     KNOWN_TOKEN_SYMBOLS s' !! key = Some v) /\
  (forall key,
     KNOWN_TOKEN_SYMBOLS s' !! key <> KNOWN_TOKEN_SYMBOLS s !! key ->
     KNOWN_TOKEN_SYMBOLS s !! key = None \/ KNOWN_TOKEN_SYMBOLS s !! key = Some "").
Proof.
  intros Hrun.
  assert (Hkeep : forall key v,
             KNOWN_TOKEN_SYMBOLS s !! key = Some v -> v <> "" ->
             KNOWN_TOKEN_SYMBOLS s' !! key = Some v).
  { intros key v Hkey Hv.
    destruct (addMarketToKnownMarkets_symbols _ _ _ _ _ _ Hrun)
      as [-> | (bm & bs & qm & qs & s0 & Hs0 & ->)]; [exact Hkey|].
    apply addSymbolIfNotPresent_keeps; [|exact Hv].
    apply addSymbolIfNotPresent_keeps; [|exact Hv].
    now rewrite Hs0. }
  split; [exact Hkeep|].
  intros key Hchanged.
  destruct (KNOWN_TOKEN_SYMBOLS s !! key) as [v|] eqn:Hkey; [|now left].
  destruct (String.eqb_spec v "") as [->|Hv]; [now right|].
  exfalso. apply Hchanged. now apply Hkeep.
Qed.

Lemma symbols_first_writer_wins_witness :
  KNOWN_TOKEN_SYMBOLS
    (snd (addMarketToKnownMarkets Sample.openbookEnv Sample.MARKET false
            (Sample.withSymbols {[ Sample.USDC := "X" ]}))) !! Sample.USDC
  = Some "X".
Proof.
  apply (proj1 (symbols_first_writer_wins Sample.openbookEnv Sample.MARKET false
                  (Sample.withSymbols {[ Sample.USDC := "X" ]})
                  (fst (addMarketToKnownMarkets Sample.openbookEnv Sample.MARKET false
                          (Sample.withSymbols {[ Sample.USDC := "X" ]})))
                  (snd (addMarketToKnownMarkets Sample.openbookEnv Sample.MARKET false
                          (Sample.withSymbols {[ Sample.USDC := "X" ]})))
                  (surjective_pairing _))
           Sample.USDC "X").
  - reflexivity.
  - discriminate.
Defined.

(** C8 as stated fails for an entry that is the empty string: adding a
    market whose base mint is cached with an empty symbol replaces that
    entry by the first 8 characters of the mint. *)
Lemma symbols_first_writer_wins_counterexample :
  ~ (forall env addr useSerum s r s' key v,
       addMarketToKnownMarkets env addr useSerum s = (r, s') ->
       KNOWN_TOKEN_SYMBOLS s !! key = Some v ->
       KNOWN_TOKEN_SYMBOLS s' !! key = Some v)
  /\ KNOWN_TOKEN_SYMBOLS
       (snd (addMarketToKnownMarkets Sample.openbookEnv Sample.MARKET false
               (Sample.withSymbols {[ Sample.SOL := "" ]}))) !! Sample.SOL
     = Some "So111111".
Proof.
  split; [|vm_compute; reflexivity].
  intros H.
  specialize (H Sample.openbookEnv Sample.MARKET false
                (Sample.withSymbols {[ Sample.SOL := "" ]})
                _ _ Sample.SOL "" (surjective_pairing _) eq_refl).
  vm_compute in H. discriminate.
Qed.

(** * Further properties of the code *)

(** ** Reasoning along the monad *)

Lemma same_store_trans s1 s2 s3 :
  same_store s1 s2 -> same_store s2 s3 -> same_store s1 s3.
Proof. unfold same_store. intros (?&?&?) (?&?&?). repeat split; congruence. Qed.

Lemma read_only_refl s : read_only s s.
Proof. split; [apply same_store_refl | reflexivity]. Qed.

Lemma read_only_trans s1 s2 s3 : read_only s1 s2 -> read_only s2 s3 -> read_only s1 s3.
Proof.
  intros [H1 W1] [H2 W2]. split; [eapply same_store_trans; eassumption | congruence].
Qed.

Lemma files_kept_refl s : files_kept s s.
Proof. now split. Qed.

Lemma files_kept_trans s1 s2 s3 : files_kept s1 s2 -> files_kept s2 s3 -> files_kept s1 s3.
Proof. intros [H1 W1] [H2 W2]. split; congruence. Qed.

Lemma read_only_files_kept s s' : read_only s s' -> files_kept s s'.
Proof. intros [(_ & _ & Hf) Hw]. now split. Qed.

Section Preservation.
Variable R : State -> State -> Prop.
Hypothesis R_refl : forall s, R s s.
Hypothesis R_trans : forall s1 s2 s3, R s1 s2 -> R s2 s3 -> R s1 s3.

Lemma preserves_ret {A} (a : A) : preserves R (ret a).
Proof. intros s r s' H. inversion H; subst. apply R_refl. Qed.

Lemma preserves_throw {A} e : preserves R (@throw A e).
Proof. intros s r s' H. inversion H; subst. apply R_refl. Qed.

Lemma preserves_get_state : preserves R get_state.
Proof. intros s r s' H. inversion H; subst. apply R_refl. Qed.

Lemma preserves_bind {A B} (m : M A) (k : A -> M B) :
  preserves R m -> (forall a, preserves R (k a)) -> preserves R (bind m k).
Proof.
  intros Hm Hk s r s'. unfold bind.
  destruct (m s) as [[a|e] s1] eqn:Hrun.
  - intros H. eapply R_trans; [eapply Hm; eassumption | eapply Hk; eassumption].
  - intros H. inversion H; subst. eapply Hm; eassumption.
Qed.

Lemma preserves_try_catch {A} (m : M A) h :
  preserves R m -> (forall e, preserves R (h e)) -> preserves R (try_catch m h).
Proof.
  intros Hm Hh s r s'. unfold try_catch.
  destruct (m s) as [[a|e] s1] eqn:Hrun.
  - intros H. inversion H; subst. eapply Hm; eassumption.
  - intros H. eapply R_trans; [eapply Hm; eassumption | eapply Hh; eassumption].
Qed.

Lemma preserves_modify f : (forall s, R s (f s)) -> preserves R (modify f).
Proof. intros Hf s r s' H. inversion H; subst. apply Hf. Qed.

Lemma preserves_await {A} ev (oracle : list Event -> Rpc A) :
  (forall s, R s (emit ev s)) -> preserves R (await ev oracle).
Proof. intros He s r s' H. inversion H; subst. apply He. Qed.

End Preservation.






Lemma bind_get_state {B} (k : State -> M B) s : bind get_state k s = k s s.
Proof. reflexivity. Qed.

Lemma bind_modify {B} f (k : unit -> M B) s : bind (modify f) k s = k tt (f s).
Proof. reflexivity. Qed.

Lemma read_only_emit ev s : is_write ev = false -> read_only s (emit ev s).
Proof. intros H. split; [apply same_store_emit | now apply writes_emit]. Qed.

Lemma read_only_print o s : read_only s (print o s).
Proof. split; [apply same_store_print | reflexivity]. Qed.

(** Steps that are read-only whatever they compute. *)
Ltac read_only_step :=
  first
    [ apply (preserves_ret read_only read_only_refl)
    | apply (preserves_throw read_only read_only_refl)
    | apply (preserves_get_state read_only read_only_refl)
    | apply (preserves_modify read_only); intros ?; apply read_only_print
    | apply (preserves_await read_only); intros ?; now apply read_only_emit
    | apply (preserves_bind read_only read_only_trans); [|intros ?]
    | apply (preserves_try_catch read_only read_only_trans); [|intros ?] ].

Section Queries.
Variable env : Env.

Lemma createPublicKey_read_only addr : preserves read_only (createPublicKey env addr).
Proof. unfold createPublicKey. destruct (validKey env addr); read_only_step. Qed.

Lemma console_error_read_only line : preserves read_only (console_error line).
Proof. unfold console_error. read_only_step. Qed.

Lemma rethrow_as_error_read_only {A} fallback e :
  preserves read_only (@rethrow_as_error A fallback e).
Proof. destruct e; cbn; read_only_step. Qed.

Lemma getTokenMetadata_read_only mint : preserves read_only (getTokenMetadata env mint).
Proof.
  unfold getTokenMetadata.
  read_only_step.
  - read_only_step; [apply createPublicKey_read_only|].
    read_only_step; [read_only_step|].
    destruct (truthy_symbol (KNOWN_TOKEN_SYMBOLS a0) mint); [read_only_step|].
    read_only_step; [read_only_step|].
    destruct a1 as [[d|]|]; read_only_step.
  - read_only_step; [apply console_error_read_only | read_only_step].
Qed.

Lemma loadOpenBookMarket_read_only addr useSerum :
  preserves read_only (loadOpenBookMarket env addr useSerum).
Proof.
  unfold loadOpenBookMarket.
  read_only_step.
  - read_only_step; [apply createPublicKey_read_only|].
    read_only_step; [apply createPublicKey_read_only|].
    read_only_step.
  - destruct e as [msg|]; [|read_only_step].
    destruct (includes "Address not owned by program" msg); [read_only_step|].
    destruct (includes "Market account not found" msg); read_only_step.
Qed.

Lemma getTokenMetadataOfProperty_read_only mint :
  preserves read_only (getTokenMetadataOfProperty env mint).
Proof.
  unfold getTokenMetadataOfProperty. destruct mint as [mintAddress|].
  - read_only_step; [apply getTokenMetadata_read_only | read_only_step].
  - read_only_step; [apply console_error_read_only | read_only_step].
Qed.

Lemma getMarketInfo_read_only addr useSerum :
  preserves read_only (getMarketInfo env addr useSerum).
Proof.
  unfold getMarketInfo.
  read_only_step; [|apply rethrow_as_error_read_only].
  read_only_step; [read_only_step|].
  destruct (truthy_entry (readMarket (KNOWN_MARKETS a) addr)) as [marketData|].
  - read_only_step; [apply getTokenMetadataOfProperty_read_only|].
    read_only_step; [apply getTokenMetadataOfProperty_read_only|]. read_only_step.
  - read_only_step; [apply loadOpenBookMarket_read_only|].
    read_only_step; [apply getTokenMetadata_read_only|].
    read_only_step; [apply getTokenMetadata_read_only|]. read_only_step.
Qed.

Lemma getMarketAccounts_read_only addr useSerum :
  preserves read_only (getMarketAccounts env addr useSerum).
Proof.
  unfold getMarketAccounts.
  read_only_step; [|apply rethrow_as_error_read_only].
  read_only_step; [apply createPublicKey_read_only|].
  read_only_step; [read_only_step|].
  destruct a0 as [acct|]; [|read_only_step].
  destruct (negb (String.eqb (owner acct) (programId useSerum))); read_only_step.
Qed.

Lemma getRealOrderBook_read_only addr depth useSerum :
  preserves read_only (getRealOrderBook env addr depth useSerum).
Proof.
  unfold getRealOrderBook.
  read_only_step; [|apply rethrow_as_error_read_only].
  read_only_step; [apply loadOpenBookMarket_read_only|].
  read_only_step; [read_only_step|].
  read_only_step; [read_only_step|]. read_only_step.
Qed.

Lemma getOrderBook_read_only addr depth : preserves read_only (getOrderBook env addr depth).
Proof.
  unfold getOrderBook.
  read_only_step.
  - read_only_step; [apply getMarketAccounts_read_only | apply getRealOrderBook_read_only].
  - read_only_step; [apply console_error_read_only | read_only_step].
Qed.

Lemma getMarketStats_read_only addr useSerum :
  preserves read_only (getMarketStats env addr useSerum).
Proof.
  unfold getMarketStats.
  read_only_step.
  - read_only_step; [apply getRealOrderBook_read_only | read_only_step].
  - read_only_step; [apply console_error_read_only | read_only_step].
Qed.

Lemma isValidMarket_read_only addr useSerum :
  preserves read_only (isValidMarket env addr useSerum).
Proof.
  unfold isValidMarket.
  read_only_step; [|read_only_step].
  read_only_step; [apply createPublicKey_read_only|].
  read_only_step; [read_only_step|].
  destruct a0; read_only_step.
Qed.

Lemma resolveMarketName_read_only addr useSerum :
  preserves read_only (resolveMarketName env addr useSerum).
Proof.
  unfold resolveMarketName.
  read_only_step; [read_only_step|].
  read_only_step; [|read_only_step].
  read_only_step; [apply getMarketInfo_read_only | read_only_step].
Qed.

Lemma displayOrderBook_read_only addr depth useSerum :
  preserves read_only (displayOrderBook env addr depth useSerum).
Proof.
  unfold displayOrderBook.
  read_only_step; [|apply console_error_read_only].
  read_only_step; [apply resolveMarketName_read_only|].
  read_only_step; [read_only_step|].
  read_only_step; [apply getRealOrderBook_read_only | read_only_step].
Qed.

Lemma displayMarketInfo_read_only addr useSerum :
  preserves read_only (displayMarketInfo env addr useSerum).
Proof.
  unfold displayMarketInfo.
  read_only_step; [|apply console_error_read_only].
  read_only_step; [apply resolveMarketName_read_only|].
  read_only_step; [read_only_step|].
  read_only_step; [apply getMarketInfo_read_only|].
  read_only_step; [read_only_step|].
  read_only_step; [|read_only_step].
  read_only_step; [apply getMarketAccounts_read_only | read_only_step].
Qed.

End Queries.

(** ** Token metadata, continued *)

(** Everything one run of [getTokenMetadata] does. *)
Lemma getTokenMetadata_run env mint s :
  exists md s',
    getTokenMetadata env mint s = (Ok md, s') /\
    symbol md = resolvedSymbol env (KNOWN_TOKEN_SYMBOLS s) mint /\
    (name md = symbol md \/ name md = "Unknown Token") /\
    (trace s' = trace s \/ trace s' = trace s ++ [EvGetParsedAccountInfo mint]) /\
    (validKey env mint = false -> trace s' = trace s) /\
    (forall sym, validKey env mint = true ->
                 truthy_symbol (KNOWN_TOKEN_SYMBOLS s) mint = Some sym -> s' = s) /\
    read_only s s'.
Proof.
  unfold getTokenMetadata, resolvedSymbol, try_catch, bind, createPublicKey, get_state.
  destruct (validKey env mint) eqn:Hvalid; cbn.
  - destruct (truthy_symbol (KNOWN_TOKEN_SYMBOLS s) mint) as [sym|] eqn:Hsym; cbn.
    + eexists _, _. split; [reflexivity|]. cbn.
      repeat split; auto; try discriminate.
    + unfold await.
      destruct (rpcGetParsedAccountInfo env (trace s) mint) as [[[d|]|]|e]; cbn;
        (eexists _, _; split; [reflexivity|]); cbn;
        repeat split; auto; try discriminate;
        unfold writes; cbn; now rewrite List.filter_app, app_nil_r.
  - eexists _, _. split; [reflexivity|]. cbn. repeat split; auto; discriminate.
Qed.

Lemma slice0_length n s : String.length (slice0 n s) = Nat.min n (String.length s).
Proof.
  unfold slice0. revert s. induction n as [|n IH]; intros [|c s]; cbn; auto.
Qed.

Lemma slice0_prefix n s : String.prefix (slice0 n s) s = true.
Proof.
  unfold slice0. revert s. induction n as [|n IH]; intros [|c s]; cbn; auto.
  destruct (Ascii.ascii_dec c c) as [_|Hne]; [apply IH | now destruct Hne].
Qed.

(** X1.  The symbol [getTokenMetadata] returns is decided by the
    identifier and the symbol cache alone: the cached symbol for a valid
    address with a non-empty entry, the first 8 characters otherwise.  The
    answer of the node only supplies the decimals.  At most one mint lookup
    is issued, none for an identifier that is not a valid address, and the
    name is the symbol itself or "Unknown Token". *)
Theorem getTokenMetadata_symbol_is_local env mint s :
  exists md s',
    getTokenMetadata env mint s = (Ok md, s') /\
    symbol md = resolvedSymbol env (KNOWN_TOKEN_SYMBOLS s) mint /\
    (name md = symbol md \/ name md = "Unknown Token") /\
    (trace s' = trace s \/ trace s' = trace s ++ [EvGetParsedAccountInfo mint]) /\
    (validKey env mint = false -> trace s' = trace s).
Proof.
  destruct (getTokenMetadata_run env mint s) as (md & s' & H & Hsym & Hname & Htr & Hbad & _).
  eauto 10.
Qed.

Lemma getTokenMetadata_symbol_is_local_witness :
  exists md s',
    getTokenMetadata Sample.openbookEnv "not-an-address" Sample.emptyState = (Ok md, s') /\
    symbol md = "not-an-a" /\ trace s' = [].
Proof.
  destruct (getTokenMetadata_symbol_is_local Sample.openbookEnv "not-an-address"
              Sample.emptyState) as (md & s' & H & Hsym & _ & _ & Hbad).
  exists md, s'. split; [exact H|]. split; [exact Hsym|]. apply Hbad. reflexivity.
Defined.

(** X2.  Without a usable cache entry, the symbol is a prefix of the
    identifier of at most 8 characters (the whole identifier when it is
    shorter). *)
Theorem getTokenMetadata_synthesized_symbol env mint s md s' :
  getTokenMetadata env mint s = (Ok md, s') ->
  truthy_symbol (KNOWN_TOKEN_SYMBOLS s) mint = None ->
  String.prefix (symbol md) mint = true /\
  String.length (symbol md) = Nat.min 8 (String.length mint).
Proof.
  intros Hrun Hnone.
  destruct (getTokenMetadata_run env mint s) as (md' & s'' & H & Hsym & _).
  rewrite Hrun in H. inversion H; subst md' s''.
  unfold resolvedSymbol in Hsym. rewrite Hnone in Hsym.
  assert (Hs : symbol md = slice0 8 mint) by (destruct (validKey env mint); exact Hsym).
  rewrite Hs. split; [apply slice0_prefix | apply slice0_length].
Qed.

Lemma getTokenMetadata_synthesized_symbol_witness :
  String.prefix "So111111" Sample.SOL = true /\
  String.length "So111111" = Nat.min 8 (String.length Sample.SOL).
Proof.
  apply (getTokenMetadata_synthesized_symbol Sample.openbookEnv Sample.SOL Sample.emptyState
           (mkTokenMetadata "So111111" "Unknown Token" 9)
           (emit (EvGetParsedAccountInfo Sample.SOL) Sample.emptyState)).
  - vm_compute. reflexivity.
  - reflexivity.
Defined.

(** ** Loading a market *)

Lemma loadOpenBookMarket_throws env addr useSerum s e s' :
  loadOpenBookMarket env addr useSerum s = (Throw e, s') ->
  exists msg,
    e = Error msg /\ is_invalid_key_error e = false /\ load_error_shape useSerum msg /\
    (validKey env addr = false ->
     msg = "Failed to load " +:+ programName useSerum +:+ " market: Invalid public key format"
     /\ s' = s).
Proof.
  unfold loadOpenBookMarket, try_catch, bind, createPublicKey, await, load_error_shape.
  destruct (validKey env addr); cbn.
  - destruct (validKey env (programId useSerum)); cbn.
    + destruct (marketLoad env (trace s) addr (programId useSerum)) as [market|[msg|]]; cbn.
      * discriminate.
      * destruct (includes "Address not owned by program" msg);
          [|destruct (includes "Market account not found" msg)];
          intros H; inversion H; subst; eexists; (split; [reflexivity|]);
          (split; [destruct useSerum; reflexivity|]); (split; [|discriminate]); eauto.
      * intros H; inversion H; subst; eexists; (split; [reflexivity|]);
          (split; [destruct useSerum; reflexivity|]); (split; [|discriminate]); eauto.
    + intros H; inversion H; subst; eexists; (split; [reflexivity|]);
        (split; [destruct useSerum; reflexivity|]); (split; [|discriminate]); eauto.
  - intros H; inversion H; subst; eexists; (split; [reflexivity|]);
      (split; [destruct useSerum; reflexivity|]); split; eauto.
Qed.

Lemma loadOpenBookMarket_returns env addr useSerum s market s' :
  loadOpenBookMarket env addr useSerum s = (Ok market, s') <->
  validKey env addr = true /\ validKey env (programId useSerum) = true /\
  marketLoad env (trace s) addr (programId useSerum) = Ok market /\
  s' = emit (EvMarketLoad addr (programId useSerum)) s.
Proof.
  unfold loadOpenBookMarket, try_catch, bind, createPublicKey, await.
  destruct (validKey env addr); cbn.
  - destruct (validKey env (programId useSerum)); cbn.
    + destruct (marketLoad env (trace s) addr (programId useSerum)) as [m|[msg|]]; cbn.
      * split.
        -- intros H; inversion H; subst. auto.
        -- intros (_ & _ & H & ->). inversion H; subst. reflexivity.
      * split.
        -- destruct (includes "Address not owned by program" msg);
             [|destruct (includes "Market account not found" msg)]; discriminate.
        -- intros (_ & _ & H & _). discriminate.
      * split; [discriminate | intros (_ & _ & H & _); discriminate].
    + split; [discriminate | intros (_ & H & _); discriminate].
  - split; [discriminate | intros (H & _); discriminate].
Qed.

(** X3.  Every failure of [loadOpenBookMarket] is an [Error] whose message
    has one of three shapes: "Market not owned by <program> program",
    "Market account not found", or "Failed to load <program> market: "
    followed by the cause.  None of them is "Invalid public key format":
    an address that is not valid is reported in the third shape, before
    any call is issued. *)
Theorem loadOpenBookMarket_error_messages env addr useSerum s e s' :
  loadOpenBookMarket env addr useSerum s = (Throw e, s') ->
  exists msg,
    e = Error msg /\
    msg <> "Invalid public key format" /\
    load_error_shape useSerum msg /\
    (validKey env addr = false ->
     msg = "Failed to load " +:+ programName useSerum +:+ " market: Invalid public key format"
     /\ s' = s).
Proof.
  intros Hrun.
  destruct (loadOpenBookMarket_throws _ _ _ _ _ _ Hrun) as (msg & -> & Hkey & Hshape & Hbad).
  exists msg. split; [reflexivity|]. split; [|auto].
  intros ->. discriminate.
Qed.

Lemma loadOpenBookMarket_error_messages_witness :
  exists msg,
    Error "Failed to load OpenBook market: Invalid public key format" = Error msg /\
    msg <> "Invalid public key format" /\
    load_error_shape false msg /\
    (validKey Sample.openbookEnv "--serum" = false ->
     msg = "Failed to load " +:+ programName false +:+ " market: Invalid public key format"
     /\ Sample.emptyState = Sample.emptyState).
Proof.
  apply (loadOpenBookMarket_error_messages Sample.openbookEnv "--serum" false
           Sample.emptyState).
  vm_compute. reflexivity.
Defined.

(** X4.  [loadOpenBookMarket] returns a market exactly when the address is
    valid and [Market.load] under the program id selected by [useSerum]
    (Serum's for [true], OpenBook's for [false]) returns one; it is that
    market, and that call is the only one issued. *)
Theorem loadOpenBookMarket_uses_selected_program env addr useSerum s market s' :
  loadOpenBookMarket env addr useSerum s = (Ok market, s') <->
  validKey env addr = true /\ validKey env (programId useSerum) = true /\
  marketLoad env (trace s) addr (if useSerum then SERUM_PROGRAM_ID else OPENBOOK_PROGRAM_ID)
  = Ok market /\
  s' = emit (EvMarketLoad addr (if useSerum then SERUM_PROGRAM_ID else OPENBOOK_PROGRAM_ID)) s.
Proof. apply loadOpenBookMarket_returns. Qed.

Lemma loadOpenBookMarket_uses_selected_program_witness :
  loadOpenBookMarket Sample.openbookEnv Sample.MARKET false Sample.emptyState
  = (Ok (Sample.marketWith Sample.sortedBids Sample.sortedAsks),
     emit (EvMarketLoad Sample.MARKET OPENBOOK_PROGRAM_ID) Sample.emptyState).
Proof.
  apply (proj2 (loadOpenBookMarket_uses_selected_program Sample.openbookEnv Sample.MARKET
                  false Sample.emptyState _ _)).
  repeat split; reflexivity.
Defined.

(** ** Market accounts *)

Lemma getMarketAccounts_returns env addr useSerum s acct s' :
  getMarketAccounts env addr useSerum s = (Ok acct, s') <->
  validKey env addr = true /\
  rpcGetAccountInfo env (trace s) addr = Ok (Some acct) /\
  owner acct = programId useSerum /\
  s' = emit (EvGetAccountInfo addr) s.
Proof.
  unfold getMarketAccounts, try_catch, bind, createPublicKey, await.
  destruct (validKey env addr); cbn.
  - destruct (rpcGetAccountInfo env (trace s) addr) as [[a|]|[msg|]]; cbn.
    + destruct (String.eqb_spec (owner a) (programId useSerum)) as [Heq|Hne]; cbn.
      * split.
        -- intros H; inversion H; subst. auto.
        -- intros (_ & H & _ & ->). inversion H; subst. reflexivity.
      * split; [discriminate|]. intros (_ & H & Ho & _). inversion H; subst. contradiction.
    + split; [discriminate | intros (_ & H & _); discriminate].
    + split; [discriminate | intros (_ & H & _); discriminate].
    + split; [discriminate | intros (_ & H & _); discriminate].
  - split; [discriminate | intros (H & _); discriminate].
Qed.

(** X5.  [getMarketAccounts] returns the account exactly when the address
    is valid, the account exists and its owner equals the expected program
    id.  An absent account throws "Market account not found"; another owner
    throws "Market not owned by <program> program. Owner: <owner>". *)
Theorem getMarketAccounts_checks_owner env addr useSerum s :
  (forall acct s',
     getMarketAccounts env addr useSerum s = (Ok acct, s') <->
     validKey env addr = true /\
     rpcGetAccountInfo env (trace s) addr = Ok (Some acct) /\
     owner acct = programId useSerum /\
     s' = emit (EvGetAccountInfo addr) s) /\
  (validKey env addr = true ->
   rpcGetAccountInfo env (trace s) addr = Ok None ->
   getMarketAccounts env addr useSerum s
   = (Throw (Error "Market account not found"), emit (EvGetAccountInfo addr) s)) /\
  (forall acct,
     validKey env addr = true ->
     rpcGetAccountInfo env (trace s) addr = Ok (Some acct) ->
     owner acct <> programId useSerum ->
     getMarketAccounts env addr useSerum s
     = (Throw (Error ("Market not owned by " +:+ programName useSerum
                        +:+ " program. Owner: " +:+ owner acct)),
        emit (EvGetAccountInfo addr) s)).
Proof.
  split; [intros acct s'; apply getMarketAccounts_returns|].
  unfold getMarketAccounts, try_catch, bind, createPublicKey, await.
  split.
  - intros -> Hrpc. cbn. rewrite Hrpc. reflexivity.
  - intros acct -> Hrpc Hne. cbn. rewrite Hrpc. cbn.
    apply String.eqb_neq in Hne. rewrite Hne. reflexivity.
Qed.

Lemma getMarketAccounts_checks_owner_witness :
  getMarketAccounts Sample.openbookEnv Sample.MARKET true Sample.emptyState
  = (Throw (Error ("Market not owned by Serum program. Owner: " +:+ OPENBOOK_PROGRAM_ID)),
     emit (EvGetAccountInfo Sample.MARKET) Sample.emptyState).
Proof.
  apply (proj2 (proj2 (getMarketAccounts_checks_owner Sample.openbookEnv Sample.MARKET true
                         Sample.emptyState))
           (mkAccountInfo OPENBOOK_PROGRAM_ID 388)).
  - reflexivity.
  - reflexivity.
  - discriminate.
Defined.

(** X6.  The exported [getOrderBook] always works with the OpenBook
    program: it returns a book only for a valid address whose account
    exists and is owned by the OpenBook program id, and the book is the one
    [getRealOrderBook] reads under OpenBook after that owner lookup.  For an
    account owned by the Serum program it throws "Market not owned by
    OpenBook program. Owner: <Serum id>". *)
Theorem getOrderBook_openbook_only env addr depth s :
  (forall book s',
     getOrderBook env addr depth s = (Ok book, s') ->
     exists acct,
       validKey env addr = true /\
       rpcGetAccountInfo env (trace s) addr = Ok (Some acct) /\
       owner acct = OPENBOOK_PROGRAM_ID /\
       getRealOrderBook env addr depth false (emit (EvGetAccountInfo addr) s)
       = (Ok book, s')) /\
  (forall acct,
     validKey env addr = true ->
     rpcGetAccountInfo env (trace s) addr = Ok (Some acct) ->
     owner acct = SERUM_PROGRAM_ID ->
     fst (getOrderBook env addr depth s)
     = Throw (Error ("Market not owned by OpenBook program. Owner: " +:+ SERUM_PROGRAM_ID))).
Proof.
  split.
  - intros book s'. unfold getOrderBook, try_catch. unfold bind at 1.
    destruct (getMarketAccounts env addr false s) as [[acct|e] s1] eqn:Hacc.
    + apply getMarketAccounts_returns in Hacc as (Hvalid & Hrpc & Howner & ->).
      destruct (getRealOrderBook env addr depth false (emit (EvGetAccountInfo addr) s))
        as [[b|e] s2] eqn:Hbook.
      * intros H; inversion H; subst. exists acct. auto.
      * cbn. discriminate.
    + cbn. discriminate.
  - intros acct Hvalid Hrpc Howner.
    unfold getOrderBook, try_catch. unfold bind at 1.
    unfold getMarketAccounts, try_catch, bind, createPublicKey, await.
    rewrite Hvalid; cbn. rewrite Hrpc; cbn. rewrite Howner. reflexivity.
Qed.

Lemma getOrderBook_openbook_only_witness :
  fst (getOrderBook (Sample.env SERUM_PROGRAM_ID (Sample.marketWith [] []))
         Sample.MARKET 20 Sample.emptyState)
  = Throw (Error ("Market not owned by OpenBook program. Owner: " +:+ SERUM_PROGRAM_ID)).
Proof.
  apply (proj2 (getOrderBook_openbook_only
                  (Sample.env SERUM_PROGRAM_ID (Sample.marketWith [] []))
                  Sample.MARKET 20 Sample.emptyState)
           (mkAccountInfo SERUM_PROGRAM_ID 388)); reflexivity.
Defined.

(** X7.  [isValidMarket] never throws, and answers [true] exactly when the
    address is valid, the account exists and its owner equals the program
    id selected by [useSerum]; a rejected lookup counts as [false]. *)
Theorem isValidMarket_decides env addr useSerum s :
  exists b s',
    isValidMarket env addr useSerum s = (Ok b, s') /\
    (b = true <->
     validKey env addr = true /\
     exists acct,
       rpcGetAccountInfo env (trace s) addr = Ok (Some acct) /\
       owner acct = programId useSerum).
Proof.
  unfold isValidMarket, try_catch, bind, createPublicKey, await.
  destruct (validKey env addr); cbn.
  - destruct (rpcGetAccountInfo env (trace s) addr) as [[acct|]|e]; cbn;
      eexists _, _; (split; [reflexivity|]).
    + split.
      * intros H. apply String.eqb_eq in H. eauto.
      * intros (_ & acct' & H & Ho). inversion H; subst. now apply String.eqb_eq.
    + split; [discriminate | intros (_ & acct' & H & _); discriminate].
    + split; [discriminate | intros (_ & acct' & H & _); discriminate].
  - eexists _, _. split; [reflexivity|].
    split; [discriminate | intros (H & _); discriminate].
Qed.

Lemma isValidMarket_decides_witness :
  exists s',
    isValidMarket Sample.openbookEnv Sample.MARKET false Sample.emptyState = (Ok true, s').
Proof.
  destruct (isValidMarket_decides Sample.openbookEnv Sample.MARKET false Sample.emptyState)
    as (b & s' & Hrun & Hiff).
  exists s'. rewrite Hrun. f_equal. f_equal. apply Hiff.
  split; [reflexivity|]. exists (mkAccountInfo OPENBOOK_PROGRAM_ID 388). now split.
Defined.

(** ** Market information *)

Lemma forallb_mint_lookup_app tr1 tr2 :
  forallb is_mint_lookup tr1 = true -> forallb is_mint_lookup tr2 = true ->
  forallb is_mint_lookup (tr1 ++ tr2) = true.
Proof. intros H1 H2. rewrite List.forallb_app. now rewrite H1, H2. Qed.

(** Two symbol resolutions in a row, as every caller does them. *)
Lemma getTokenMetadata_twice env base quote s :
  exists baseMd quoteMd s1 s2 tr,
    getTokenMetadata env base s = (Ok baseMd, s1) /\
    getTokenMetadata env quote s1 = (Ok quoteMd, s2) /\
    symbol baseMd = resolvedSymbol env (KNOWN_TOKEN_SYMBOLS s) base /\
    symbol quoteMd = resolvedSymbol env (KNOWN_TOKEN_SYMBOLS s) quote /\
    read_only s s2 /\
    trace s2 = trace s ++ tr /\
    forallb is_mint_lookup tr = true /\ (length tr <= 2)%nat.
Proof.
  destruct (getTokenMetadata_run env base s)
    as (baseMd & s1 & H1 & Hsym1 & _ & Htr1 & _ & _ & Hro1).
  destruct (getTokenMetadata_run env quote s1)
    as (quoteMd & s2 & H2 & Hsym2 & _ & Htr2 & _ & _ & Hro2).
  assert (Hs1 : KNOWN_TOKEN_SYMBOLS s1 = KNOWN_TOKEN_SYMBOLS s) by apply Hro1.
  rewrite Hs1 in Hsym2.
  assert (Htr : exists tr, trace s2 = trace s ++ tr /\
                           forallb is_mint_lookup tr = true /\ (length tr <= 2)%nat).
  { destruct Htr1 as [E1|E1], Htr2 as [E2|E2]; rewrite E2, E1.
    - exists []. rewrite app_nil_r. cbn. auto.
    - eexists [_]. cbn. auto.
    - eexists [_]. cbn. auto.
    - eexists [_; _]. rewrite <- app_assoc. cbn. auto. }
  destruct Htr as (tr & Htr & Hall & Hlen).
  exists baseMd, quoteMd, s1, s2, tr.
  split; [exact H1|]. split; [exact H2|]. split; [exact Hsym1|]. split; [exact Hsym2|].
  split; [eapply read_only_trans; eassumption | auto].
Qed.




(** [getMarketInfo] on an address without a truthy entry. *)
Lemma getMarketInfo_not_stored env addr useSerum s :
  truthy_entry (readMarket (KNOWN_MARKETS s) addr) = None ->
  (forall e s1,
     loadOpenBookMarket env addr useSerum s = (Throw e, s1) ->
     getMarketInfo env addr useSerum s = (Throw e, s1)) /\
  (forall market s1,
     loadOpenBookMarket env addr useSerum s = (Ok market, s1) ->
     exists s',
       getMarketInfo env addr useSerum s
       = (Ok (mkMarketInfo addr (baseMintAddress market) (quoteMintAddress market)
                (resolvedSymbol env (KNOWN_TOKEN_SYMBOLS s) (baseMintAddress market))
                (resolvedSymbol env (KNOWN_TOKEN_SYMBOLS s) (quoteMintAddress market))
                (Some 1%float) (Some 0.0001%float) (Some 2978%float)
                (Some 63%float) (Some 909%float) (Some 909%float)), s')).
Proof.
  intros Hunknown. split.
  - intros e s1 Hload.
    destruct (loadOpenBookMarket_throws _ _ _ _ _ _ Hload) as (msg & -> & _).
    unfold getMarketInfo.
    rewrite (try_catch_throw _ _ s (Error msg) s1); [reflexivity|].
    rewrite bind_get_state, Hunknown. now apply bind_throw.
  - intros market s1 Hload.
    destruct (getTokenMetadata_twice env (baseMintAddress market) (quoteMintAddress market) s1)
      as (baseMd & quoteMd & s2 & s3 & tr & H1 & H2 & Hsym1 & Hsym2 & _).
    assert (Hs1 : KNOWN_TOKEN_SYMBOLS s1 = KNOWN_TOKEN_SYMBOLS s)
      by apply (loadOpenBookMarket_read_only env addr useSerum s _ _ Hload).
    rewrite Hs1 in Hsym1, Hsym2.
    exists s3. unfold getMarketInfo. apply try_catch_ok.
    rewrite bind_get_state, Hunknown.
    rewrite (bind_ok _ _ _ _ _ Hload), (bind_ok _ _ _ _ _ H1), (bind_ok _ _ _ _ _ H2).
    unfold ret. now rewrite Hsym1, Hsym2.
Qed.

(** When a key has no truthy value in [KNOWN_MARKETS]. *)
Lemma truthy_entry_none markets addr :
  truthy_entry (readMarket markets addr) = None <->
  (markets !! addr = None /\ inheritedProperty addr = None) \/
  markets !! addr = Some NullEntry \/ markets !! addr = Some FalsyEntry.
Proof.
  unfold readMarket. destruct (markets !! addr) as [[| |marketData]|]; cbn.
  - split; auto.
  - split; auto.
  - split; [discriminate|]. intros [[H _]|[H|H]]; discriminate.
  - split.
    + intros H. left. split; [reflexivity|].
      unfold inheritedProperty in *.
      destruct (String.eqb addr "constructor"); [discriminate|].
      destruct (String.eqb addr "__proto__"); [discriminate|].
      destruct (existsb (String.eqb addr) objectPrototypeMethods); [discriminate|reflexivity].
    + intros [[_ ->]|[H|H]]; [reflexivity|discriminate..].
Qed.



(** X9.  For a key under which [KNOWN_MARKETS] holds no truthy value (no
    own entry and nothing inherited, or a [null] or falsy entry),
    [getMarketInfo] fails exactly as [loadOpenBookMarket] fails (same
    error, no further call); when the market loads, the mints are the
    market's, the symbols are resolved from the cache, and the six numeric
    fields are the fixed defaults 1, 0.0001, 2978, 63, 909, 909. *)
Theorem getMarketInfo_unknown_market env addr useSerum s :
  (KNOWN_MARKETS s !! addr = None /\ inheritedProperty addr = None) \/
  KNOWN_MARKETS s !! addr = Some NullEntry \/ KNOWN_MARKETS s !! addr = Some FalsyEntry ->
  (forall e s1,
     loadOpenBookMarket env addr useSerum s = (Throw e, s1) ->
     getMarketInfo env addr useSerum s = (Throw e, s1)) /\
  (forall market s1,
     loadOpenBookMarket env addr useSerum s = (Ok market, s1) ->
     exists s',
       getMarketInfo env addr useSerum s
       = (Ok (mkMarketInfo addr (baseMintAddress market) (quoteMintAddress market)
                (resolvedSymbol env (KNOWN_TOKEN_SYMBOLS s) (baseMintAddress market))
                (resolvedSymbol env (KNOWN_TOKEN_SYMBOLS s) (quoteMintAddress market))
                (Some 1%float) (Some 0.0001%float) (Some 2978%float)
                (Some 63%float) (Some 909%float) (Some 909%float)), s')).
Proof.
  intros Hunknown. apply getMarketInfo_not_stored. now apply truthy_entry_none.
Qed.

Lemma getMarketInfo_unknown_market_witness :
  exists s',
    getMarketInfo Sample.openbookEnv Sample.MARKET false Sample.emptyState
    = (Ok (mkMarketInfo Sample.MARKET Sample.SOL Sample.USDC "So111111" "EPjFWdd5"
             (Some 1%float) (Some 0.0001%float) (Some 2978%float)
             (Some 63%float) (Some 909%float) (Some 909%float)), s').
Proof.
  exact (proj2 (getMarketInfo_unknown_market Sample.openbookEnv Sample.MARKET false
                  Sample.emptyState (or_introl (conj eq_refl eq_refl)))
           (Sample.marketWith Sample.sortedBids Sample.sortedAsks)
           (emit (EvMarketLoad Sample.MARKET OPENBOOK_PROGRAM_ID) Sample.emptyState)
           eq_refl).
Defined.

(** X10.  None of the query and report functions changes [KNOWN_MARKETS],
    [KNOWN_TOKEN_SYMBOLS] or a file, or issues a file write, whether it
    returns or throws. *)
Theorem queries_are_read_only env :
  (forall mint, preserves read_only (getTokenMetadata env mint)) /\
  (forall addr useSerum, preserves read_only (isValidMarket env addr useSerum)) /\
  (forall addr useSerum, preserves read_only (loadOpenBookMarket env addr useSerum)) /\
  (forall addr useSerum, preserves read_only (getMarketInfo env addr useSerum)) /\
  (forall addr useSerum, preserves read_only (getMarketAccounts env addr useSerum)) /\
  (forall addr depth useSerum, preserves read_only (getRealOrderBook env addr depth useSerum)) /\
  (forall addr depth, preserves read_only (getOrderBook env addr depth)) /\
  (forall addr useSerum, preserves read_only (getMarketStats env addr useSerum)) /\
  (forall addr useSerum, preserves read_only (displayMarketInfo env addr useSerum)) /\
  (forall addr depth useSerum, preserves read_only (displayOrderBook env addr depth useSerum)).
Proof.
  repeat match goal with |- _ /\ _ => split end; intros;
    auto using getTokenMetadata_read_only, isValidMarket_read_only,
      loadOpenBookMarket_read_only, getMarketInfo_read_only, getMarketAccounts_read_only,
      getRealOrderBook_read_only, getOrderBook_read_only, getMarketStats_read_only,
      displayMarketInfo_read_only, displayOrderBook_read_only.
Qed.

Lemma queries_are_read_only_witness :
  read_only Sample.storedState
    (snd (displayOrderBook Sample.openbookEnv Sample.MARKET 15 false Sample.storedState)).
Proof.
  apply (proj2 (proj2 (proj2 (proj2 (proj2 (proj2 (proj2 (proj2 (proj2
           (queries_are_read_only Sample.openbookEnv))))))))) Sample.MARKET 15%nat false
           Sample.storedState
           (fst (displayOrderBook Sample.openbookEnv Sample.MARKET 15 false
                   Sample.storedState))).
  apply surjective_pairing.
Defined.

(** ** Market statistics, continued *)

(** X11.  When the book has no bid or no ask, [getMarketStats] reports no
    spread and no spread percentage, totals equal to the lengths of the two
    sides, and no best price on an empty side. *)
Theorem getMarketStats_empty_side env addr useSerum s book s1 :
  getRealOrderBook env addr 1 useSerum s = (Ok book, s1) ->
  bids book = [] \/ asks book = [] ->
  exists stats,
    getMarketStats env addr useSerum s = (Ok stats, s1) /\
    spread stats = None /\ spreadPercentage stats = None /\
    totalBids stats = length (bids book) /\ totalAsks stats = length (asks book) /\
    (bids book = [] -> bestBid stats = None) /\
    (asks book = [] -> bestAsk stats = None).
Proof.
  intros Hrun Hempty.
  exists (stats_of book). split.
  - unfold getMarketStats. apply try_catch_ok. now rewrite (bind_ok _ _ _ _ _ Hrun).
  - unfold stats_of; cbn.
    assert (Hsp : spread_of (best (bids book)) (best (asks book)) = None).
    { destruct Hempty as [-> | ->]; cbn; [reflexivity|].
      now destruct (best (bids book)). }
    rewrite Hsp. repeat split; try reflexivity.
    + now intros ->.
    + now intros ->.
Qed.

Lemma getMarketStats_empty_side_witness :
  exists stats,
    getMarketStats (Sample.env OPENBOOK_PROGRAM_ID (Sample.marketWith [] Sample.sortedAsks))
      Sample.MARKET false Sample.emptyState
    = (Ok stats,
       emit EvLoadAsks (emit EvLoadBids
         (emit (EvMarketLoad Sample.MARKET OPENBOOK_PROGRAM_ID) Sample.emptyState))) /\
    spread stats = None /\ spreadPercentage stats = None /\
    totalBids stats = 0%nat /\ totalAsks stats = 3%nat.
Proof.
  destruct (getMarketStats_empty_side
              (Sample.env OPENBOOK_PROGRAM_ID (Sample.marketWith [] Sample.sortedAsks))
              Sample.MARKET false Sample.emptyState
              (mkOrderBook [] (map askLevel Sample.sortedAsks))
              (emit EvLoadAsks (emit EvLoadBids
                 (emit (EvMarketLoad Sample.MARKET OPENBOOK_PROGRAM_ID) Sample.emptyState))))
    as (stats & Hrun & Hs & Hp & Hb & Ha & _).
  - vm_compute. reflexivity.
  - left. reflexivity.
  - exists stats. auto.
Defined.

(** X12.  The statistics carry a spread percentage exactly when both sides
    are non-empty, both best prices are neither a zero nor NaN, and their
    difference, computed in doubles, is neither a zero nor NaN; it is then
    [((ask - bid) / bid) * 100] in the arithmetic of doubles.  In
    particular the divisor is never a zero. *)
Theorem spreadPercentage_defined book p :
  spreadPercentage (stats_of book) = Some p <->
  exists b a restBids restAsks,
    bids book = b :: restBids /\ asks book = a :: restAsks /\
    truthy_number (price b) = true /\ truthy_number (price a) = true /\
    truthy_number (price a - price b)%float = true /\
    (price b =? 0)%float = false /\
    p = (((price a - price b) / price b) * 100)%float.
Proof.
  unfold stats_of; cbn. split.
  - destruct (bids book) as [|b restBids]; [discriminate|].
    destruct (asks book) as [|a restAsks]; [discriminate|].
    cbn.
    destruct (truthy_number (price b)) eqn:Hb; [|discriminate].
    destruct (truthy_number (price a)) eqn:Ha; [|discriminate].
    cbn. rewrite Hb.
    destruct (truthy_number (price a - price b)%float) eqn:Hs; [|discriminate].
    cbn. intros H; inversion H; subst.
    exists b, a, restBids, restAsks.
    repeat split; auto.
    unfold truthy_number in Hb. apply andb_prop in Hb as [Hb _].
    now apply negb_true_iff in Hb.
  - intros (b & a & restBids & restAsks & -> & -> & Hb & Ha & Hs & _ & ->).
    cbn. rewrite Hb, Ha. cbn. now rewrite Hs, Hb.
Qed.

Lemma spreadPercentage_defined_witness :
  spreadPercentage
    (stats_of (mkOrderBook (map bidLevel Sample.sortedBids) (map askLevel Sample.sortedAsks)))
  = Some 0.8333333333333341%float.
Proof.
  apply (proj2 (spreadPercentage_defined
                  (mkOrderBook (map bidLevel Sample.sortedBids)
                               (map askLevel Sample.sortedAsks)) _)).
  exists (mkLevel 1.2 50 bid), (mkLevel 1.21 40 ask),
         (map bidLevel (tl Sample.sortedBids)), (map askLevel (tl Sample.sortedAsks)).
  repeat split; reflexivity.
Defined.

(** ** The order-book report *)

Lemma sorted_by_snoc le l x :
  sorted_by le (l ++ [x]) =
  sorted_by le l && match rev l with
                    | y :: _ => le y x
                    | [] => true
                    end.
Proof.
  induction l as [|a l IH]; [reflexivity|].
  destruct l as [|b l].
  - cbn. now rewrite andb_true_r.
  - change (sorted_by le ((a :: b :: l) ++ [x]))
      with (le a b && sorted_by le ((b :: l) ++ [x])).
    rewrite IH.
    change (sorted_by le (a :: b :: l)) with (le a b && sorted_by le (b :: l)).
    rewrite <- andb_assoc. f_equal. f_equal.
    change (rev (a :: b :: l)) with (rev (b :: l) ++ [a]).
    destruct (rev (b :: l)) as [|y t] eqn:Hrev; [|reflexivity].
    apply (f_equal (@length float)) in Hrev. rewrite length_rev in Hrev. discriminate.
Qed.

Lemma sorted_by_rev le l :
  sorted_by le (rev l) = sorted_by (fun a b => le b a) l.
Proof.
  induction l as [|a l IH]; [reflexivity|].
  cbn [rev]. rewrite sorted_by_snoc, IH, rev_involutive.
  destruct l as [|b l]; [reflexivity|]. cbn. apply andb_comm.
Qed.

Lemma descending_rev l : descending (rev l) = ascending l.
Proof. unfold descending, ascending. apply sorted_by_rev. Qed.

(** Reading the book prints nothing, whether it succeeds or fails. *)
Lemma console_kept_refl s : console_kept s s.
Proof. reflexivity. Qed.

Lemma console_kept_trans s1 s2 s3 :
  console_kept s1 s2 -> console_kept s2 s3 -> console_kept s1 s3.
Proof. unfold console_kept. congruence. Qed.

Ltac console_step :=
  first
    [ apply (preserves_ret console_kept console_kept_refl)
    | apply (preserves_throw console_kept console_kept_refl)
    | apply (preserves_get_state console_kept console_kept_refl)
    | apply (preserves_await console_kept); intros ?; reflexivity
    | apply (preserves_bind console_kept console_kept_trans); [|intros ?]
    | apply (preserves_try_catch console_kept console_kept_trans); [|intros ?] ].

Lemma createPublicKey_console env addr : preserves console_kept (createPublicKey env addr).
Proof. unfold createPublicKey. destruct (validKey env addr); console_step. Qed.

Lemma loadOpenBookMarket_console env addr useSerum :
  preserves console_kept (loadOpenBookMarket env addr useSerum).
Proof.
  unfold loadOpenBookMarket.
  console_step.
  - console_step; [apply createPublicKey_console|].
    console_step; [apply createPublicKey_console|].
    console_step.
  - destruct e as [msg|]; [|console_step].
    destruct (includes "Address not owned by program" msg); [console_step|].
    destruct (includes "Market account not found" msg); console_step.
Qed.

Lemma getRealOrderBook_console env addr depth useSerum :
  preserves console_kept (getRealOrderBook env addr depth useSerum).
Proof.
  unfold getRealOrderBook.
  console_step; [|destruct e; cbn; console_step].
  console_step; [apply loadOpenBookMarket_console|].
  console_step; [console_step|].
  console_step; [console_step|]. console_step.
Qed.

(** X13.  [displayOrderBook] never throws, and it prints the title line,
    with the resolved market name, before it reads the book.  When the
    book is read, the title is followed by one report: the asks in reverse
    order, the bids in the order received, and the statistics of the book;
    the asks shown are in descending price order exactly when the asks
    received are in ascending order.  When the book cannot be read, the
    title is followed by the error line and nothing else. *)
Theorem displayOrderBook_report env addr depth useSerum s marketName s1 :
  resolveMarketName env addr useSerum s = (Ok marketName, s1) ->
  (forall book s2,
     getRealOrderBook env addr depth useSerum (print (OutOrderBookTitle marketName) s1)
     = (Ok book, s2) ->
     displayOrderBook env addr depth useSerum s
     = (Ok tt, print (OutOrderBook (rev (asks book)) (bids book) (stats_of book)) s2) /\
     console (print (OutOrderBook (rev (asks book)) (bids book) (stats_of book)) s2)
     = console s1 ++ [OutOrderBookTitle marketName;
                      OutOrderBook (rev (asks book)) (bids book) (stats_of book)] /\
     descending (map price (rev (asks book))) = ascending (map price (asks book))) /\
  (forall e s2,
     getRealOrderBook env addr depth useSerum (print (OutOrderBookTitle marketName) s1)
     = (Throw e, s2) ->
     displayOrderBook env addr depth useSerum s
     = (Ok tt,
        print (OutError ("Error: " +:+ message_or "Failed to display order book" e)) s2) /\
     console (print (OutError ("Error: " +:+ message_or "Failed to display order book" e)) s2)
     = console s1 ++ [OutOrderBookTitle marketName;
                      OutError ("Error: " +:+ message_or "Failed to display order book" e)]).
Proof.
  intros Hname. split.
  - intros book s2 Hbook. split; [|split].
    + unfold displayOrderBook. apply try_catch_ok.
      rewrite (bind_ok _ _ _ _ _ Hname).
      rewrite bind_modify.
      rewrite (bind_ok _ _ _ _ _ Hbook). reflexivity.
    + cbn [console print].
      rewrite (getRealOrderBook_console _ _ _ _ _ _ _ Hbook). cbn.
      now rewrite <- app_assoc.
    + rewrite map_rev. apply descending_rev.
  - intros e s2 Hbook. split.
    + unfold displayOrderBook.
      rewrite (try_catch_throw _ _ s e s2); [reflexivity|].
      rewrite (bind_ok _ _ _ _ _ Hname).
      rewrite bind_modify.
      now apply bind_throw.
    + cbn [console print].
      rewrite (getRealOrderBook_console _ _ _ _ _ _ _ Hbook). cbn.
      now rewrite <- app_assoc.
Qed.

Lemma displayOrderBook_report_witness :
  displayOrderBook Sample.openbookEnv Sample.USDC 15 false Sample.emptyState
  = (Ok tt,
     print (OutError ("Error: " +:+ message_or "Failed to display order book"
                        (Error "Market not owned by OpenBook program")))
       (emit (EvMarketLoad Sample.USDC OPENBOOK_PROGRAM_ID)
          (print (OutOrderBookTitle Sample.USDC)
             (emit (EvMarketLoad Sample.USDC OPENBOOK_PROGRAM_ID) Sample.emptyState)))) /\
  console
    (print (OutError ("Error: " +:+ message_or "Failed to display order book"
                        (Error "Market not owned by OpenBook program")))
       (emit (EvMarketLoad Sample.USDC OPENBOOK_PROGRAM_ID)
          (print (OutOrderBookTitle Sample.USDC)
             (emit (EvMarketLoad Sample.USDC OPENBOOK_PROGRAM_ID) Sample.emptyState))))
  = [] ++ [OutOrderBookTitle Sample.USDC;
           OutError "Error: Market not owned by OpenBook program"].
Proof.
  apply (proj2 (displayOrderBook_report Sample.openbookEnv Sample.USDC 15 false
                  Sample.emptyState Sample.USDC
                  (emit (EvMarketLoad Sample.USDC OPENBOOK_PROGRAM_ID) Sample.emptyState)
                  eq_refl)).
  reflexivity.
Defined.





(** ** Saving and loading the store *)

Lemma storeFileName_other useSerum : storeFileName useSerum <> storeFileName (negb useSerum).
Proof. destruct useSerum; discriminate. Qed.

Lemma saveKnownMarketsToFile_run env useSerum s :
  saveKnownMarketsToFile env useSerum s =
  if writeFails env (storeFileName useSerum)
  then (Ok tt, print (OutError "Error saving known markets:")
                 (emit (EvWriteFile (storeFileName useSerum)) s))
  else (Ok tt,
        set_files (<[storeFileName useSerum :=
                       FileContent (jsonStringify env (KNOWN_MARKETS s)
                                      (KNOWN_TOKEN_SYMBOLS s))]> (files s))
          (emit (EvWriteFile (storeFileName useSerum)) s)).
Proof.
  unfold saveKnownMarketsToFile, try_catch, bind, get_state, modify.
  cbn. destruct (writeFails env (storeFileName useSerum)); reflexivity.
Qed.

(** X15.  [saveKnownMarketsToFile] never throws and never changes the two
    mappings; it issues exactly one write, to the store file of the given
    program.  When the write succeeds that file holds the serialisation of
    the two mappings; when it fails the files are unchanged and one error
    line is printed.  The store file of the other program is never
    touched. *)
Theorem saveKnownMarketsToFile_effect env useSerum s :
  exists s',
    saveKnownMarketsToFile env useSerum s = (Ok tt, s') /\
    KNOWN_MARKETS s' = KNOWN_MARKETS s /\
    KNOWN_TOKEN_SYMBOLS s' = KNOWN_TOKEN_SYMBOLS s /\
    trace s' = trace s ++ [EvWriteFile (storeFileName useSerum)] /\
    (writeFails env (storeFileName useSerum) = false ->
     files s' = <[storeFileName useSerum :=
                    FileContent (jsonStringify env (KNOWN_MARKETS s)
                                   (KNOWN_TOKEN_SYMBOLS s))]> (files s)) /\
    (writeFails env (storeFileName useSerum) = true ->
     files s' = files s /\
     console s' = console s ++ [OutError "Error saving known markets:"]) /\
    files s' !! storeFileName (negb useSerum) = files s !! storeFileName (negb useSerum).
Proof.
  rewrite saveKnownMarketsToFile_run.
  destruct (writeFails env (storeFileName useSerum)); eexists; (split; [reflexivity|]); cbn;
    repeat split; try reflexivity; try discriminate.
  apply lookup_insert_ne, storeFileName_other.
Qed.

Lemma saveKnownMarketsToFile_effect_witness :
  exists s',
    saveKnownMarketsToFile Sample.codecEnv true Sample.storedState = (Ok tt, s') /\
    files s' = files Sample.storedState /\
    console s' = console Sample.storedState ++ [OutError "Error saving known markets:"].
Proof.
  destruct (saveKnownMarketsToFile_effect Sample.codecEnv true Sample.storedState)
    as (s' & Hrun & _ & _ & _ & _ & Hfail & _).
  exists s'. split; [exact Hrun|]. apply Hfail. reflexivity.
Defined.

Lemma loadKnownMarketsFromFile_parsed env useSerum s text markets symbols :
  files s !! storeFileName useSerum = Some (FileContent text) ->
  jsonParse env text = ParsedData markets symbols ->
  loadKnownMarketsFromFile env useSerum s
  = (Ok tt, set_symbols (default ∅ symbols) (set_markets (default ∅ markets) s)).
Proof.
  intros Hfile Hparse.
  unfold loadKnownMarketsFromFile, try_catch, bind, get_state.
  rewrite Hfile, Hparse. reflexivity.
Qed.

(** X16.  Save, then load: when the write succeeds and the JSON codec
    gives back the two mappings it serialised, a later
    [loadKnownMarketsFromFile] for the same program restores exactly the
    mappings that were saved, whatever the memory holds by then. *)
Theorem save_then_load_restores env useSerum s laterMarkets laterSymbols :
  writeFails env (storeFileName useSerum) = false ->
  jsonParse env (jsonStringify env (KNOWN_MARKETS s) (KNOWN_TOKEN_SYMBOLS s))
  = ParsedData (Some (KNOWN_MARKETS s)) (Some (KNOWN_TOKEN_SYMBOLS s)) ->
  let saved := snd (saveKnownMarketsToFile env useSerum s) in
  let later := set_symbols laterSymbols (set_markets laterMarkets saved) in
  exists s',
    loadKnownMarketsFromFile env useSerum later = (Ok tt, s') /\
    KNOWN_MARKETS s' = KNOWN_MARKETS s /\
    KNOWN_TOKEN_SYMBOLS s' = KNOWN_TOKEN_SYMBOLS s.
Proof.
  intros Hwrite Hcodec saved later. subst later saved.
  rewrite saveKnownMarketsToFile_run, Hwrite. cbn [snd].
  eexists. split.
  - eapply loadKnownMarketsFromFile_parsed; [|exact Hcodec].
    cbn. apply lookup_insert_eq.
  - split; reflexivity.
Qed.

Lemma save_then_load_restores_witness :
  exists s',
    loadKnownMarketsFromFile Sample.codecEnv false
      (set_symbols ∅ (set_markets ∅
         (snd (saveKnownMarketsToFile Sample.codecEnv false Sample.storedState))))
    = (Ok tt, s') /\
    KNOWN_MARKETS s' = KNOWN_MARKETS Sample.storedState /\
    KNOWN_TOKEN_SYMBOLS s' = KNOWN_TOKEN_SYMBOLS Sample.storedState.
Proof.
  exact (save_then_load_restores Sample.codecEnv false Sample.storedState ∅ ∅
           eq_refl eq_refl).
Defined.

(** X17.  What [loadKnownMarketsFromFile] leaves in the two mappings is
    decided by the store file of the given program alone: two states that
    agree on that file end with the same mappings, whatever they held
    before and whatever the other files are.  When the file parses, a
    mapping that is missing from it comes out empty and the other one is
    taken from the file. *)
Theorem loadKnownMarketsFromFile_reads_own_file env useSerum s t :
  (files s !! storeFileName useSerum = files t !! storeFileName useSerum ->
   KNOWN_MARKETS (snd (loadKnownMarketsFromFile env useSerum s))
   = KNOWN_MARKETS (snd (loadKnownMarketsFromFile env useSerum t)) /\
   KNOWN_TOKEN_SYMBOLS (snd (loadKnownMarketsFromFile env useSerum s))
   = KNOWN_TOKEN_SYMBOLS (snd (loadKnownMarketsFromFile env useSerum t))) /\
  (forall text markets symbols,
     files s !! storeFileName useSerum = Some (FileContent text) ->
     jsonParse env text = ParsedData markets symbols ->
     KNOWN_MARKETS (snd (loadKnownMarketsFromFile env useSerum s)) = default ∅ markets /\
     KNOWN_TOKEN_SYMBOLS (snd (loadKnownMarketsFromFile env useSerum s)) = default ∅ symbols).
Proof.
  split.
  - intros Hsame.
    unfold loadKnownMarketsFromFile, try_catch, bind, get_state.
    rewrite <- Hsame.
    destruct (files s !! storeFileName useSerum) as [[text|]|]; cbn; auto.
    destruct (jsonParse env text); cbn; auto.
  - intros text markets symbols Hfile Hparse.
    rewrite (loadKnownMarketsFromFile_parsed _ _ _ _ _ _ Hfile Hparse). split; reflexivity.
Qed.

Lemma loadKnownMarketsFromFile_reads_own_file_witness :
  KNOWN_MARKETS (snd (loadKnownMarketsFromFile Sample.codecEnv false Sample.storedState)) = ∅
  /\ KNOWN_TOKEN_SYMBOLS
       (snd (loadKnownMarketsFromFile Sample.codecEnv false Sample.storedState)) = ∅.
Proof.
  exact (proj2 (loadKnownMarketsFromFile_reads_own_file Sample.codecEnv false
                  Sample.storedState Sample.emptyState)
           "{}" None None eq_refl eq_refl).
Defined.

(** ** Adding a market, continued *)

Lemma addSymbolIfNotPresent_symbols mint sym s t :
  KNOWN_TOKEN_SYMBOLS s = KNOWN_TOKEN_SYMBOLS t ->
  KNOWN_TOKEN_SYMBOLS (addSymbolIfNotPresent mint sym s)
  = KNOWN_TOKEN_SYMBOLS (addSymbolIfNotPresent mint sym t).
Proof.
  intros H. unfold addSymbolIfNotPresent. rewrite H.
  destruct (truthy_symbol (KNOWN_TOKEN_SYMBOLS t) mint); cbn; congruence.
Qed.

Lemma addSymbolIfNotPresent_store mint sym s :
  KNOWN_MARKETS (addSymbolIfNotPresent mint sym s) = KNOWN_MARKETS s /\
  files (addSymbolIfNotPresent mint sym s) = files s /\
  trace (addSymbolIfNotPresent mint sym s) = trace s /\
  console (addSymbolIfNotPresent mint sym s) = console s.
Proof.
  unfold addSymbolIfNotPresent.
  destruct (truthy_symbol (KNOWN_TOKEN_SYMBOLS s) mint); auto.
Qed.




(** [addMarketToKnownMarkets] on a market that loads, step by step: [s2]
    is the state after the three writes, before the closing listing. *)
Lemma addMarketToKnownMarkets_loaded env addr useSerum s market s1 :
  loadOpenBookMarket env addr useSerum s = (Ok market, s1) ->
  let baseSym := resolvedSymbol env (KNOWN_TOKEN_SYMBOLS s) (baseMintAddress market) in
  let quoteSym := resolvedSymbol env (KNOWN_TOKEN_SYMBOLS s) (quoteMintAddress market) in
  exists s2,
    KNOWN_MARKETS s2
    = <[addr := ObjectEntry (newMarketInfo baseSym quoteSym market)]> (KNOWN_MARKETS s) /\
    KNOWN_TOKEN_SYMBOLS s2
    = KNOWN_TOKEN_SYMBOLS
        (addSymbolIfNotPresent (quoteMintAddress market) quoteSym
           (addSymbolIfNotPresent (baseMintAddress market) baseSym s)) /\
    files s2 = files s /\ writes (trace s2) = writes (trace s) /\
    addMarketToKnownMarkets env addr useSerum s
    = if has_null_entry (KNOWN_MARKETS s2)
      then (Throw (cannotRead "name" "null"),
            print (OutError "Error adding market to known markets:")
              (print OutMarketListCut s2))
      else (Ok tt, print (OutMarketList (shownName <$> KNOWN_MARKETS s2)) s2).
Proof.
  intros Hload baseSym quoteSym.
  destruct (loadOpenBookMarket_read_only env addr useSerum s _ _ Hload)
    as ((Hm1 & Hs1 & Hf1) & Hw1).
  destruct (getTokenMetadata_twice env (baseMintAddress market) (quoteMintAddress market) s1)
    as (baseMd & quoteMd & s2 & s3 & tr & H1 & H2 & Hsym1 & Hsym2
        & ((Hm3 & Hs3 & Hf3) & Hw3) & _).
  rewrite Hs1 in Hsym1, Hsym2. fold baseSym in Hsym1. fold quoteSym in Hsym2.
  set (stored := set_markets (<[addr := ObjectEntry (newMarketInfo baseSym quoteSym market)]>
                                (KNOWN_MARKETS s3)) s3).
  exists (addSymbolIfNotPresent (quoteMintAddress market) quoteSym
            (addSymbolIfNotPresent (baseMintAddress market) baseSym stored)).
  destruct (addSymbolIfNotPresent_store (quoteMintAddress market) quoteSym
              (addSymbolIfNotPresent (baseMintAddress market) baseSym stored))
    as (Em & Ef & Et & _).
  destruct (addSymbolIfNotPresent_store (baseMintAddress market) baseSym stored)
    as (Em' & Ef' & Et' & _).
  split; [|split; [|split; [|split]]].
  - rewrite Em, Em'. subst stored. cbn. congruence.
  - apply addSymbolIfNotPresent_symbols, addSymbolIfNotPresent_symbols.
    subst stored. cbn. congruence.
  - rewrite Ef, Ef'. subst stored. cbn. congruence.
  - rewrite Et, Et'. subst stored. unfold set_markets; cbn [trace]. congruence.
  - unfold addMarketToKnownMarkets, try_catch.
    rewrite (bind_ok _ _ _ _ _ Hload), (bind_ok _ _ _ _ _ H1), (bind_ok _ _ _ _ _ H2).
    rewrite !bind_modify. rewrite Hsym1, Hsym2. fold stored.
    unfold printKnownMarkets.
    destruct (has_null_entry _); reflexivity.
Qed.



Lemma resolvedSymbol_absent env symbols mint :
  symbols !! mint = None -> resolvedSymbol env symbols mint = slice0 8 mint.
Proof.
  intros H. unfold resolvedSymbol, truthy_symbol. rewrite H.
  now destruct (validKey env mint).
Qed.

Lemma addSymbolIfNotPresent_other mint sym s key :
  key <> mint ->
  KNOWN_TOKEN_SYMBOLS (addSymbolIfNotPresent mint sym s) !! key
  = KNOWN_TOKEN_SYMBOLS s !! key.
Proof.
  intros Hne. unfold addSymbolIfNotPresent.
  destruct (truthy_symbol (KNOWN_TOKEN_SYMBOLS s) mint); [reflexivity|].
  cbn. now apply lookup_insert_ne.
Qed.

Lemma addSymbolIfNotPresent_absent mint sym s :
  KNOWN_TOKEN_SYMBOLS s !! mint = None ->
  KNOWN_TOKEN_SYMBOLS (addSymbolIfNotPresent mint sym s) !! mint = Some sym.
Proof.
  intros H. unfold addSymbolIfNotPresent, truthy_symbol. rewrite H.
  cbn. apply lookup_insert_eq.
Qed.

(** Writing [sym] where [sym] already is changes nothing to the lookup. *)
Lemma addSymbolIfNotPresent_same mint sym s :
  KNOWN_TOKEN_SYMBOLS s !! mint = Some sym ->
  KNOWN_TOKEN_SYMBOLS (addSymbolIfNotPresent mint sym s) !! mint = Some sym.
Proof.
  intros H. unfold addSymbolIfNotPresent.
  destruct (truthy_symbol (KNOWN_TOKEN_SYMBOLS s) mint); [exact H|].
  cbn. apply lookup_insert_eq.
Qed.

(** X19.  The symbols a successful [addMarketToKnownMarkets] writes: a mint
    of the market that had no entry gets the first 8 characters of its
    address, and the entry of every identifier other than the two mints is
    left as it was. *)
Theorem addMarketToKnownMarkets_new_symbols env addr useSerum s market s1 s' :
  loadOpenBookMarket env addr useSerum s = (Ok market, s1) ->
  addMarketToKnownMarkets env addr useSerum s = (Ok tt, s') ->
  (KNOWN_TOKEN_SYMBOLS s !! baseMintAddress market = None ->
   KNOWN_TOKEN_SYMBOLS s' !! baseMintAddress market
   = Some (slice0 8 (baseMintAddress market))) /\
  (KNOWN_TOKEN_SYMBOLS s !! quoteMintAddress market = None ->
   KNOWN_TOKEN_SYMBOLS s' !! quoteMintAddress market
   = Some (slice0 8 (quoteMintAddress market))) /\
  (forall key,
     key <> baseMintAddress market -> key <> quoteMintAddress market ->
     KNOWN_TOKEN_SYMBOLS s' !! key = KNOWN_TOKEN_SYMBOLS s !! key).
Proof.
  intros Hload Hrun.
  destruct (addMarketToKnownMarkets_loaded env addr useSerum s market s1 Hload)
    as (s2 & _ & Hsym & _ & _ & Hrun').
  rewrite Hrun in Hrun'.
  destruct (has_null_entry (KNOWN_MARKETS s2)); [discriminate|].
  inversion Hrun'; subst s'. cbn [KNOWN_TOKEN_SYMBOLS print].
  rewrite Hsym. clear Hsym Hrun' Hrun.
  set (base := baseMintAddress market). set (quote := quoteMintAddress market).
  split; [|split].
  - intros Hnone.
    rewrite (resolvedSymbol_absent env _ base Hnone).
    destruct (decide (base = quote)) as [Heq|Hne].
    + rewrite <- Heq. rewrite (resolvedSymbol_absent env _ base Hnone).
      apply addSymbolIfNotPresent_same. now apply addSymbolIfNotPresent_absent.
    + rewrite addSymbolIfNotPresent_other by exact Hne.
      now apply addSymbolIfNotPresent_absent.
  - intros Hnone.
    rewrite (resolvedSymbol_absent env _ quote Hnone).
    destruct (decide (base = quote)) as [Heq|Hne].
    + rewrite Heq. rewrite (resolvedSymbol_absent env _ quote Hnone).
      apply addSymbolIfNotPresent_same. now apply addSymbolIfNotPresent_absent.
    + apply addSymbolIfNotPresent_absent.
      rewrite addSymbolIfNotPresent_other by congruence. exact Hnone.
  - intros key Hb Hq. now rewrite !addSymbolIfNotPresent_other.
Qed.

Lemma addMarketToKnownMarkets_new_symbols_witness :
  KNOWN_TOKEN_SYMBOLS
    (snd (addMarketToKnownMarkets Sample.openbookEnv Sample.MARKET false Sample.storedState))
    !! Sample.SOL
  = Some "So111111".
Proof.
  apply (proj1 (addMarketToKnownMarkets_new_symbols Sample.openbookEnv Sample.MARKET false
                  Sample.storedState
                  (Sample.marketWith Sample.sortedBids Sample.sortedAsks)
                  (emit (EvMarketLoad Sample.MARKET OPENBOOK_PROGRAM_ID) Sample.storedState)
                  (snd (addMarketToKnownMarkets Sample.openbookEnv Sample.MARKET false
                          Sample.storedState))
                  eq_refl eq_refl)).
  reflexivity.
Defined.

(** ** The [--add] branch of [main], continued *)

Lemma writes_emit_write fileName s :
  writes (trace (emit (EvWriteFile fileName) s)) = writes (trace s) ++ [EvWriteFile fileName].
Proof. cbn. unfold writes. now rewrite List.filter_app. Qed.



(** X21.  When loading the market fails, the [--add] branch of [main]
    prints two lines, "Error adding market to known markets:" and
    "Error: <message of the loader>", and returns normally.  The message is
    never "Invalid public key format", so the branch never prints its
    invalid-address line: an address that is not valid is reported as
    "Error: Failed to load <program> market: Invalid public key format". *)
Theorem main_add_failure_report env addr useSerum s e s1 :
  loadOpenBookMarket env addr useSerum s = (Throw e, s1) ->
  exists msg,
    e = Error msg /\ msg <> "Invalid public key format" /\
    main_add env addr useSerum s
    = (Ok tt,
       print (OutError ("Error: " +:+ msg))
         (print (OutError "Error adding market to known markets:") s1)).
Proof.
  intros Hload.
  destruct (loadOpenBookMarket_throws _ _ _ _ _ _ Hload) as (msg & -> & Hkey & _).
  exists msg. split; [reflexivity|]. split.
  { intros ->. discriminate. }
  assert (Hadd : addMarketToKnownMarkets env addr useSerum s
                 = (Throw (Error msg),
                    print (OutError "Error adding market to known markets:") s1)).
  { unfold addMarketToKnownMarkets.
    rewrite (try_catch_throw _ _ s (Error msg) s1); [reflexivity|].
    now apply bind_throw. }
  unfold main_add.
  rewrite (try_catch_throw _ _ s (Error msg) _ (bind_throw _ _ _ _ _ Hadd)).
  rewrite Hkey. reflexivity.
Qed.

Lemma main_add_failure_report_witness :
  exists msg,
    Error "Failed to load OpenBook market: Invalid public key format" = Error msg /\
    msg <> "Invalid public key format" /\
    main_add Sample.openbookEnv "--serum" false Sample.emptyState
    = (Ok tt,
       print (OutError ("Error: " +:+ msg))
         (print (OutError "Error adding market to known markets:") Sample.emptyState)).
Proof.
  apply (main_add_failure_report Sample.openbookEnv "--serum" false Sample.emptyState).
  reflexivity.
Defined.

(** ** [main] as a whole *)


Section WholeProgram.
Variable env : Env.


Lemma notAValidMarketLines_read_only : preserves read_only notAValidMarketLines.
Proof.
  unfold notAValidMarketLines.
  repeat (read_only_step; [apply console_error_read_only|]).
  apply console_error_read_only.
Qed.

Lemma accountNotFoundLines_read_only : preserves read_only accountNotFoundLines.
Proof.
  unfold accountNotFoundLines.
  repeat (read_only_step; [apply console_error_read_only|]).
  apply console_error_read_only.
Qed.

Lemma detectProgram_read_only target flag : preserves read_only (detectProgram env target flag).
Proof.
  unfold detectProgram.
  read_only_step.
  - read_only_step; [apply createPublicKey_read_only|].
    read_only_step; [read_only_step|].
    destruct a0 as [acct|].
    + destruct (String.eqb (owner acct) SERUM_PROGRAM_ID); [read_only_step|].
      destruct (String.eqb (owner acct) OPENBOOK_PROGRAM_ID); [read_only_step|].
      read_only_step; [apply notAValidMarketLines_read_only | read_only_step].
    + read_only_step; [apply accountNotFoundLines_read_only | read_only_step].
  - destruct (is_invalid_key_error e); [|read_only_step].
    read_only_step; [apply console_error_read_only | read_only_step].
Qed.


Lemma selectProgram_read_only args target : preserves read_only (selectProgram env args target).
Proof.
  unfold selectProgram.
  destruct (negb (args_includes "--list" args) && negb (args_includes "-l" args));
    [apply detectProgram_read_only | read_only_step].
Qed.


Lemma printKnownMarkets_read_only : preserves read_only printKnownMarkets.
Proof.
  intros s r s' H. destruct (printKnownMarkets_prints s) as (r0 & o & E).
  rewrite E in H. inversion H; subst. apply read_only_print.
Qed.

Lemma listKnownMarkets_read_only useSerum : preserves read_only (listKnownMarkets useSerum).
Proof. apply printKnownMarkets_read_only. Qed.

Lemma main_display_read_only target useSerum :
  preserves read_only (main_display env target useSerum).
Proof.
  unfold main_display.
  read_only_step.
  - read_only_step; [apply isValidMarket_read_only|].
    destruct (negb a); [apply notAValidMarketLines_read_only|].
    read_only_step; [apply displayMarketInfo_read_only | apply displayOrderBook_read_only].
  - destruct (is_invalid_key_error e); [apply console_error_read_only | read_only_step].
Qed.





Lemma files_kept_markets m s : files_kept s (set_markets m s).
Proof. now split. Qed.

Lemma files_kept_symbols m s : files_kept s (set_symbols m s).
Proof. now split. Qed.

Ltac files_kept_step :=
  first
    [ apply (preserves_ret files_kept files_kept_refl)
    | apply (preserves_throw files_kept files_kept_refl)
    | apply (preserves_get_state files_kept files_kept_refl)
    | apply (preserves_modify files_kept); intros ?;
      first [apply files_kept_markets | apply files_kept_symbols]
    | apply (preserves_bind files_kept files_kept_trans); [|intros ?]
    | apply (preserves_try_catch files_kept files_kept_trans); [|intros ?] ].

Lemma resetKnownMarkets_files_kept : preserves files_kept resetKnownMarkets.
Proof. unfold resetKnownMarkets. files_kept_step; files_kept_step. Qed.

Lemma loadKnownMarketsFromFile_files_kept useSerum :
  preserves files_kept (loadKnownMarketsFromFile env useSerum).
Proof.
  unfold loadKnownMarketsFromFile.
  files_kept_step; [|apply resetKnownMarkets_files_kept].
  files_kept_step; [files_kept_step|].
  destruct (files a !! storeFileName useSerum) as [[text|]|];
    [|files_kept_step|apply resetKnownMarkets_files_kept].
  destruct (jsonParse env text); repeat files_kept_step.
Qed.

Lemma read_only_preserves_files_kept {A} (m : M A) :
  preserves read_only m -> preserves files_kept m.
Proof. intros H s r s' Hrun. apply read_only_files_kept. eapply H; eassumption. Qed.



Lemma main_version_read_only : preserves read_only main_version.
Proof.
  unfold main_version.
  read_only_step; [read_only_step|].
  read_only_step; [|read_only_step].
  destruct (existsb (existsSync a) packageJsonPaths); [read_only_step|].
  apply (preserves_modify read_only). intros ?. now apply read_only_emit.
Qed.

Lemma main_update_read_only : preserves read_only main_update.
Proof.
  unfold main_update.
  read_only_step; [read_only_step|].
  read_only_step.
  - destruct (existsSync a "../package.json"); [read_only_step|].
    apply (preserves_modify read_only). intros ?. now apply read_only_emit.
  - read_only_step; [read_only_step|].
    apply (preserves_modify read_only). intros ?. now apply read_only_emit.
Qed.

Lemma main_run_files_kept args target useSerum :
  args_includes "--add" args = false -> args_includes "-a" args = false ->
  preserves files_kept (main_run env args target useSerum).
Proof.
  intros Hadd Ha. unfold main_run. rewrite Hadd, Ha. cbn [orb andb].
  files_kept_step; [apply loadKnownMarketsFromFile_files_kept|].
  destruct (args_includes "--list" args || args_includes "-l" args);
    apply read_only_preserves_files_kept;
    [apply listKnownMarkets_read_only | apply main_display_read_only].
Qed.

End WholeProgram.

(** X22.  Without [--add], [-a] and [--update] on the command line, a run
    of [main] never changes a file and never issues a file write, whatever
    the other arguments, the node and the files are.  ([--update] is left
    out because the handler it registers may reinstall the program after
    [main] has returned.) *)
Theorem main_without_add_keeps_files env args s r s' :
  args_includes "--add" args = false ->
  args_includes "-a" args = false ->
  args_includes "--update" args = false ->
  main env args s = (r, s') ->
  files s' = files s /\ writes (trace s') = writes (trace s).
Proof.
  intros Hadd Ha Hupdate. revert s r s'.
  change (preserves files_kept (main env args)).
  unfold main. rewrite Hupdate.
  apply (preserves_try_catch files_kept files_kept_trans).
  - destruct (args_includes "--help" args || args_includes "-h" args);
      [apply (preserves_ret files_kept files_kept_refl)|].
    destruct (args_includes "--version" args || args_includes "-v" args);
      [apply read_only_preserves_files_kept, main_version_read_only|].
    destruct args as [|target rest].
    { apply read_only_preserves_files_kept, console_error_read_only. }
    destruct (negb (truthy_string target)).
    { apply read_only_preserves_files_kept, console_error_read_only. }
    apply (preserves_bind files_kept files_kept_trans).
    + apply read_only_preserves_files_kept, selectProgram_read_only.
    + intros [useSerum|why];
        [now apply main_run_files_kept | apply (preserves_ret files_kept files_kept_refl)].
  - intros e. apply read_only_preserves_files_kept, console_error_read_only.
Qed.

Lemma main_without_add_keeps_files_witness :
  files (snd (main Sample.openbookEnv [Sample.MARKET; "--serum"] Sample.storedState))
  = files Sample.storedState /\
  writes (trace (snd (main Sample.openbookEnv [Sample.MARKET; "--serum"] Sample.storedState)))
  = writes (trace Sample.storedState).
Proof.
  apply (main_without_add_keeps_files Sample.openbookEnv [Sample.MARKET; "--serum"]
           Sample.storedState
           (fst (main Sample.openbookEnv [Sample.MARKET; "--serum"] Sample.storedState))).
  - reflexivity.
  - reflexivity.
  - reflexivity.
  - apply surjective_pairing.
Defined.

(** X23.  When the first argument is not a valid address (and [--list] is
    absent), [main] prints the invalid-address line and returns: no call
    reaches the node, no store file is read and nothing is changed, with or
    without [--add].  This is what happens when a flag such as [--serum] is
    put before the address. *)
Theorem main_invalid_address env target rest s :
  names_a_market (target :: rest) = true ->
  has_list_flag (target :: rest) = false ->
  validKey env target = false ->
  main env (target :: rest) s = (Ok tt, print (OutError invalidKeyLine) s).
Proof.
  intros Hargs Hlist Hvalid.
  rewrite (main_selects env target rest s Hargs).
  unfold try_catch, bind.
  rewrite (selectProgram_detects env (target :: rest) target s Hlist).
  unfold detectProgram, try_catch, bind, createPublicKey. rewrite Hvalid. reflexivity.
Qed.

Lemma main_invalid_address_witness :
  main Sample.openbookEnv ["--serum"; Sample.MARKET; "--add"] Sample.storedState
  = (Ok tt, print (OutError invalidKeyLine) Sample.storedState).
Proof.
  apply main_invalid_address; reflexivity.
Defined.





(** X26.  The command-line wrapper always ends with exit status 0 and
    never prints its own "CLI Error:" line: [main] resolves on every
    command line, failures included. *)
Theorem cli_exit_status_zero env args s :
  cli env args s = (0%nat, snd (main env args s)) /\
  exists s', main env args s = (Ok tt, s').
Proof.
  assert (H : exists s', main env args s = (Ok tt, s')).
  { unfold main. unfold try_catch at 1.
    match goal with |- context [match ?m s with _ => _ end] =>
      destruct (m s) as [[[]|e] s1] end; [eauto|].
    unfold main_catch, console_error, modify. eauto. }
  split; [|exact H].
  destruct H as (s' & H). unfold cli. now rewrite H.
Qed.

(** ** The older copy *)

(** X27.  The older copy resolves token metadata exactly as the current
    one: whatever [new PublicKey] throws for a bad address, the two
    [getTokenMetadata] return the same value and leave the same state, for
    every identifier, cache and node. *)
Theorem legacy_getTokenMetadata_agrees env invalidKey mint s :
  Legacy.getTokenMetadata env invalidKey mint s = getTokenMetadata env mint s.
Proof.
  unfold Legacy.getTokenMetadata, getTokenMetadata, try_catch, bind,
    Legacy.newPublicKey, createPublicKey.
  destruct (validKey env mint); reflexivity.
Qed.

(** X28.  The detection of the older [main] never stops the run and never
    throws: an account owned by the Serum program selects Serum, one owned
    by the OpenBook program selects OpenBook, and in every other case (another
    owner, no account, a rejected lookup, an address that is not valid) the
    program named by the [--serum] flag is used. *)
Theorem legacy_detection_never_stops env invalidKey target flag s :
  exists useSerum s',
    Legacy.detectProgram env invalidKey target flag s = (Ok useSerum, s') /\
    (forall acct,
       validKey env target = true ->
       rpcGetAccountInfo env (trace s) target = Ok (Some acct) ->
       (owner acct = SERUM_PROGRAM_ID -> useSerum = true) /\
       (owner acct = OPENBOOK_PROGRAM_ID -> useSerum = false) /\
       (owner acct <> SERUM_PROGRAM_ID -> owner acct <> OPENBOOK_PROGRAM_ID ->
        useSerum = flag)) /\
    (rpcGetAccountInfo env (trace s) target = Ok None -> useSerum = flag) /\
    (forall e, rpcGetAccountInfo env (trace s) target = Throw e -> useSerum = flag) /\
    (validKey env target = false -> useSerum = flag /\ s' = s).
Proof.
  unfold Legacy.detectProgram, try_catch, bind, Legacy.newPublicKey, await.
  destruct (validKey env target); cbn;
    [destruct (rpcGetAccountInfo env (trace s) target) as [[acct|]|e]; cbn;
     [destruct (String.eqb_spec (owner acct) SERUM_PROGRAM_ID);
      [|destruct (String.eqb_spec (owner acct) OPENBOOK_PROGRAM_ID)]| |]|];
    (eexists _, _; split; [reflexivity|]);
    repeat first
      [ match goal with |- _ /\ _ => split end
      | intro
      | match goal with H : Ok _ = Ok _ |- _ => inversion H; clear H; subst end ];
    try discriminate; try contradiction; try reflexivity;
    unfold SERUM_PROGRAM_ID, OPENBOOK_PROGRAM_ID in *; congruence.
Qed.

Lemma legacy_detection_never_stops_witness :
  exists s',
    Legacy.detectProgram (Sample.env Sample.SOL (Sample.marketWith [] []))
      (Error "Invalid public key input") Sample.MARKET true Sample.emptyState
    = (Ok true, s').
Proof.
  destruct (legacy_detection_never_stops (Sample.env Sample.SOL (Sample.marketWith [] []))
              (Error "Invalid public key input") Sample.MARKET true Sample.emptyState)
    as (useSerum & s' & Hrun & Hfound & _).
  exists s'. rewrite Hrun. f_equal. f_equal.
  apply (Hfound (mkAccountInfo Sample.SOL 388) eq_refl eq_refl); discriminate.
Defined.

Lemma legacy_loadOpenBookMarket_throws env invalidKey addr useSerum s e s' :
  Legacy.loadOpenBookMarket env invalidKey addr useSerum s = (Throw e, s') ->
  read_only s s' /\
  ((validKey env addr && validKey env (programId useSerum) = false /\ e = invalidKey) \/
   (validKey env addr = true /\ validKey env (programId useSerum) = true /\
    marketLoad env (trace s) addr (programId useSerum) = Throw e)).
Proof.
  unfold Legacy.loadOpenBookMarket, try_catch, bind, Legacy.newPublicKey, await.
  destruct (validKey env addr); cbn.
  - destruct (validKey env (programId useSerum)); cbn.
    + destruct (marketLoad env (trace s) addr (programId useSerum)) as [m|e0] eqn:Hload;
        [discriminate|].
      intros H; inversion H; subst. split; [|auto].
      apply read_only_trans with (emit (EvMarketLoad addr (programId useSerum)) s);
        [now apply read_only_emit | apply read_only_print].
    + intros H; inversion H; subst. split; [apply read_only_print | auto].
  - intros H; inversion H; subst. split; [apply read_only_print | auto].
Qed.

(** X29.  The loader of the older copy rethrows what it caught, unchanged:
    the exception of [new PublicKey] when the address (or the program id)
    is not valid, the rejection of [Market.load] otherwise.  It leaves the
    store and the files alone. *)
Theorem legacy_loadOpenBookMarket_rethrows env invalidKey addr useSerum s e s' :
  Legacy.loadOpenBookMarket env invalidKey addr useSerum s = (Throw e, s') ->
  same_store s s' /\ writes (trace s') = writes (trace s) /\
  ((validKey env addr && validKey env (programId useSerum) = false /\ e = invalidKey) \/
   (validKey env addr = true /\ validKey env (programId useSerum) = true /\
    marketLoad env (trace s) addr (programId useSerum) = Throw e)).
Proof.
  intros Hrun.
  destruct (legacy_loadOpenBookMarket_throws _ _ _ _ _ _ _ Hrun) as ((Hst & Hw) & Hcase).
  auto.
Qed.

Lemma legacy_loadOpenBookMarket_rethrows_witness :
  same_store Sample.storedState
    (print (OutError "Error loading OpenBook market:") Sample.storedState) /\
  writes (trace (print (OutError "Error loading OpenBook market:") Sample.storedState))
  = writes (trace Sample.storedState) /\
  ((validKey Sample.openbookEnv "--serum" && validKey Sample.openbookEnv (programId false)
    = false /\ Error "Invalid public key input" = Error "Invalid public key input") \/
   (validKey Sample.openbookEnv "--serum" = true /\
    validKey Sample.openbookEnv (programId false) = true /\
    marketLoad Sample.openbookEnv (trace Sample.storedState) "--serum" (programId false)
    = Throw (Error "Invalid public key input"))).
Proof.
  apply (legacy_loadOpenBookMarket_rethrows Sample.openbookEnv
           (Error "Invalid public key input") "--serum" false Sample.storedState).
  reflexivity.
Defined.

(** X30.  In the older copy too, a market that fails to load is not
    added: [addMarketToKnownMarkets] followed by [saveKnownMarketsToFile],
    as its [main] runs them, throws the loader's error after one more error
    line, with the two mappings and the files as they were and no write
    issued. *)
Theorem legacy_add_failure_keeps_store env invalidKey addr useSerum s e s1 :
  Legacy.loadOpenBookMarket env invalidKey addr useSerum s = (Throw e, s1) ->
  bind (Legacy.addMarketToKnownMarkets env invalidKey addr useSerum)
       (fun _ => saveKnownMarketsToFile env useSerum) s
  = (Throw e, print (OutError "Error adding market to known markets:") s1) /\
  same_store s s1 /\ writes (trace s1) = writes (trace s).
Proof.
  intros Hload.
  destruct (legacy_loadOpenBookMarket_throws _ _ _ _ _ _ _ Hload) as ((Hst & Hw) & _).
  split; [|auto].
  apply bind_throw. unfold Legacy.addMarketToKnownMarkets.
  rewrite (try_catch_throw _ _ s e s1); [reflexivity|].
  now apply bind_throw.
Qed.

Lemma legacy_add_failure_keeps_store_witness :
  bind (Legacy.addMarketToKnownMarkets Sample.openbookEnv (Error "Invalid public key input")
          Sample.USDC false)
       (fun _ => saveKnownMarketsToFile Sample.openbookEnv false) Sample.storedState
  = (Throw (Error "Address not owned by program"),
     print (OutError "Error adding market to known markets:")
       (print (OutError "Error loading OpenBook market:")
          (emit (EvMarketLoad Sample.USDC OPENBOOK_PROGRAM_ID) Sample.storedState))).
Proof.
  apply (proj1 (legacy_add_failure_keeps_store Sample.openbookEnv
                  (Error "Invalid public key input") Sample.USDC false Sample.storedState
                  (Error "Address not owned by program")
                  (print (OutError "Error loading OpenBook market:")
                     (emit (EvMarketLoad Sample.USDC OPENBOOK_PROGRAM_ID)
                        Sample.storedState))
                  eq_refl)).
Defined.
